(** * Presence clock (clock.py): token table, drift clock, action cadence

    A shallow embedding of the hashing core of [clock.py]: the token table
    built by [make_token_table], the [DriftClock] class, and the action tick
    of [MiniUI] together with the key and mouse performers.

    Python values are modelled as follows.
    - [int] is [Z]; list indices and slice bounds are converted where the
      source indexes.
    - [float] is the kernel's binary64 type [float]; the comparisons used by
      [min], [max] and [<] are the IEEE ones.
    - [str] is [string] (the UTF-8 bytes of the text); every string whose
      length the code inspects is ASCII, except the reset sentinel, whose
      length differs from 1 in code points and in bytes alike.
    - an exception is a value of [exn]; a call that may raise returns a
      [result].
    - the pseudo-random generator and the OS input layer are outside the
      program: their answers are arguments of the functions that ask. *)

From Stdlib Require Import ZArith List String Ascii Bool Lia Permutation.
From Stdlib Require Import Floats DecimalString.

#[local] Set Warnings "-inexact-float".
Import ListNotations.

Local Open Scope Z_scope.

(** ** Exceptions and results *)

Module Py.

(** The exception classes the model distinguishes; [OtherError cls] is any
    other subclass of [Exception], named by its class. *)
Inductive exn : Type :=
| ValueError
| IndexError
| OtherError (cls : string).

Definition class_name (e : exn) : string :=
  match e with
  | ValueError => "ValueError"
  | IndexError => "IndexError"
  | OtherError cls => cls
  end.

Inductive result (A : Type) : Type :=
| Ok (a : A)
| Raise (e : exn).

Arguments Ok {A} a.
Arguments Raise {A} e.

Definition bind {A B : Type} (r : result A) (k : A -> result B) : result B :=
  match r with
  | Ok a => k a
  | Raise e => Raise e
  end.

(** [l[:n]] and [l[n:]] for an [int] bound, negative bounds counting from
    the end as Python does. *)
Definition slice_to {A : Type} (n : Z) (l : list A) : list A :=
  if n <? 0 then firstn (List.length l - Z.to_nat (- n)) l
  else firstn (Z.to_nat n) l.

Definition slice_from {A : Type} (n : Z) (l : list A) : list A :=
  if n <? 0 then skipn (List.length l - Z.to_nat (- n)) l
  else skipn (Z.to_nat n) l.

(** [l[i]]: a negative index counts from the end; outside the list the
    access raises [IndexError]. *)
Definition index {A : Type} (l : list A) (i : Z) : result A :=
  let j := if i <? 0 then Z.of_nat (List.length l) + i else i in
  if j <? 0 then Raise IndexError
  else match nth_error l (Z.to_nat j) with
       | Some a => Ok a
       | None => Raise IndexError
       end.

(** The built-ins [min(a, b)] and [max(a, b)] on floats: the first argument
    is kept unless the second compares strictly below (above) it. *)
Definition min (a b : float) : float := if (b <? a)%float then b else a.
Definition max (a b : float) : float := if (a <? b)%float then b else a.

(** [bytes(iterable_of_ints)]: every element must lie in [range(256)]. *)
Fixpoint bytes (l : list Z) : result (list Z) :=
  match l with
  | [] => Ok []
  | b :: t =>
      if (0 <=? b) && (b <? 256)
      then bind (bytes t) (fun t' => Ok (b :: t'))
      else Raise ValueError
  end.

(** The built-in values [add_bit] may be handed, with Python's truth
    test, which returns on each of them. *)
Inductive value : Type :=
| VNone
| VBool (b : bool)
| VInt (z : Z)
| VFloat (f : float)
| VStr (s : string)
| VList (l : list Z).

Definition truthy (v : value) : bool :=
  match v with
  | VNone => false
  | VBool b => b
  | VInt z => negb (z =? 0)
  | VFloat f => negb (f =? 0)%float
  | VStr s => negb (String.length s =? 0)%nat
  | VList l => negb (List.length l =? 0)%nat
  end.

End Py.

Notation "x <- c1 ;; c2" := (Py.bind c1 (fun x => c2))
  (at level 61, c1 at next level, right associativity).

(** ** SHA-256 (FIPS 180-4), the function behind [hashlib.sha256] *)

Module SHA256.

Definition w32 (x : Z) : Z := x mod 4294967296.
Definition add32 (a b : Z) : Z := w32 (a + b).
Definition rotr (n x : Z) : Z :=
  Z.lor (Z.shiftr x n) (w32 (Z.shiftl x (32 - n))).
Definition not32 (x : Z) : Z := Z.lxor x 4294967295.

Definition Ch (x y z : Z) : Z := Z.lxor (Z.land x y) (Z.land (not32 x) z).
Definition Maj (x y z : Z) : Z :=
  Z.lxor (Z.lxor (Z.land x y) (Z.land x z)) (Z.land y z).
Definition Sigma0 (x : Z) : Z := Z.lxor (Z.lxor (rotr 2 x) (rotr 13 x)) (rotr 22 x).
Definition Sigma1 (x : Z) : Z := Z.lxor (Z.lxor (rotr 6 x) (rotr 11 x)) (rotr 25 x).
Definition sigma0 (x : Z) : Z := Z.lxor (Z.lxor (rotr 7 x) (rotr 18 x)) (Z.shiftr x 3).
Definition sigma1 (x : Z) : Z := Z.lxor (Z.lxor (rotr 17 x) (rotr 19 x)) (Z.shiftr x 10).

(** The constants are derived as the standard defines them: the first 32
    bits of the fractional parts of the cube roots (round constants) and
    square roots (initial state) of the first primes. *)
Definition primes : list Z :=
  [ 2; 3; 5; 7; 11; 13; 17; 19; 23; 29; 31; 37; 41; 43; 47; 53; 59; 61; 67;
    71; 73; 79; 83; 89; 97; 101; 103; 107; 109; 113; 127; 131; 137; 139; 149;
    151; 157; 163; 167; 173; 179; 181; 191; 193; 197; 199; 211; 223; 227;
    229; 233; 239; 241; 251; 257; 263; 269; 271; 277; 281; 283; 293; 307;
    311 ].

(** The largest [r] below [2 ^ n] above [acc] with [r ^ k <= x], one bit at
    a time. *)
Fixpoint iroot (k : Z) (n : nat) (x acc : Z) : Z :=
  match n with
  | O => acc
  | S n' =>
      let cand := acc + 2 ^ Z.of_nat n' in
      if cand ^ k <=? x then iroot k n' x cand else iroot k n' x acc
  end.

Definition frac_root (k p : Z) : Z :=
  w32 (iroot k 40 (p * 2 ^ (32 * k)) 0).

Definition K : list Z := Eval vm_compute in map (frac_root 3) primes.

Definition H0 : list Z := Eval vm_compute in map (frac_root 2) (firstn 8 primes).

(** Padding: a 1 bit, zeros up to 56 mod 64 bytes, the bit length on 8
    bytes, big-endian. *)
Definition be_bytes (n : nat) (x : Z) : list Z :=
  map (fun i => Z.land (Z.shiftr x (8 * Z.of_nat i)) 255) (rev (seq 0 n)).

Definition pad (msg : list Z) : list Z :=
  let len := Z.of_nat (List.length msg) in
  let zeros := Z.to_nat ((55 - len) mod 64) in
  msg ++ [128] ++ repeat 0 zeros ++ be_bytes 8 (8 * len).

Definition word_of (b0 b1 b2 b3 : Z) : Z :=
  Z.lor (Z.lor (Z.lor (Z.shiftl b0 24) (Z.shiftl b1 16)) (Z.shiftl b2 8)) b3.

Fixpoint words (fuel : nat) (l : list Z) : list Z :=
  match fuel, l with
  | S f, b0 :: b1 :: b2 :: b3 :: t => word_of b0 b1 b2 b3 :: words f t
  | _, _ => []
  end.

(** The message schedule, kept newest first: [extend n w] adds [n] words
    to the schedule [w]. *)
Fixpoint extend (n : nat) (w : list Z) : list Z :=
  match n with
  | O => w
  | S n' =>
      let x := add32 (add32 (sigma1 (nth 1 w 0)) (nth 6 w 0))
                     (add32 (sigma0 (nth 14 w 0)) (nth 15 w 0)) in
      extend n' (x :: w)
  end.

Definition schedule (block : list Z) : list Z :=
  rev (extend 48 (rev (words 16 block))).

Record regs : Type := Regs { ra : Z; rb : Z; rc : Z; rd : Z; re : Z; rf : Z; rg : Z; rh : Z }.

Definition round (s : regs) (kw : Z * Z) : regs :=
  let '(k, w) := kw in
  let t1 := add32 (add32 (add32 (add32 (rh s) (Sigma1 (re s))) (Ch (re s) (rf s) (rg s))) k) w in
  let t2 := add32 (Sigma0 (ra s)) (Maj (ra s) (rb s) (rc s)) in
  Regs (add32 t1 t2) (ra s) (rb s) (rc s) (add32 (rd s) t1) (re s) (rf s) (rg s).

Definition regs_of (h : list Z) : regs :=
  Regs (nth 0 h 0) (nth 1 h 0) (nth 2 h 0) (nth 3 h 0)
       (nth 4 h 0) (nth 5 h 0) (nth 6 h 0) (nth 7 h 0).

Definition compress (h : list Z) (block : list Z) : list Z :=
  let s := fold_left round (combine K (schedule block)) (regs_of h) in
  [ add32 (nth 0 h 0) (ra s); add32 (nth 1 h 0) (rb s);
    add32 (nth 2 h 0) (rc s); add32 (nth 3 h 0) (rd s);
    add32 (nth 4 h 0) (re s); add32 (nth 5 h 0) (rf s);
    add32 (nth 6 h 0) (rg s); add32 (nth 7 h 0) (rh s) ].

Fixpoint blocks (n : nat) (h : list Z) (l : list Z) : list Z :=
  match n with
  | O => h
  | S n' => blocks n' (compress h (firstn 64 l)) (skipn 64 l)
  end.

(** The 32 bytes of the digest. *)
Definition digest (msg : list Z) : list Z :=
  let p := pad msg in
  flat_map (be_bytes 4) (blocks (List.length p / 64) H0 p).

Definition hex_digit (d : Z) : string :=
  String (nth (Z.to_nat d)
              (list_ascii_of_string "0123456789abcdef") "0"%char) EmptyString.

Definition hexdigest (msg : list Z) : string :=
  fold_right (fun b acc => hex_digit (b / 16) ++ hex_digit (b mod 16) ++ acc)%string
             EmptyString (digest msg).

End SHA256.

(** ** Configuration constants *)

Definition CYCLE_BITS_DEFAULT : Z := 120.
Definition TOKEN_DRIFT_RANGE_DEFAULT : float := 0.002%float.
Definition RESET_TOKEN : string := "§RESET§".
Definition RESET_PROBABILITY_DEFAULT : float := 0.02%float.
Definition ACTION_PERIOD_SEC_DEFAULT : float := 1.0%float.
Definition PRESENCE_POLL_INTERVAL_DEFAULT : float := 0.25%float.
Definition ACTIVE_STATES : list string := ["online"; "idle"; "dnd"; "mobile"]%string.
Definition MOUSE_STEP_DEFAULT : Z := 24.
Definition MOUSE_ACCEL_DEFAULT : Z := 4.
Definition MOUSE_MAX_STEP_DEFAULT : Z := 96.
Definition USE_ADMINLESS_KEYS_DEFAULT : bool := true.
Definition KEY_DELAY_DEFAULT : float := 0.03%float.
Definition MOUSE_DOMINANCE_DEFAULT : Z := 60.
Definition KEY_DOMINANCE_DEFAULT : Z := 40.
Definition RANDOMIZE_TOKEN_TABLE_ON_START : bool := true.

(** [x in l] for strings. *)
Definition str_in (x : string) (l : list string) : bool :=
  existsb (String.eqb x) l.

(** [list(s)]: the one-character strings of [s]. *)
Definition chars (s : string) : list string :=
  map (fun c => String c EmptyString) (list_ascii_of_string s).

(** ** Token table *)

Module TokenTable.

Definition base0 : list string :=
  chars "ABCDEFGHIJKLMNOPQRSTUVWXYZ" ++
  chars "abcdefghijklmnopqrstuvwxyz" ++
  chars "0123456789" ++
  chars "!@#$%^&*()-_=+[]{};:,<.>/?".

(** [while len(base) < 64: base += base]; [None] when the loop is still
    running after [fuel] doublings. *)
Fixpoint grow (fuel : nat) (base : list string) : option (list string) :=
  if (List.length base <? 64)%nat then
    match fuel with
    | O => None
    | S f => grow f (base ++ base)
    end
  else Some base.

(** [base[0] = x]. *)
Definition set0 (x : string) (base : list string) : Py.result (list string) :=
  match base with
  | [] => Py.Raise Py.IndexError
  | _ :: t => Py.Ok (x :: t)
  end.

Definition ensure_reset (base : list string) : Py.result (list string) :=
  if negb (str_in RESET_TOKEN base) then set0 RESET_TOKEN base else Py.Ok base.

(** [randomize] stands for [RANDOMIZE_TOKEN_TABLE_ON_START]; [shuffle] is
    what [random.Random().shuffle] does to the list it is given. *)
Definition make_token_table (fuel : nat) (randomize : bool)
    (shuffle : list string -> list string) : option (Py.result (list string)) :=
  match grow fuel base0 with
  | None => None
  | Some base =>
      Some (base <- ensure_reset (Py.slice_to 64 base) ;;
            if randomize then ensure_reset (shuffle base) else Py.Ok base)
  end.

(** The table when nothing is shuffled: the sentinel, then the 63
    candidates after the first. *)
Definition plain : list string :=
  RESET_TOKEN :: tl (firstn 64 base0).

End TokenTable.

(** ** Drift clock *)

Module Clock.

(** [sha_index]: the low six bits of the first digest byte. *)
Definition sha_index (bits : list Z) : Py.result Z :=
  bs <- Py.bytes bits ;;
  d0 <- Py.index (SHA256.digest bs) 0 ;;
  Py.Ok (Z.land d0 63).

Record DriftClock : Type := mkDriftClock {
  bits : list Z;
  cycle_bits : Z;
  drift_range : float;
  reset_prob : float;
  drift : float;
  window_counter : Z
}.

Definition init (cb : Z) (dr rp : float) : DriftClock :=
  mkDriftClock [] (Z.max 1 cb) dr rp 0%float 0.

Definition reset_params (c : DriftClock) (cb : Z) (dr rp : float) : DriftClock :=
  mkDriftClock (bits c) (Z.max 1 cb) dr rp (drift c) (window_counter c).

Definition add_bit (c : DriftClock) (b : Py.value) : DriftClock :=
  mkDriftClock (bits c ++ [if Py.truthy b then 1 else 0])
               (cycle_bits c) (drift_range c) (reset_prob c)
               (drift c) (window_counter c).

Definition full (c : DriftClock) : bool :=
  Z.of_nat (List.length (bits c)) >=? cycle_bits c.

Section Emit.

(** The module-level table [TOKENS]. *)
Variable TOKENS : list string.

(** [emit]: [u] is the value [random.uniform(-drift_range, drift_range)]
    returns, [r] the value [random.random()] returns (asked for only
    when the token is the reset sentinel). *)
Definition emit (c : DriftClock) (u r : float) : Py.result (string * DriftClock) :=
  let out := Py.slice_to (cycle_bits c) (bits c) in
  let bits1 := Py.slice_from (cycle_bits c) (bits c) in
  idx <- sha_index out ;;
  token <- Py.index TOKENS (idx mod 64) ;;
  let d1 := (drift c + u)%float in
  let d2 := Py.max (Py.min d1 (drift_range c * 8)%float)
                   (- drift_range c * 8)%float in
  let reset := (token =? RESET_TOKEN)%string && (r <? reset_prob c)%float in
  Py.Ok (token,
         mkDriftClock (if reset then [] else bits1)
                      (cycle_bits c) (drift_range c) (reset_prob c)
                      (if reset then 0%float else d2)
                      (window_counter c + 1)).

(** The clock [emit] leaves behind, given the token it found. *)
Definition after_emit (c : DriftClock) (u r : float) (token : string) : DriftClock :=
  let reset := (token =? RESET_TOKEN)%string && (r <? reset_prob c)%float in
  mkDriftClock
    (if reset then [] else Py.slice_from (cycle_bits c) (bits c))
    (cycle_bits c) (drift_range c) (reset_prob c)
    (if reset then 0%float
     else Py.max (Py.min (drift c + u) (drift_range c * 8))
                 (- drift_range c * 8))%float
    (window_counter c + 1).

End Emit.

End Clock.

(** ** The window, its timers and the action tick *)

Module UI.

(** The OS input layer ([pyautogui] and the optional [keyboard] module):
    what each call answers. [kb_mod] is [None] when the import failed.
    [time_sleep] is [time.sleep], which returns once the time is over and
    raises on a duration it cannot take (a negative one or a NaN:
    [ValueError]; one too large: [OverflowError]). *)
Record Actuator : Type := mkActuator {
  pyautogui_write : string -> Py.result unit;
  pyautogui_press : string -> Py.result unit;
  kb_mod : option (string -> Py.result unit);
  pyautogui_position : unit -> Py.result (Z * Z);
  pyautogui_moveTo : Z -> Z -> Py.result unit;
  pyautogui_click : unit -> Py.result unit;
  pyautogui_rightClick : unit -> Py.result unit;
  pyautogui_scroll : Z -> Py.result unit;
  pyautogui_hscroll : Z -> Py.result unit;
  pyautogui_mouseDown : unit -> Py.result unit;
  pyautogui_mouseUp : unit -> Py.result unit;
  time_sleep : float -> Py.result unit
}.

(** [d.get(key, default)] and [d[key]] on a dict given by its items. *)
Fixpoint dict_get {V : Type} (d : list (string * V)) (key : string) (default : V) : V :=
  match d with
  | [] => default
  | (k, v) :: t => if (k =? key)%string then v else dict_get t key default
  end.

Definition dict_keys {V : Type} (d : list (string * V)) : list string := map fst d.

(** [str(n)] for an [int]. *)
Definition str_of_int (n : Z) : string := NilZero.string_of_int (Z.to_int n).

(** [s.isprintable()] on ASCII text. *)
Definition isprintable (s : string) : bool :=
  forallb (fun c => let n := nat_of_ascii c in (32 <=? n)%nat && (n <? 127)%nat)
          (list_ascii_of_string s).

(** *** Keyboard and mouse output *)

Definition key_mapping : list (string * string) :=
  [ ("page up", "pageup"); ("page down", "pagedown"); ("caps lock", "capslock");
    ("left", "left"); ("right", "right"); ("up", "up"); ("down", "down");
    ("ctrl", "ctrl"); ("alt", "alt"); ("shift", "shift"); ("enter", "enter");
    ("backspace", "backspace"); ("tab", "tab"); ("home", "home"); ("end", "end");
    ("insert", "insert"); ("delete", "delete"); ("space", "space"); ("esc", "esc")
  ]%string.

Definition key_known : list string :=
  [ "f1"; "f2"; "f3"; "f4"; "f5"; "f6"; "f7"; "f8"; "f9"; "f10"; "f11"; "f12";
    "pageup"; "pagedown"; "home"; "end"; "insert"; "delete"; "space";
    "left"; "right"; "up"; "down"; "enter"; "tab"; "backspace"; "capslock";
    "ctrl"; "alt"; "shift"; "esc"; "-"; "="; "["; "]"; "\"; ";"; "'"; ","; "."; "/"
  ]%string.

Section Output.

Variable io : Actuator.

(** The body of the [try] block of [key_press]: the dispatch, then
    [time.sleep(max(0.0, key_delay))]. *)
Definition key_press_body (key : string) (key_delay : float) (adminless : bool)
    : Py.result string :=
  match adminless, kb_mod io with
  | false, Some press_and_release =>
      _ <- press_and_release key ;;
      _ <- time_sleep io (Py.max 0 key_delay) ;;
      Py.Ok ("key:" ++ key)%string
  | _, _ =>
      let k := dict_get key_mapping key key in
      _ <- (if (String.length k =? 1)%nat && isprintable k && negb (str_in k key_known)
            then pyautogui_write io k
            else if str_in k key_known then pyautogui_press io k
            else pyautogui_write io k) ;;
      _ <- time_sleep io (Py.max 0 key_delay) ;;
      Py.Ok ("key:" ++ k)%string
  end.

(** [key_press]: the [except Exception] clause turns a raise into a tag. *)
Definition key_press (key : string) (key_delay : float) (adminless : bool) : string :=
  match key_press_body key key_delay adminless with
  | Py.Ok tag => tag
  | Py.Raise e => ("key-skip:" ++ key ++ ":" ++ Py.class_name e)%string
  end.

Definition mouse_move (dx dy : Z) : Py.result string :=
  xy <- pyautogui_position io tt ;;
  _ <- pyautogui_moveTo io (fst xy + dx) (snd xy + dy) ;;
  Py.Ok ("move(" ++ str_of_int dx ++ "," ++ str_of_int dy ++ ")")%string.

Definition mouse_click (left dbl : bool) : Py.result string :=
  if dbl && left then
    _ <- pyautogui_click io tt ;;
    _ <- time_sleep io 0.05 ;;
    _ <- pyautogui_click io tt ;;
    Py.Ok "dblclick"%string
  else if left then
    _ <- pyautogui_click io tt ;; Py.Ok "click"%string
  else
    _ <- pyautogui_rightClick io tt ;; Py.Ok "rclick"%string.

Definition mouse_wheel (v h : Z) : Py.result string :=
  if negb (v =? 0) then
    _ <- pyautogui_scroll io v ;; Py.Ok ("scroll_v:" ++ str_of_int v)%string
  else if negb (h =? 0) then
    _ <- pyautogui_hscroll io h ;; Py.Ok ("scroll_h:" ++ str_of_int h)%string
  else Py.Ok "wheel:noop"%string.

Definition mouse_drag (start : bool) : Py.result string :=
  if start then
    _ <- pyautogui_mouseDown io tt ;; Py.Ok "drag_start"%string
  else
    _ <- pyautogui_mouseUp io tt ;; Py.Ok "drag_end"%string.

End Output.

Definition MOUSE_DIR : list (string * (Z * Z)) :=
  [ ("up", (0, -1)); ("down", (0, 1)); ("left", (-1, 0)); ("right", (1, 0));
    ("up_left", (-1, -1)); ("up_right", (1, -1));
    ("down_left", (-1, 1)); ("down_right", (1, 1));
    ("upward", (0, -1)) ]%string.

Definition MOUSE_TOKENS_CLICKS : list (string * string) :=
  [ ("click", "L"); ("rclick", "R"); ("dblclick", "D") ]%string.

Definition MOUSE_TOKENS_SCROLL : list (string * Z) :=
  [ ("scroll_up", 1); ("scroll_down", -1);
    ("scroll_left", -1); ("scroll_right", 1) ]%string.

Definition MOUSE_TOKENS_DRAG : list (string * string) :=
  [ ("drag_start", "S"); ("drag_end", "E") ]%string.

Definition KEY_ACTIONS : list string :=
  [ "w"; "a"; "s"; "d"; "space"; "enter"; "tab"; "backspace";
    "left"; "right"; "up"; "down"; "ctrl"; "alt"; "shift"; "esc" ]%string.

(** *** State of the window *)

Record Settings : Type := mkSettings {
  st_cycle_bits : Z;
  st_action_period : float;
  st_drift_range : float;
  st_reset_prob : float;
  st_presence_poll : float;
  st_mouse_step : Z;
  st_mouse_accel : Z;
  st_mouse_max : Z;
  st_key_delay : float;
  st_adminless : bool;
  st_mouse_dom : Z;
  st_key_dom : Z
}.

(** [mode_index] with [mode_names]: 0 = Mouse, 1 = Keyboard, 2 = Auto. *)
Inductive Mode : Type := ModeMouse | ModeKeyboard | ModeAuto.

(** The value of [action_domain]. *)
Inductive Domain : Type := Mouse | Keyboard.

(** What the tick sends to the labels. *)
Inductive Signal : Type :=
| SigPresence (s : string)
| SigToken (s : string)
| SigDrift (d : float).

(** The fields of [MiniUI] the two timers read and write. [watcher] holds
    [watcher.state] when a watcher exists. *)
Record MiniUI : Type := mkMiniUI {
  state : Settings;
  watcher : option string;
  clock : option Clock.DriftClock;
  run_flag : bool;
  paused : bool;
  mode : Mode;
  last_bits : list Z;
  cur_step : Z;
  last_emit_ts : float;
  keepalive_seconds : float
}.

Definition set_clock (w : MiniUI) (c : Clock.DriftClock) : MiniUI :=
  mkMiniUI (state w) (watcher w) (Some c) (run_flag w) (paused w) (mode w)
           (last_bits w) (cur_step w) (last_emit_ts w) (keepalive_seconds w).

Definition set_last_bits (w : MiniUI) (l : list Z) : MiniUI :=
  mkMiniUI (state w) (watcher w) (clock w) (run_flag w) (paused w) (mode w)
           l (cur_step w) (last_emit_ts w) (keepalive_seconds w).

Definition set_cur_step (w : MiniUI) (n : Z) : MiniUI :=
  mkMiniUI (state w) (watcher w) (clock w) (run_flag w) (paused w) (mode w)
           (last_bits w) n (last_emit_ts w) (keepalive_seconds w).

Definition set_last_emit_ts (w : MiniUI) (t : float) : MiniUI :=
  mkMiniUI (state w) (watcher w) (clock w) (run_flag w) (paused w) (mode w)
           (last_bits w) (cur_step w) t (keepalive_seconds w).

(** [_mouse_dom_changed]: the slider sets both weights. *)
Definition _mouse_dom_changed (s : Settings) (val : Z) : Settings :=
  let val := Z.max 0 (Z.min 100 val) in
  mkSettings (st_cycle_bits s) (st_action_period s) (st_drift_range s)
             (st_reset_prob s) (st_presence_poll s) (st_mouse_step s)
             (st_mouse_accel s) (st_mouse_max s) (st_key_delay s)
             (st_adminless s) val (100 - val).

(** *** History of presence bits *)

Definition SALT : list Z := [1; 0; 1; 0; 0; 1; 0; 1].

Definition presence_bit (watcher_state : string) : Z :=
  if str_in watcher_state ACTIVE_STATES then 1 else 0.

(** [last_bits.append(bit)], then [pop(0)] beyond 64 entries. *)
Definition push_last_bits (l : list Z) (bit : Z) : list Z :=
  let l := l ++ [bit] in
  if (64 <? List.length l)%nat then tl l else l.

(** The hash input of the action tick. *)
Definition seed_bits (l : list Z) (watcher_state : string) : list Z :=
  if (List.length l <? 8)%nat then
    if str_in watcher_state ACTIVE_STATES then repeat 1 8 else repeat 0 8
  else l.

Definition action_hash_input (l : list Z) (watcher_state : string) : list Z :=
  seed_bits l watcher_state ++ SALT.

(** The hash input of the keepalive token. *)
Definition keepalive_hash_input (l : list Z) : list Z :=
  (if (8 <=? List.length l)%nat then l else repeat 0 8) ++ SALT.

(** *** Random draws *)

(** The answers of the [random] module during one action tick:
    [uniform_dom] is [random.uniform(0, m_dom + k_dom)], [random_r] is
    [random.random()], and [choice_i] selects the element [random.choice]
    returns. *)
Record Draws : Type := mkDraws {
  uniform_dom : float;
  random_r : float;
  choice_i : nat
}.

Definition choice (i : nat) (l : list string) : string :=
  nth (i mod List.length l) l EmptyString.

(** An [int] as the float it is compared with. *)
Definition float_of_int (n : Z) : float :=
  SF2Prim (binary_normalize prec emax n 0 false).

(** The choice of domain in [_on_action_tick]. *)
Definition action_domain (m : Mode) (m_dom k_dom : Z) (uniform : float) : Domain :=
  match m with
  | ModeMouse => Mouse
  | ModeKeyboard => Keyboard
  | ModeAuto =>
      if (m_dom =? 0) && (k_dom =? 0) then Mouse
      else if m_dom =? 0 then Keyboard
      else if k_dom =? 0 then Mouse
      else if (uniform <? float_of_int m_dom)%float then Mouse else Keyboard
  end.

Definition _choose_mouse_action (token : string) (d : Draws) : string :=
  let r := random_r d in
  if (r <? 0.60)%float then choice (choice_i d) (dict_keys MOUSE_DIR)
  else if (r <? 0.85)%float then choice (choice_i d) (dict_keys MOUSE_TOKENS_CLICKS)
  else if (r <? 0.95)%float then choice (choice_i d) (dict_keys MOUSE_TOKENS_SCROLL)
  else choice (choice_i d) (dict_keys MOUSE_TOKENS_DRAG).

Definition _choose_key_action (token : string) (d : Draws) : string :=
  if (random_r d <? 0.85)%float then choice (choice_i d) KEY_ACTIONS
  else if (String.length token =? 1)%nat && isprintable token then token
  else "space"%string.

(** *** Performers *)

Section Perform.

Variable io : Actuator.

(** [_perform_mouse]: the new [cur_step] and what the call returns or
    raises. *)
Definition _perform_mouse (w : MiniUI) (action_token : string)
    : Z * Py.result string :=
  let ms := st_mouse_step (state w) in
  let accel := st_mouse_accel (state w) in
  let mmax := st_mouse_max (state w) in
  if str_in action_token (dict_keys MOUSE_DIR) then
    let '(dx, dy) := dict_get MOUSE_DIR action_token (0, 0) in
    let step := Z.min mmax (Z.max ms (cur_step w + accel)) in
    (step, mouse_move io (dx * step) (dy * step))
  else
    (ms,
     let kind := dict_get MOUSE_TOKENS_CLICKS action_token ""%string in
     if str_in action_token (dict_keys MOUSE_TOKENS_CLICKS) && (kind =? "L")%string
     then mouse_click io true false
     else if str_in action_token (dict_keys MOUSE_TOKENS_CLICKS) && (kind =? "R")%string
     then mouse_click io false false
     else if str_in action_token (dict_keys MOUSE_TOKENS_CLICKS) && (kind =? "D")%string
     then mouse_click io true true
     else if str_in action_token (dict_keys MOUSE_TOKENS_SCROLL) then
       let d := dict_get MOUSE_TOKENS_SCROLL action_token 0 in
       if str_in action_token ["scroll_up"; "scroll_down"]%string
       then mouse_wheel io (d * 400) 0
       else mouse_wheel io 0 (d * 400)
     else if str_in action_token (dict_keys MOUSE_TOKENS_DRAG) then
       mouse_drag io (action_token =? "drag_start")%string
     else Py.Ok "noop"%string).

Definition name_map : list (string * string) :=
  [ ("space", "space"); ("enter", "enter"); ("tab", "tab");
    ("backspace", "backspace"); ("left", "left"); ("right", "right");
    ("up", "up"); ("down", "down"); ("ctrl", "ctrl"); ("alt", "alt");
    ("shift", "shift"); ("esc", "esc") ]%string.

Definition _perform_key (w : MiniUI) (action_token : string) : string :=
  let kd := st_key_delay (state w) in
  let adminless := st_adminless (state w) in
  let key := action_token in
  if str_in key (dict_keys name_map) then
    key_press io (dict_get name_map key key) kd adminless
  else if (String.length key =? 1)%nat && isprintable key then
    key_press io key kd adminless
  else key_press io "space"%string kd adminless.

Section Tick.

Variable TOKENS : list string.

(** [_on_action_tick]: the window afterwards, and the signals sent or
    the exception that leaves the handler. *)
Definition _on_action_tick (w : MiniUI) (d : Draws)
    : MiniUI * Py.result (list Signal) :=
  match run_flag w, clock w, watcher w with
  | true, Some c, Some wstate =>
      if paused w then (w, Py.Ok [])
      else
        match (idx <- Clock.sha_index (action_hash_input (last_bits w) wstate) ;;
               Py.index TOKENS (idx mod 64)) with
        | Py.Raise e => (w, Py.Raise e)
        | Py.Ok token =>
            match action_domain (mode w) (st_mouse_dom (state w))
                                (st_key_dom (state w)) (uniform_dom d) with
            | Mouse =>
                let action_token := _choose_mouse_action token d in
                let '(step, res) := _perform_mouse w action_token in
                (set_cur_step w step,
                 result <- res ;;
                 Py.Ok [ SigToken (token ++ " → " ++ action_token
                                   ++ " [" ++ result ++ "]")%string;
                         SigDrift (Clock.drift c) ])
            | Keyboard =>
                let action_token := _choose_key_action token d in
                let result := _perform_key w action_token in
                (w,
                 Py.Ok [ SigToken (token ++ " → " ++ action_token
                                   ++ " [" ++ result ++ "]")%string;
                         SigDrift (Clock.drift c) ])
            end
        end
  | _, _, _ => (w, Py.Ok [])
  end.

(** [_on_cycle_tick]: [now] is [time.time()], [u] and [r] the draws
    [emit] asks for. *)
Definition _on_cycle_tick (w : MiniUI) (now u r : float)
    : MiniUI * Py.result (list Signal) :=
  match run_flag w, clock w, watcher w with
  | true, Some c, Some wstate =>
      let bit := presence_bit wstate in
      let c1 := if paused w then c else Clock.add_bit c (Py.VInt bit) in
      let w1 := set_last_bits (set_clock w c1) (push_last_bits (last_bits w) bit) in
      if negb (paused w) && Clock.full c1 then
        match Clock.emit TOKENS c1 u r with
        | Py.Raise e => (w1, Py.Raise e)
        | Py.Ok (token, c2) =>
            (set_last_emit_ts (set_clock w1 c2) now,
             Py.Ok [ SigPresence wstate; SigDrift (Clock.drift c2);
                     SigToken ("[cycle] " ++ token)%string ])
        end
      else if (keepalive_seconds w <=? now - last_emit_ts w)%float then
        match (idx <- Clock.sha_index (keepalive_hash_input (last_bits w1)) ;;
               Py.index TOKENS (idx mod 64)) with
        | Py.Raise e => (w1, Py.Raise e)
        | Py.Ok token =>
            (set_last_emit_ts w1 now,
             Py.Ok [ SigPresence wstate;
                     SigToken ("[keepalive] " ++ token)%string ])
        end
      else (w1, Py.Ok [SigPresence wstate])
  | _, _, _ => (w, Py.Ok [])
  end.

End Tick.

End Perform.

End UI.

(** ** Sequences of clock operations *)

Module Session.

Inductive Op : Type :=
| OpAddBit (v : Py.value)
| OpEmit (u r : float)
| OpResetParams (cb : Z) (dr rp : float).

Section Run.

Variable TOKENS : list string.

Definition step (c : Clock.DriftClock) (o : Op) : Py.result Clock.DriftClock :=
  match o with
  | OpAddBit v => Py.Ok (Clock.add_bit c v)
  | OpEmit u r => tc <- Clock.emit TOKENS c u r ;; Py.Ok (snd tc)
  | OpResetParams cb dr rp => Py.Ok (Clock.reset_params c cb dr rp)
  end.

Fixpoint run (c : Clock.DriftClock) (ops : list Op) : Py.result Clock.DriftClock :=
  match ops with
  | [] => Py.Ok c
  | o :: t => c' <- step c o ;; run c' t
  end.

End Run.

(** A configured drift range: positive and finite. *)
Definition range_ok (dr : float) : bool :=
  ((0 <? dr) && (dr <? infinity))%float.

(** What [random.uniform(-dr, dr)] may return. *)
Definition draw_ok (dr u : float) : bool :=
  ((- dr <=? u) && (u <=? dr))%float.

(** Every range set is a configured one and every draw of an [emit] lies
    in the range in force when it is made. *)
Fixpoint draws_ok (dr : float) (ops : list Op) : bool :=
  match ops with
  | [] => true
  | OpAddBit _ :: t => draws_ok dr t
  | OpEmit u _ :: t => draw_ok dr u && draws_ok dr t
  | OpResetParams _ dr' _ :: t => range_ok dr' && draws_ok dr' t
  end.

Definition is_bit (b : Z) : bool := (b =? 0) || (b =? 1).
Definition is_bits (l : list Z) : bool := forallb is_bit l.

End Session.

(** ** Classes of binary64 values *)

Module FloatSpec.

Definition sf_nan (x : spec_float) : bool :=
  match x with S754_nan => true | _ => false end.

(** Zero or positive, the positive infinity included. *)
Definition sf_nonneg (x : spec_float) : bool :=
  match x with
  | S754_zero _ => true
  | S754_infinity s | S754_finite s _ _ => negb s
  | S754_nan => false
  end.

Definition sf_fin (x : spec_float) : bool :=
  match x with
  | S754_zero _ | S754_finite _ _ _ => true
  | _ => false
  end.

(** A zero, a finite number or an infinity of sign [s]. *)
Definition signed (s : bool) (x : spec_float) : bool :=
  match x with
  | S754_zero s' | S754_infinity s' | S754_finite s' _ _ => Bool.eqb s s'
  | S754_nan => false
  end.

Definition fnan (x : float) : bool := sf_nan (Prim2SF x).

End FloatSpec.

(** What a run keeps true of the clock. *)
Definition clock_ok (c : Clock.DriftClock) : Prop :=
  Session.is_bits (Clock.bits c) = true
  /\ FloatSpec.fnan (Clock.drift c) = false
  /\ Session.range_ok (Clock.drift_range c) = true.

(** ** The hash input as the specification words it *)

Module Spec.

(** The last [n] entries of a list. *)
Definition lastn {A : Type} (n : nat) (l : list A) : list A :=
  skipn (List.length l - n) l.

(** "the most recent at most 8 bits of presence history (or a fixed
    default pattern if fewer than 8 are available), concatenated with a
    fixed 8-bit salt pattern" *)
Definition spec_hash_input (default history : list Z) : list Z :=
  (if (List.length history <? 8)%nat then default else lastn 8 history)
  ++ UI.SALT.

End Spec.

(** ** A session in which a click fails *)

Module Scenario.

Definition ok_unit {A : Type} (_ : A) : Py.result unit := Py.Ok tt.

(** Every call of the input layer succeeds, except [pyautogui.click],
    which raises [OSError]. *)
Definition click_fails : UI.Actuator :=
  UI.mkActuator ok_unit ok_unit None
    (fun _ => Py.Ok (100, 100)) (fun _ _ => Py.Ok tt)
    (fun _ => Py.Raise (Py.OtherError "OSError"))
    ok_unit ok_unit ok_unit ok_unit ok_unit ok_unit.

(** Every key call raises [OSError]. *)
Definition keys_fail : UI.Actuator :=
  UI.mkActuator (fun _ => Py.Raise (Py.OtherError "OSError"))
    (fun _ => Py.Raise (Py.OtherError "OSError"))
    (Some (fun _ => Py.Raise (Py.OtherError "OSError")))
    (fun _ => Py.Ok (100, 100)) (fun _ _ => Py.Ok tt)
    ok_unit ok_unit ok_unit ok_unit ok_unit ok_unit ok_unit.

Definition defaults : UI.Settings :=
  UI.mkSettings CYCLE_BITS_DEFAULT ACTION_PERIOD_SEC_DEFAULT
    TOKEN_DRIFT_RANGE_DEFAULT RESET_PROBABILITY_DEFAULT
    PRESENCE_POLL_INTERVAL_DEFAULT MOUSE_STEP_DEFAULT MOUSE_ACCEL_DEFAULT
    MOUSE_MAX_STEP_DEFAULT KEY_DELAY_DEFAULT USE_ADMINLESS_KEYS_DEFAULT
    MOUSE_DOMINANCE_DEFAULT KEY_DOMINANCE_DEFAULT.

(** A started, unpaused window in mode [m], the user seen online. *)
Definition window (m : UI.Mode) : UI.MiniUI :=
  UI.mkMiniUI defaults (Some "online"%string)
    (Some (Clock.init CYCLE_BITS_DEFAULT TOKEN_DRIFT_RANGE_DEFAULT
                      RESET_PROBABILITY_DEFAULT))
    true false m [] MOUSE_STEP_DEFAULT 0 12.

(** Draws that lead the mouse chooser to ["click"]. *)
Definition click_draws : UI.Draws := UI.mkDraws 10 0.7 0.

(** A clock of window size 8 holding the bits [l]. *)
Definition clock_with (l : list Z) (rp : float) : Clock.DriftClock :=
  fold_left (fun c b => Clock.add_bit c (Py.VInt b)) l
            (Clock.init 8 TOKEN_DRIFT_RANGE_DEFAULT rp).

End Scenario.

(** ** Measures of a run *)

Module Trace.

(** An element [bytes] accepts. *)
Definition is_byte (b : Z) : bool := (0 <=? b) && (b <? 256).

(** The calls of [emit] in a sequence of operations. *)
Fixpoint count_emits (ops : list Session.Op) : Z :=
  match ops with
  | [] => 0
  | Session.OpEmit _ _ :: t => 1 + count_emits t
  | _ :: t => count_emits t
  end.

End Trace.

(** ** Sequences of pointer actions *)

Module Pointer.

(** The window after the pointer actions [tokens], one per action tick:
    each one leaves its [cur_step] behind, whether its call returns or
    raises. *)
Definition perform_all (io : UI.Actuator) (w : UI.MiniUI) (tokens : list string)
    : UI.MiniUI :=
  fold_left (fun w a => UI.set_cur_step w (fst (UI._perform_mouse io w a))) tokens w.

(** The tags of the pointer actions that do not depend on the step. *)
Definition fixed_tags : list string :=
  [ "click"; "rclick"; "dblclick"; "scroll_v:400"; "scroll_v:-400";
    "scroll_h:-400"; "scroll_h:400"; "drag_start"; "drag_end" ]%string.

(** Every action token the mouse chooser can return. *)
Definition mouse_tokens : list string :=
  UI.dict_keys UI.MOUSE_DIR ++ UI.dict_keys UI.MOUSE_TOKENS_CLICKS
  ++ UI.dict_keys UI.MOUSE_TOKENS_SCROLL ++ UI.dict_keys UI.MOUSE_TOKENS_DRAG.

End Pointer.

(** ** Sequences of cycle ticks *)

Module Ticks.

(** What one cycle tick finds: the state the watcher thread last wrote to
    [watcher.state], the time, and the draws [emit] would ask for. *)
Record TickInput : Type := mkTickInput {
  seen : string;
  now : float;
  draw_u : float;
  draw_r : float
}.

(** The watcher thread's write to [watcher.state]. *)
Definition set_watcher (w : UI.MiniUI) (s : string) : UI.MiniUI :=
  match UI.watcher w with
  | None => w
  | Some _ =>
      UI.mkMiniUI (UI.state w) (Some s) (UI.clock w) (UI.run_flag w) (UI.paused w)
                  (UI.mode w) (UI.last_bits w) (UI.cur_step w)
                  (UI.last_emit_ts w) (UI.keepalive_seconds w)
  end.

Section Run.

Variable TOKENS : list string.

Definition cycle_tick (w : UI.MiniUI) (ti : TickInput)
    : UI.MiniUI * Py.result (list UI.Signal) :=
  UI._on_cycle_tick TOKENS (set_watcher w (seen ti)) (now ti) (draw_u ti) (draw_r ti).

(** The timer fires once per input; a tick that raises ends the run. *)
Fixpoint cycle_ticks (w : UI.MiniUI) (tis : list TickInput)
    : UI.MiniUI * Py.result unit :=
  match tis with
  | [] => (w, Py.Ok tt)
  | ti :: t =>
      match cycle_tick w ti with
      | (w1, Py.Ok _) => cycle_ticks w1 t
      | (w1, Py.Raise e) => (w1, Py.Raise e)
      end
  end.

End Run.

End Ticks.

(** ** Names *)

Module Names.

(** Text is handled as its list of characters; the functions below are
    Python's on ASCII text. *)
Definition is_ascii (s : string) : bool :=
  forallb (fun c => (nat_of_ascii c <? 128)%nat) (list_ascii_of_string s).

(** [c.isspace()]: tab to carriage return, the four separators and the
    space. *)
Definition is_space (c : ascii) : bool :=
  let n := nat_of_ascii c in
  ((9 <=? n) && (n <=? 13) || (28 <=? n) && (n <=? 32))%nat.

Definition is_upper (c : ascii) : bool :=
  let n := nat_of_ascii c in ((65 <=? n) && (n <=? 90))%nat.

Definition lower_char (c : ascii) : ascii :=
  if is_upper c then ascii_of_nat (nat_of_ascii c + 32) else c.

(** [s.lower()]. *)
Definition lower (s : list ascii) : list ascii := map lower_char s.

Fixpoint lstrip (s : list ascii) : list ascii :=
  match s with
  | [] => []
  | c :: t => if is_space c then lstrip t else s
  end.

(** [s.strip()]. *)
Definition strip (s : list ascii) : list ascii :=
  rev (lstrip (rev (lstrip s))).

(** [s.split()]: the maximal runs of characters that are not whitespace;
    [cur] is the run being read, last character first. *)
Fixpoint split_go (cur : list ascii) (s : list ascii) : list (list ascii) :=
  match s with
  | [] => match cur with [] => [] | _ => [rev cur] end
  | c :: t =>
      if is_space c then
        match cur with
        | [] => split_go [] t
        | _ => rev cur :: split_go [] t
        end
      else split_go (c :: cur) t
  end.

Definition split (s : list ascii) : list (list ascii) := split_go [] s.

(** [" ".join(words)]. *)
Fixpoint join (words : list (list ascii)) : list ascii :=
  match words with
  | [] => []
  | [w] => w
  | w :: t => w ++ " "%char :: join t
  end.

(** [normalize_name]; [None] is the argument [None]. *)
Definition normalize_name (name : option string) : string :=
  let name := match name with Some s => s | None => EmptyString end in
  string_of_list_ascii
    (join (split (lower (strip (list_ascii_of_string name))))).

(** A word as [split] returns them: not empty, no whitespace in it. *)
Definition is_word (w : list ascii) : bool :=
  negb (List.length w =? 0)%nat && forallb (fun c => negb (is_space c)) w.

End Names.

(** ** Presence labels *)

Module Presence.

(** [needle in hay]. *)
Fixpoint contains (needle hay : string) : bool :=
  String.prefix needle hay
  || match hay with
     | EmptyString => false
     | String _ t => contains needle t
     end.

(** [s.lower()] on a string. *)
Definition lower_str (s : string) : string :=
  string_of_list_ascii (Names.lower (list_ascii_of_string s)).

(** [x or ""] for an attribute value, [None] being Python's [None]. *)
Definition or_empty (v : option string) : string :=
  match v with Some s => s | None => EmptyString end.

(** The tests [_presence_from_element] and [_presence_from_row] run on a
    lowered label, in their order; [None] when none of them holds. *)
Definition label_state (a : string) : option string :=
  if contains "mobile" a then Some "mobile"%string
  else if contains "do not disturb" a || contains "dnd" a then Some "dnd"%string
  else if contains "idle" a then Some "idle"%string
  else if contains "online" a then Some "online"%string
  else None.

(** A page element: what [get_attribute] answers. *)
Record Element : Type := mkElement {
  el_attribute : string -> Py.result (option string)
}.

(** A row of the member list: its attributes and what
    [find_elements(By.CSS_SELECTOR, sel)] answers. *)
Record Row : Type := mkRow {
  row_attribute : string -> Py.result (option string);
  row_find_elements : string -> Py.result (list Element)
}.

Definition dq : string := String (ascii_of_nat 34) EmptyString.

Definition CANDIDATE_STATUS_SELECTORS : list string :=
  [ "[role=" ++ dq ++ "img" ++ dq ++ "][aria-label],[role=" ++ dq ++ "img" ++ dq
    ++ "][title]";
    "[aria-label*=" ++ dq ++ "Online" ++ dq ++ " i],[title*=" ++ dq ++ "Online"
    ++ dq ++ " i]";
    "[aria-label*=" ++ dq ++ "Idle" ++ dq ++ " i],[title*=" ++ dq ++ "Idle" ++ dq
    ++ " i]";
    "[aria-label*=" ++ dq ++ "Do Not Disturb" ++ dq ++ " i],[title*=" ++ dq
    ++ "Do Not Disturb" ++ dq ++ " i],[aria-label*=" ++ dq ++ "DND" ++ dq
    ++ " i],[title*=" ++ dq ++ "DND" ++ dq ++ " i]";
    "[aria-label*=" ++ dq ++ "Mobile" ++ dq ++ " i],[title*=" ++ dq ++ "Mobile"
    ++ dq ++ " i]" ]%string.

Definition _presence_from_element (el : Element) : string :=
  let a :=
    match (x <- el_attribute el "aria-label" ;;
           y <- el_attribute el "title" ;;
           Py.Ok (lower_str (or_empty x ++ " " ++ or_empty y))) with
    | Py.Ok a => a
    | Py.Raise _ => EmptyString
    end in
  match label_state a with
  | Some st => st
  | None => EmptyString
  end.

(** The inner loop over the elements a selector finds: the first state
    that is not empty. *)
Fixpoint first_state (els : list Element) : option string :=
  match els with
  | [] => None
  | el :: t =>
      let st := _presence_from_element el in
      if (String.length st =? 0)%nat then first_state t else Some st
  end.

(** The loop over the selectors; a [find_elements] that raises passes to
    the next selector. *)
Fixpoint from_selectors (row : Row) (sels : list string) : string :=
  match sels with
  | [] => "offline"
  | sel :: t =>
      match row_find_elements row sel with
      | Py.Raise _ => from_selectors row t
      | Py.Ok els =>
          match first_state els with
          | Some st => st
          | None => from_selectors row t
          end
      end
  end.

(** The loop over the row's own attributes; [rest] is what follows it. *)
Fixpoint from_attributes (row : Row) (attrs : list string) (rest : string) : string :=
  match attrs with
  | [] => rest
  | attr :: t =>
      match row_attribute row attr with
      | Py.Raise _ => from_attributes row t rest
      | Py.Ok v =>
          match label_state (lower_str (or_empty v)) with
          | Some st => st
          | None => from_attributes row t rest
          end
      end
  end.

Definition _presence_from_row (row : Row) : string :=
  from_attributes row ["aria-label"; "title"]%string
                  (from_selectors row CANDIDATE_STATUS_SELECTORS).

End Presence.

(** ** The watcher thread *)

Module Watcher.

Definition OFFLINE_GRACE_SECONDS : float := 4.0%float.

(** The fields of [PresenceWatcher] its loop reads and writes, with the
    loop's local [backoff]. *)
Record PresenceWatcher : Type := mkPresenceWatcher {
  target_norm : string;
  state : string;
  last_seen_ts : float;
  poll_interval : float;
  backoff : float
}.

Definition init (target_name : string) (poll : float) : PresenceWatcher :=
  mkPresenceWatcher (Names.normalize_name (Some target_name)) "offline" 0 poll 0.

(** [{normalize_name(k): v for k, v in members.items()}.get(target)], the
    dict given by its items in order: of two names with the same normal
    form the later one stays. *)
Fixpoint nmap_get (members : list (string * string)) (target : string)
    : option string :=
  match members with
  | [] => None
  | (k, v) :: t =>
      match nmap_get t target with
      | Some v' => Some v'
      | None =>
          if (Names.normalize_name (Some k) =? target)%string then Some v else None
      end
  end.

(** The state once the grace period is over. *)
Definition expire (w : PresenceWatcher) (t0 : float) : string :=
  if (OFFLINE_GRACE_SECONDS <=? t0 - last_seen_ts w)%float
  then "offline"%string else state w.

(** The fields after the body of one turn of the loop of [run], before it
    sleeps: [t0] is [time.time()], [members] what [get_visible_members]
    returns or raises. *)
Definition turn (w : PresenceWatcher) (t0 : float)
    (members : Py.result (list (string * string))) : PresenceWatcher :=
  let members := match members with Py.Ok m => m | Py.Raise _ => [] end in
  match members with
  | [] =>
      mkPresenceWatcher (target_norm w) (expire w t0) (last_seen_ts w)
                        (poll_interval w) (Py.min 1.0 (backoff w + 0.1))%float
  | _ :: _ =>
      match nmap_get members (target_norm w) with
      | Some st =>
          if (String.length st =? 0)%nat
          then mkPresenceWatcher (target_norm w) (expire w t0) (last_seen_ts w)
                                 (poll_interval w) 0
          else mkPresenceWatcher (target_norm w) st t0 (poll_interval w) 0
      | None =>
          mkPresenceWatcher (target_norm w) (expire w t0) (last_seen_ts w)
                            (poll_interval w) 0
      end
  end.

(** The duration the turn hands to [time.sleep]. *)
Definition sleep_duration (w : PresenceWatcher) : float :=
  Py.max 0.05 (poll_interval w + backoff w)%float.

Section Loop.

(** [time.sleep]: it returns once the time is over, and raises on a
    duration it cannot take. *)
Variable time_sleep : float -> Py.result unit.

(** One turn of the loop: the body, then the sleep, which may raise. *)
Definition poll (w : PresenceWatcher) (t0 : float)
    (members : Py.result (list (string * string)))
    : PresenceWatcher * Py.result unit :=
  (turn w t0 members, time_sleep (sleep_duration (turn w t0 members))).

(** The loop over the turns [turns]; an exception ends the thread, and the
    fields stay as the last turn left them. *)
Fixpoint polls (w : PresenceWatcher)
    (turns : list (float * Py.result (list (string * string))))
    : PresenceWatcher * Py.result unit :=
  match turns with
  | [] => (w, Py.Ok tt)
  | (t0, members) :: rest =>
      match poll w t0 members with
      | (w', Py.Ok _) => polls w' rest
      | (w', Py.Raise e) => (w', Py.Raise e)
      end
  end.

End Loop.

(** The target is seen in what a turn finds. *)
Definition visible (w : PresenceWatcher)
    (members : Py.result (list (string * string))) : bool :=
  match members with
  | Py.Raise _ => false
  | Py.Ok m =>
      match nmap_get m (target_norm w) with
      | Some st => negb (String.length st =? 0)%nat
      | None => false
      end
  end.

(** A [time.sleep] that takes up to ten seconds. *)
Definition short_sleep (secs : float) : Py.result unit :=
  if (secs <=? 10)%float then Py.Ok tt else Py.Raise (Py.OtherError "OverflowError").

(** Every name listed is ASCII text. *)
Definition ascii_names (members : Py.result (list (string * string))) : bool :=
  match members with
  | Py.Raise _ => true
  | Py.Ok m => forallb (fun kv => Names.is_ascii (fst kv)) m
  end.

End Watcher.

(** ** Any object as a bit *)

Module AnyValue.

(** A Python object as [add_bit] meets it: one of the built-in values of
    [Py.value], or an instance of a class of the caller's, whose truth test
    ([__bool__], or else [__len__]) returns a truth value or raises. *)
Inductive object : Type :=
| Builtin (v : Py.value)
| Instance (truth : Py.result bool).

(** The truth test [if b] runs. *)
Definition truth_test (b : object) : Py.result bool :=
  match b with
  | Builtin v => Py.Ok (Py.truthy v)
  | Instance truth => truth
  end.

(** [DriftClock.add_bit] on any object: [1 if b else 0] is evaluated
    before [append] is called, so that a truth test that raises leaves the
    buffer as it was. *)
Definition add_bit (c : Clock.DriftClock) (b : object) : Py.result Clock.DriftClock :=
  t <- truth_test b ;;
  Py.Ok (Clock.mkDriftClock (Clock.bits c ++ [if t then 1 else 0])
                            (Clock.cycle_bits c) (Clock.drift_range c)
                            (Clock.reset_prob c) (Clock.drift c)
                            (Clock.window_counter c)).

Inductive Call : Type :=
| CallAddBit (b : object)
| CallEmit (u r : float)
| CallResetParams (cb : Z) (dr rp : float).

Section Calls.

Variable TOKENS : list string.

(** The clock after a call, whether the call returns or raises. When
    [emit] raises, in [sha_index] or at the table, the window has already
    been cut off the buffer and nothing else has changed. *)
Definition after_call (c : Clock.DriftClock) (call : Call) : Clock.DriftClock :=
  match call with
  | CallAddBit b =>
      match add_bit c b with
      | Py.Ok c' => c'
      | Py.Raise _ => c
      end
  | CallEmit u r =>
      match Clock.emit TOKENS c u r with
      | Py.Ok (_, c') => c'
      | Py.Raise _ =>
          Clock.mkDriftClock (Py.slice_from (Clock.cycle_bits c) (Clock.bits c))
                             (Clock.cycle_bits c) (Clock.drift_range c)
                             (Clock.reset_prob c) (Clock.drift c)
                             (Clock.window_counter c)
      end
  | CallResetParams cb dr rp => Clock.reset_params c cb dr rp
  end.

Definition after_calls (c : Clock.DriftClock) (calls : list Call) : Clock.DriftClock :=
  fold_left after_call calls c.

End Calls.

(** An object whose truth test raises. *)
Definition broken : object := Instance (Py.Raise (Py.OtherError "ZeroDivisionError")).

End AnyValue.

(** ** Sequences of action ticks *)

Module ActionRun.

Section Run.

Variable io : UI.Actuator.
Variable TOKENS : list string.

(** The action timer fires once per draw: the window afterwards and what
    each tick returned or raised. *)
Fixpoint action_ticks (w : UI.MiniUI) (ds : list UI.Draws)
    : UI.MiniUI * list (Py.result (list UI.Signal)) :=
  match ds with
  | [] => (w, [])
  | d :: t =>
      let '(w1, r) := UI._on_action_tick io TOKENS w d in
      let '(w2, rs) := action_ticks w1 t in
      (w2, r :: rs)
  end.

(** The token an action tick hashes out of the history. *)
Definition tick_token (w : UI.MiniUI) (wstate : string) : Py.result string :=
  idx <- Clock.sha_index (UI.action_hash_input (UI.last_bits w) wstate) ;;
  Py.index TOKENS (idx mod 64).

(** What a tick in the key domain sends: the token, the key action chosen
    and the tag [_perform_key] returns, then the drift. *)
Definition key_signals (w : UI.MiniUI) (c : Clock.DriftClock) (token : string)
    (d : UI.Draws) : list UI.Signal :=
  let action_token := UI._choose_key_action token d in
  [ UI.SigToken (token ++ " → " ++ action_token
                 ++ " [" ++ UI._perform_key io w action_token ++ "]")%string;
    UI.SigDrift (Clock.drift c) ].

(** What a tick in the pointer domain leaves and returns: the step
    [_perform_mouse] has set, and its tag in the signal, or its
    exception. *)
Definition mouse_outcome (w : UI.MiniUI) (c : Clock.DriftClock) (token : string)
    (d : UI.Draws) : UI.MiniUI * Py.result (list UI.Signal) :=
  let action_token := UI._choose_mouse_action token d in
  (UI.set_cur_step w (fst (UI._perform_mouse io w action_token)),
   result <- snd (UI._perform_mouse io w action_token) ;;
   Py.Ok [ UI.SigToken (token ++ " → " ++ action_token
                        ++ " [" ++ result ++ "]")%string;
           UI.SigDrift (Clock.drift c) ]).

End Run.

(** The pointer is out of order: every pointer call raises; the keys
    work. *)
Definition pointer_fails : UI.Actuator :=
  UI.mkActuator Scenario.ok_unit Scenario.ok_unit None
    (fun _ => Py.Raise (Py.OtherError "OSError"))
    (fun _ _ => Py.Raise (Py.OtherError "OSError"))
    (fun _ => Py.Raise (Py.OtherError "OSError"))
    (fun _ => Py.Raise (Py.OtherError "OSError"))
    (fun _ => Py.Raise (Py.OtherError "OSError"))
    (fun _ => Py.Raise (Py.OtherError "OSError"))
    (fun _ => Py.Raise (Py.OtherError "OSError"))
    (fun _ => Py.Raise (Py.OtherError "OSError"))
    Scenario.ok_unit.

(** A started, unpaused window in Auto mode with the weights [m] and
    [100 - m] the slider gives. *)
Definition auto_window (m : Z) : UI.MiniUI :=
  UI.mkMiniUI (UI._mouse_dom_changed Scenario.defaults m) (Some "online"%string)
    (Some (Clock.init CYCLE_BITS_DEFAULT TOKEN_DRIFT_RANGE_DEFAULT
                      RESET_PROBABILITY_DEFAULT))
    true false UI.ModeAuto [1; 0; 1] MOUSE_STEP_DEFAULT 0 12.

End ActionRun.

(** * Properties *)

(** ** SHA-256 test vectors *)

Example sha_abc :
  SHA256.hexdigest [97; 98; 99]
  = "ba7816bf8f01cfea414140de5dae2223b00361a396177a9cb410ff61f20015ad"%string.
Proof. vm_compute. reflexivity. Qed.

Example sha_empty :
  SHA256.hexdigest []
  = "e3b0c44298fc1c149afbf4c8996fb92427ae41e4649b934ca495991b7852b855"%string.
Proof. vm_compute. reflexivity. Qed.

Example sha_two_blocks :
  SHA256.hexdigest
    (map (fun c => Z.of_nat (nat_of_ascii c))
         (list_ascii_of_string
            "abcdbcdecdefdefgefghfghighijhijkijkljklmklmnlmnomnopnopq"))
  = "248d6a61d20638b8e5c026930c3e6039a33ce45964ff2167f6ecedd419db06c1"%string.
Proof. vm_compute. reflexivity. Qed.

Example sha_window :
  SHA256.hexdigest [1; 0; 1; 1; 0; 0; 1; 0]
  = "94cc5a04c742ecae20a793d62852d1a175908af4f154161c7d4883b8b646c842"%string.
Proof. vm_compute. reflexivity. Qed.

(** ** Comparison and rounding of binary64 values *)

Module FloatFacts.

Import FloatSpec.

Lemma SFcompare_swap (x y : spec_float) :
  SFcompare y x = option_map CompOpp (SFcompare x y).
Proof.
  destruct x as [sx|sx| |sx mx ex], y as [sy|sy| |sy my ey]; simpl;
    try reflexivity;
    try (destruct sx; reflexivity); try (destruct sy; reflexivity);
    try (destruct sx, sy; reflexivity).
  destruct sx, sy; simpl; try reflexivity;
    rewrite (Z.compare_antisym ex ey);
    destruct (ex ?= ey); simpl; try reflexivity;
    rewrite !Pos.compare_cont_spec; simpl;
    rewrite (Pos.compare_antisym mx my);
    destruct (mx ?= my)%positive; reflexivity.
Qed.

Lemma SFcompare_refl (x : spec_float) :
  sf_nan x = false -> SFcompare x x = Some Eq.
Proof.
  destruct x as [s|s| |s m e]; simpl; intros H; try discriminate;
    try (destruct s; reflexivity).
  destruct s; rewrite Z.compare_refl, Pos.compare_cont_refl; reflexivity.
Qed.

Lemma SFcompare_opp (x y : spec_float) :
  SFcompare (SFopp x) (SFopp y) = SFcompare y x.
Proof.
  rewrite (SFcompare_swap x y).
  destruct x as [sx|sx| |sx mx ex], y as [sy|sy| |sy my ey]; simpl;
    try reflexivity;
    try (destruct sx; reflexivity); try (destruct sy; reflexivity);
    try (destruct sx, sy; reflexivity).
  destruct sx, sy; simpl; try reflexivity;
    destruct (ex ?= ey); simpl; try reflexivity;
    destruct (Pos.compare_cont Eq mx my); reflexivity.
Qed.

Lemma SFcompare_nan (x y : spec_float) :
  sf_nan x = false -> sf_nan y = false -> SFcompare x y <> None.
Proof.
  destruct x, y; simpl; intros; try discriminate.
Qed.

Lemma SFleb_refl x : sf_nan x = false -> SFleb x x = true.
Proof. intros H. unfold SFleb. now rewrite SFcompare_refl. Qed.

Lemma SFltb_false_leb x y :
  sf_nan x = false -> sf_nan y = false ->
  SFltb x y = false -> SFleb y x = true.
Proof.
  intros Hx Hy. unfold SFltb, SFleb. rewrite (SFcompare_swap x y).
  pose proof (SFcompare_nan x y Hx Hy).
  destruct (SFcompare x y) as [[]|]; simpl; congruence.
Qed.

Lemma SFleb_opp x y : SFleb (SFopp x) y = SFleb (SFopp y) x.
Proof.
  unfold SFleb. rewrite <- (SFcompare_opp y (SFopp x)).
  destruct x; simpl; try reflexivity; rewrite negb_involutive; reflexivity.
Qed.

Lemma SFabs_cases x : SFabs x = x \/ SFabs x = SFopp x.
Proof. destruct x as [[]|[]| |[] m e]; simpl; auto. Qed.

Lemma SFleb_abs x h :
  SFleb (SFopp h) x = true -> SFleb x h = true -> SFleb (SFabs x) h = true.
Proof.
  intros Hlo Hhi. destruct (SFabs_cases x) as [-> | ->]; [assumption|].
  now rewrite SFleb_opp.
Qed.

Lemma SFleb_opp_self h :
  sf_nonneg h = true -> SFleb (SFopp h) h = true.
Proof.
  destruct h as [s|s| |s m e]; simpl; intros H; try discriminate;
    try reflexivity; destruct s; try discriminate; reflexivity.
Qed.


(** *** Rounding never invents a NaN *)

Section Rounding.
Variables prec emax : Z.

Lemma shr_1_nonneg mrs : 0 <= shr_m mrs -> 0 <= shr_m (shr_1 mrs).
Proof.
  destruct mrs as [m r s]; simpl.
  destruct m as [|[p|p|]|p]; simpl; lia.
Qed.

Lemma iter_pos_inv {A : Type} (P : A -> Prop) (f : A -> A) :
  (forall a, P a -> P (f a)) -> forall p a, P a -> P (iter_pos f p a).
Proof.
  intros Hf. induction p as [p IH|p IH|]; simpl; intros a Ha; auto.
Qed.

Lemma shr_nonneg mrs e n : 0 <= shr_m mrs -> 0 <= shr_m (fst (shr mrs e n)).
Proof.
  intros H. destruct n; simpl; try assumption.
  apply (iter_pos_inv (fun r => 0 <= shr_m r)); auto using shr_1_nonneg.
Qed.

Lemma shr_fexp_nonneg m e l :
  0 <= m -> 0 <= shr_m (fst (shr_fexp prec emax m e l)).
Proof.
  intros H. unfold shr_fexp. apply shr_nonneg.
  destruct l as [|[]]; simpl; assumption.
Qed.

Lemma round_nearest_even_nonneg m l : 0 <= m -> 0 <= round_nearest_even m l.
Proof.
  intros H. destruct l as [|[]]; simpl; try lia.
  destruct (Z.even m); lia.
Qed.

Lemma binary_round_aux_signed s m e l :
  0 <= m -> signed s (binary_round_aux prec emax s m e l) = true.
Proof.
  intros H. unfold binary_round_aux.
  pose proof (shr_fexp_nonneg m e l H) as H1.
  destruct (shr_fexp prec emax m e l) as [mrs' e']; simpl in H1.
  pose proof (shr_fexp_nonneg _ e' loc_Exact
                (round_nearest_even_nonneg _ (loc_of_shr_record mrs') H1)) as H2.
  destruct (shr_fexp prec emax _ e' loc_Exact) as [mrs'' e'']; simpl in H2.
  destruct (shr_m mrs'') as [|p|p]; simpl.
  - apply eqb_reflx.
  - destruct (e'' <=? emax - prec); simpl; apply eqb_reflx.
  - lia.
Qed.

Lemma binary_round_aux_opp s m e l :
  SFopp (binary_round_aux prec emax s m e l)
  = binary_round_aux prec emax (negb s) m e l.
Proof.
  unfold binary_round_aux.
  destruct (shr_fexp prec emax m e l) as [mrs' e'].
  destruct (shr_fexp prec emax _ e' loc_Exact) as [mrs'' e''].
  destruct (shr_m mrs''); simpl; try reflexivity.
  destruct (e'' <=? emax - prec); reflexivity.
Qed.

Lemma binary_round_signed s m e :
  signed s (binary_round prec emax s m e) = true.
Proof.
  unfold binary_round.
  destruct (shl_align m e _) as [mz ez].
  apply binary_round_aux_signed. lia.
Qed.

Lemma signed_not_nan s x : signed s x = true -> sf_nan x = false.
Proof. destruct x; simpl; congruence. Qed.

Lemma binary_normalize_not_nan m e sz :
  sf_nan (binary_normalize prec emax m e sz) = false.
Proof.
  destruct m; simpl; try reflexivity;
    eapply signed_not_nan, binary_round_signed.
Qed.

Lemma SFmul_opp_l x y :
  SFmul prec emax (SFopp x) y = SFopp (SFmul prec emax x y).
Proof.
  destruct x as [sx|sx| |sx mx ex], y as [sy|sy| |sy my ey]; simpl;
    try reflexivity;
    try (destruct sx, sy; reflexivity).
  rewrite binary_round_aux_opp. destruct sx, sy; reflexivity.
Qed.

(** A product of two non-negative numbers, one of them positive and
    finite, is non-negative. *)
Lemma SFmul_nonneg x m e :
  sf_nan x = false -> sf_nonneg x = true ->
  sf_nonneg (SFmul prec emax x (S754_finite false m e)) = true.
Proof.
  destruct x as [s|s| |s mx ex]; simpl; intros Hn Hp; try discriminate;
    try reflexivity.
  - destruct s; [discriminate | reflexivity].
  - destruct s; [discriminate|]. simpl.
    pose proof (binary_round_aux_signed false (Z.pos (mx * m)) (ex + e) loc_Exact
                  ltac:(lia)) as H.
    destruct (binary_round_aux _ _ _ _ _ _); simpl in *; try discriminate;
      try reflexivity; destruct s; simpl in *; congruence.
Qed.

(** A sum is a NaN only when an argument is, or when two infinities of
    opposite sign meet. *)
Lemma SFadd_not_nan x y :
  sf_nan x = false -> sf_fin y = true ->
  sf_nan (SFadd prec emax x y) = false.
Proof.
  destruct x as [sx|sx| |sx mx ex], y as [sy|sy| |sy my ey]; simpl;
    intros Hx Hy; try discriminate; try reflexivity.
  - destruct sx, sy; reflexivity.
  - apply binary_normalize_not_nan.
Qed.

Lemma SFmul_comm x y : SFmul prec emax x y = SFmul prec emax y x.
Proof.
  destruct x as [sx|sx| |sx mx ex], y as [sy|sy| |sy my ey]; simpl;
    try reflexivity; try (now rewrite xorb_comm).
  now rewrite xorb_comm, Pos.mul_comm, Z.add_comm.
Qed.

End Rounding.


(** *** The same facts on binary64 values *)

Lemma Prim2SF_eight : Prim2SF 8%float = S754_finite false 4503599627370496 (-49).
Proof. vm_compute. reflexivity. Qed.

Lemma Prim2SF_zero : Prim2SF 0%float = S754_zero false.
Proof. vm_compute. reflexivity. Qed.

Lemma Prim2SF_infinity : Prim2SF infinity = S754_infinity false.
Proof. vm_compute. reflexivity. Qed.

Lemma pos_nonneg (x : float) :
  (0 <? x)%float = true ->
  sf_nan (Prim2SF x) = false /\ sf_nonneg (Prim2SF x) = true.
Proof.
  rewrite ltb_spec, Prim2SF_zero.
  destruct (Prim2SF x) as [s|s| |s m e]; simpl; try discriminate;
    destruct s; try discriminate; auto.
Qed.

Lemma nonneg_not_nan x : sf_nonneg x = true -> sf_nan x = false.
Proof. destruct x; simpl; congruence. Qed.

(** [hi = dr * 8] and [lo = -dr * 8] for a positive [dr]. *)
Lemma bounds_spec (dr : float) :
  (0 <? dr)%float = true ->
  sf_nonneg (Prim2SF (dr * 8)) = true /\
  Prim2SF (- dr * 8) = SFopp (Prim2SF (dr * 8)).
Proof.
  intros H. destruct (pos_nonneg dr H) as [Hn Hp].
  rewrite !mul_spec, opp_spec, Prim2SF_eight. unfold SF64mul. split.
  - now apply SFmul_nonneg.
  - apply SFmul_opp_l.
Qed.

(** The clamp keeps any number that is not a NaN within the bounds. *)
Lemma clamp_spec (x hi lo : float) :
  fnan x = false ->
  sf_nonneg (Prim2SF hi) = true ->
  Prim2SF lo = SFopp (Prim2SF hi) ->
  let d := Py.max (Py.min x hi) lo in
  fnan d = false /\ (abs d <=? hi)%float = true.
Proof.
  intros Hx Hhi Hlo d. unfold fnan in *.
  pose proof (nonneg_not_nan _ Hhi) as Hhn.
  assert (Hln : sf_nan (Prim2SF lo) = false).
  { rewrite Hlo. destruct (Prim2SF hi); simpl in *; congruence. }
  assert (Hm : sf_nan (Prim2SF (Py.min x hi)) = false
               /\ SFleb (Prim2SF (Py.min x hi)) (Prim2SF hi) = true).
  { unfold Py.min. rewrite ltb_spec.
    destruct (SFltb (Prim2SF hi) (Prim2SF x)) eqn:E.
    - split; [assumption | now apply SFleb_refl].
    - split; [assumption | now apply SFltb_false_leb]. }
  destruct Hm as [Hmn Hmh].
  assert (Hd : sf_nan (Prim2SF d) = false
               /\ SFleb (Prim2SF lo) (Prim2SF d) = true
               /\ SFleb (Prim2SF d) (Prim2SF hi) = true).
  { subst d. unfold Py.max. rewrite ltb_spec.
    destruct (SFltb (Prim2SF (Py.min x hi)) (Prim2SF lo)) eqn:E.
    - repeat split; [assumption | now apply SFleb_refl |].
      rewrite Hlo. now apply SFleb_opp_self.
    - repeat split; [assumption | now apply SFltb_false_leb | assumption]. }
  destruct Hd as (Hdn & Hdl & Hdh). split; [assumption|].
  rewrite leb_spec, abs_spec. apply SFleb_abs; [|assumption].
  now rewrite <- Hlo.
Qed.

(** A draw between [-dr] and [dr], for a finite [dr], is finite. *)
Lemma draw_finite (dr u : float) :
  (dr <? infinity)%float = true ->
  (- dr <=? u)%float = true -> (u <=? dr)%float = true ->
  sf_fin (Prim2SF u) = true.
Proof.
  rewrite ltb_spec, !leb_spec, opp_spec, Prim2SF_infinity.
  destruct (Prim2SF dr) as [s|s| |s m e], (Prim2SF u) as [s'|s'| |s' m' e'];
    simpl; try discriminate; try reflexivity;
    destruct s; simpl; try discriminate; destruct s'; simpl; discriminate.
Qed.

Lemma add_not_nan (x u : float) :
  fnan x = false -> sf_fin (Prim2SF u) = true -> fnan (x + u) = false.
Proof. unfold fnan. rewrite add_spec. apply SFadd_not_nan. Qed.

Lemma zero_le_nonneg (h : float) :
  sf_nonneg (Prim2SF h) = true -> (abs 0 <=? h)%float = true.
Proof.
  rewrite leb_spec. change (Prim2SF (abs 0)) with (Prim2SF 0).
  rewrite Prim2SF_zero.
  destruct (Prim2SF h) as [s|s| |s m e]; simpl; try discriminate;
    try reflexivity; destruct s; simpl; intros H; try discriminate; reflexivity.
Qed.

Lemma mul_comm (x y : float) : (x * y)%float = (y * x)%float.
Proof. apply Prim2SF_inj. rewrite !mul_spec. apply SFmul_comm. Qed.

End FloatFacts.

(** ** The digest and the index drawn from it *)

Module ShaFacts.

Import SHA256.

Lemma be_bytes_length n x : List.length (be_bytes n x) = n.
Proof. unfold be_bytes. now rewrite length_map, length_rev, length_seq. Qed.

Lemma blocks_length n : forall h l,
  List.length h = 8%nat -> List.length (blocks n h l) = 8%nat.
Proof.
  induction n as [|n IH]; intros h l Hh; simpl; [assumption|].
  apply IH. reflexivity.
Qed.

Lemma flat_be_bytes_length l :
  List.length (flat_map (be_bytes 4) l) = (4 * List.length l)%nat.
Proof.
  induction l as [|x l IH]; [reflexivity|].
  cbn [flat_map]. rewrite length_app, be_bytes_length, IH. simpl. lia.
Qed.

(** A digest has 32 bytes, whatever the message. *)
Lemma digest_length msg : List.length (digest msg) = 32%nat.
Proof.
  unfold digest. rewrite flat_be_bytes_length, blocks_length; reflexivity.
Qed.

Lemma digest_head msg : exists d0 rest, digest msg = d0 :: rest.
Proof.
  pose proof (digest_length msg) as H.
  destruct (digest msg) as [|d0 rest]; [discriminate | eauto].
Qed.

Lemma bytes_of_bits l : Session.is_bits l = true -> Py.bytes l = Py.Ok l.
Proof.
  induction l as [|b t IH]; simpl; intros H; [reflexivity|].
  apply andb_prop in H. destruct H as [Hb Ht].
  rewrite (IH Ht). unfold Session.is_bit in Hb.
  apply orb_prop in Hb. destruct Hb as [Hb | Hb]; apply Z.eqb_eq in Hb;
    subst b; reflexivity.
Qed.

Lemma land63_range x : 0 <= Z.land x 63 < 64.
Proof.
  change 63 with (Z.ones 6). rewrite Z.land_ones by lia.
  apply Z.mod_pos_bound. reflexivity.
Qed.

(** On bits, [sha_index] returns an index of the table. *)
Lemma sha_index_bits l :
  Session.is_bits l = true ->
  exists d0, Py.index (digest l) 0 = Py.Ok d0
             /\ Clock.sha_index l = Py.Ok (Z.land d0 63).
Proof.
  intros H. destruct (digest_head l) as (d0 & rest & Hd).
  exists d0. unfold Clock.sha_index. rewrite (bytes_of_bits l H). simpl.
  rewrite Hd. split; reflexivity.
Qed.

Lemma index_in_range {A : Type} (l : list A) (i : Z) :
  0 <= i < Z.of_nat (List.length l) -> exists a, Py.index l i = Py.Ok a.
Proof.
  intros [Hlo Hhi]. unfold Py.index.
  destruct (i <? 0) eqn:E; [apply Z.ltb_lt in E; lia|]. rewrite E.
  destruct (nth_error l (Z.to_nat i)) as [a|] eqn:En; [eauto|].
  apply nth_error_None in En. lia.
Qed.

End ShaFacts.

(** ** The token table *)

Module TokenTableFacts.

Import TokenTable.

Lemma grow_base0 fuel : grow fuel base0 = Some base0.
Proof. destruct fuel; reflexivity. Qed.

Lemma plain_spec : ensure_reset (Py.slice_to 64 base0) = Py.Ok plain.
Proof. vm_compute. reflexivity. Qed.

Lemma str_in_In x l : str_in x l = true <-> In x l.
Proof.
  unfold str_in. rewrite existsb_exists. split.
  - intros (y & Hy & E). apply String.eqb_eq in E. now subst.
  - intros H. exists x. split; [assumption | apply String.eqb_refl].
Qed.

Lemma plain_length : List.length plain = 64%nat.
Proof. reflexivity. Qed.

Lemma plain_count : count_occ string_dec plain RESET_TOKEN = 1%nat.
Proof. vm_compute. reflexivity. Qed.

(** Entries other than the sentinel: the length less the sentinel's
    occurrences. *)
Lemma others_count (l : list string) :
  List.length (filter (fun s => negb (s =? RESET_TOKEN)%string) l)
  = (List.length l - count_occ string_dec l RESET_TOKEN)%nat.
Proof.
  induction l as [|x l IH]; [reflexivity|]. cbn [filter count_occ List.length].
  pose proof (count_occ_bound string_dec RESET_TOKEN l) as Hb.
  destruct (string_dec x RESET_TOKEN) as [E|E].
  - subst x. rewrite String.eqb_refl. cbn [negb]. rewrite IH. lia.
  - apply String.eqb_neq in E. rewrite E. cbn [negb List.length]. rewrite IH. lia.
Qed.

(** C8: the table [make_token_table] returns, shuffled or not, has 64
    entries, exactly one of them the reset sentinel and the 63 others
    different from it, so that every index from 0 to 63 finds an entry. The
    shuffle is any function that permutes the list it is given. *)
Theorem make_token_table_shape (fuel : nat) (randomize : bool)
    (shuffle : list string -> list string)
    (Hperm : forall l, Permutation l (shuffle l)) :
  exists t,
    make_token_table fuel randomize shuffle = Some (Py.Ok t)
    /\ List.length t = 64%nat
    /\ count_occ string_dec t RESET_TOKEN = 1%nat
    /\ List.length (filter (fun s => negb (s =? RESET_TOKEN)%string) t) = 63%nat
    /\ forall i, 0 <= i < 64 -> exists s, Py.index t i = Py.Ok s.
Proof.
  assert (Hshape : forall t, Permutation plain t ->
            List.length t = 64%nat
            /\ count_occ string_dec t RESET_TOKEN = 1%nat
            /\ List.length (filter (fun s => negb (s =? RESET_TOKEN)%string) t) = 63%nat
            /\ forall i, 0 <= i < 64 -> exists s, Py.index t i = Py.Ok s).
  { intros t Hp.
    assert (Hl : List.length t = 64%nat)
      by (rewrite <- (Permutation_length Hp); apply plain_length).
    assert (Hc : count_occ string_dec t RESET_TOKEN = 1%nat).
    { rewrite <- plain_count. symmetry.
      apply (proj1 (Permutation_count_occ string_dec plain t) Hp). }
    repeat split; try assumption.
    - rewrite others_count, Hl, Hc. reflexivity.
    - intros i Hi. apply ShaFacts.index_in_range. rewrite Hl. lia. }
  unfold make_token_table. rewrite grow_base0, plain_spec. cbn [Py.bind].
  destruct randomize.
  - exists (shuffle plain). split; [|apply Hshape, Hperm].
    unfold ensure_reset.
    assert (Hin : str_in RESET_TOKEN (shuffle plain) = true).
    { apply str_in_In. apply (Permutation_in _ (Hperm plain)). left. reflexivity. }
    rewrite Hin. reflexivity.
  - exists plain. split; [reflexivity | apply Hshape, Permutation_refl].
Qed.

Lemma make_token_table_shape_witness :
  (forall l : list string, Permutation l (rev l))
  /\ exists t,
    make_token_table 0 true (@rev string) = Some (Py.Ok t)
    /\ List.length t = 64%nat
    /\ count_occ string_dec t RESET_TOKEN = 1%nat
    /\ List.length (filter (fun s => negb (s =? RESET_TOKEN)%string) t) = 63%nat
    /\ forall i, 0 <= i < 64 -> exists s, Py.index t i = Py.Ok s.
Proof.
  split.
  - intros l. apply Permutation_rev.
  - apply (make_token_table_shape 0 true (@rev string)).
    intros l. apply Permutation_rev.
Defined.

End TokenTableFacts.

(** ** The drift clock *)

Module ClockFacts.

Import Clock Session FloatSpec.

Lemma is_bits_app l1 l2 :
  is_bits (l1 ++ l2) = is_bits l1 && is_bits l2.
Proof. apply forallb_app. Qed.

Lemma is_bits_firstn n l : is_bits l = true -> is_bits (firstn n l) = true.
Proof.
  intros H. rewrite <- (firstn_skipn n l), is_bits_app in H.
  now apply andb_prop in H.
Qed.

Lemma is_bits_skipn n l : is_bits l = true -> is_bits (skipn n l) = true.
Proof.
  intros H. rewrite <- (firstn_skipn n l), is_bits_app in H.
  now apply andb_prop in H.
Qed.

Lemma is_bits_slice_to n l : is_bits l = true -> is_bits (Py.slice_to n l) = true.
Proof. unfold Py.slice_to. destruct (n <? 0); apply is_bits_firstn. Qed.

Lemma is_bits_slice_from n l : is_bits l = true -> is_bits (Py.slice_from n l) = true.
Proof. unfold Py.slice_from. destruct (n <? 0); apply is_bits_skipn. Qed.

(** The window of a buffer that starts with [cycle_bits] entries [w]. *)
Lemma slice_to_window (w rest : list Z) :
  Py.slice_to (Z.of_nat (List.length w)) (w ++ rest) = w.
Proof.
  unfold Py.slice_to.
  destruct (Z.of_nat (List.length w) <? 0) eqn:E; [apply Z.ltb_lt in E; lia|].
  rewrite Nat2Z.id, firstn_app, Nat.sub_diag, firstn_all. simpl.
  apply app_nil_r.
Qed.

Lemma slice_from_window (w rest : list Z) :
  Py.slice_from (Z.of_nat (List.length w)) (w ++ rest) = rest.
Proof.
  unfold Py.slice_from.
  destruct (Z.of_nat (List.length w) <? 0) eqn:E; [apply Z.ltb_lt in E; lia|].
  rewrite Nat2Z.id, skipn_app, Nat.sub_diag, skipn_all. reflexivity.
Qed.

Lemma slice_pos {A : Type} (n : Z) (l : list A) :
  0 <= n ->
  Py.slice_to n l = firstn (Z.to_nat n) l
  /\ Py.slice_from n l = skipn (Z.to_nat n) l.
Proof.
  intros H. unfold Py.slice_to, Py.slice_from.
  destruct (n <? 0) eqn:E; [apply Z.ltb_lt in E; lia | auto].
Qed.

Section WithTable.

Variable TOKENS : list string.
Hypothesis TOKENS_length : List.length TOKENS = 64%nat.

(** [emit] returns whenever its window holds bits only: the token is the
    table entry at the low six bits of the first digest byte. *)
Lemma emit_returns (c : DriftClock) (u r : float) :
  is_bits (Py.slice_to (cycle_bits c) (bits c)) = true ->
  exists d0 token,
    Py.index (SHA256.digest (Py.slice_to (cycle_bits c) (bits c))) 0 = Py.Ok d0
    /\ Py.index TOKENS (Z.land d0 63) = Py.Ok token
    /\ emit TOKENS c u r = Py.Ok (token, after_emit c u r token).
Proof.
  intros Hb. destruct (ShaFacts.sha_index_bits _ Hb) as (d0 & Hd & Hs).
  pose proof (ShaFacts.land63_range d0) as Hr.
  destruct (ShaFacts.index_in_range TOKENS (Z.land d0 63)) as [token Ht].
  { rewrite TOKENS_length. lia. }
  exists d0, token. repeat split; try assumption.
  unfold emit. rewrite Hs. cbn [Py.bind].
  rewrite Z.mod_small by lia. rewrite Ht. reflexivity.
Qed.

(** Whatever [emit] returns has the shape [after_emit] describes. *)
Lemma emit_inv (c : DriftClock) (u r : float) (token : string) (c' : DriftClock) :
  emit TOKENS c u r = Py.Ok (token, c') -> c' = after_emit c u r token.
Proof.
  unfold emit.
  destruct (sha_index _) as [idx|e]; cbn [Py.bind]; [|discriminate].
  destruct (Py.index TOKENS _) as [t|e]; cbn [Py.bind]; [|discriminate].
  intros H. inversion H. subst. reflexivity.
Qed.

(** C1: when the buffer starts with a window [w] of [cycle_bits] bits,
    [emit] returns the table entry whose index is the low six bits of
    the first byte of the SHA-256 digest of [w], one byte per bit. *)
Theorem emit_token_of_window (c : DriftClock) (u r : float) (w rest : list Z)
    (Hbits : bits c = w ++ rest)
    (Hlen : Z.of_nat (List.length w) = cycle_bits c)
    (Hw : is_bits w = true) :
  exists d0 token c',
    Py.bytes w = Py.Ok w
    /\ Py.index (SHA256.digest w) 0 = Py.Ok d0
    /\ Py.index TOKENS (Z.land d0 63) = Py.Ok token
    /\ emit TOKENS c u r = Py.Ok (token, c').
Proof.
  assert (Hout : Py.slice_to (cycle_bits c) (bits c) = w).
  { rewrite Hbits, <- Hlen. apply slice_to_window. }
  destruct (emit_returns c u r) as (d0 & token & Hd & Ht & He).
  { now rewrite Hout. }
  rewrite Hout in Hd.
  exists d0, token, (after_emit c u r token).
  auto using ShaFacts.bytes_of_bits.
Qed.

(** C7: two calls of [emit] whose windows hold the same bits return the
    same token, whatever else the two clocks hold and whatever is
    drawn. *)
Theorem emit_token_deterministic (c1 c2 : DriftClock) (u1 r1 u2 r2 : float)
    (Hsame : Py.slice_to (cycle_bits c1) (bits c1)
             = Py.slice_to (cycle_bits c2) (bits c2))
    (Hw : is_bits (Py.slice_to (cycle_bits c1) (bits c1)) = true) :
  exists token c1' c2',
    emit TOKENS c1 u1 r1 = Py.Ok (token, c1')
    /\ emit TOKENS c2 u2 r2 = Py.Ok (token, c2').
Proof.
  destruct (emit_returns c1 u1 r1 Hw) as (d1 & t1 & Hd1 & Ht1 & He1).
  rewrite Hsame in Hw.
  destruct (emit_returns c2 u2 r2 Hw) as (d2 & t2 & Hd2 & Ht2 & He2).
  rewrite <- Hsame in Hd2. rewrite Hd1 in Hd2. inversion Hd2; subst d2.
  rewrite Ht1 in Ht2. inversion Ht2; subst t2.
  eauto.
Qed.

(** C5: when [emit] returns the reset sentinel and the draw [r] falls
    below [reset_prob] (as every draw of [random.random()] does for
    [reset_prob = 1.0]), the buffer is empty afterwards and the drift is
    0.0. *)
Theorem emit_reset_clears (c : DriftClock) (u r : float) (token : string)
    (c' : DriftClock)
    (Hemit : emit TOKENS c u r = Py.Ok (token, c'))
    (Htoken : token = RESET_TOKEN)
    (Hdraw : (r <? reset_prob c)%float = true) :
  bits c' = [] /\ drift c' = 0%float.
Proof.
  apply emit_inv in Hemit. subst c' token. unfold after_emit.
  rewrite String.eqb_refl, Hdraw. split; reflexivity.
Qed.

(** C6: on a buffer of at least [cycle_bits] bits, [emit] returns, and
    unless the reset fires it removes the first [cycle_bits] entries and
    keeps the others in order; the buffer is then full again only when
    it held two windows. After [cycle_bits] calls of [add_bit] and one
    [emit] the buffer is as long as before the calls, and when it was
    empty before them it is not full. *)
Theorem emit_consumes_window (c : DriftClock) (u r : float)
    (Hcb : 1 <= cycle_bits c)
    (Hbits : is_bits (bits c) = true)
    (Hfull : full c = true) :
  exists token c',
    emit TOKENS c u r = Py.Ok (token, c')
    /\ ((token =? RESET_TOKEN)%string && (r <? reset_prob c)%float = false ->
        bits c = firstn (Z.to_nat (cycle_bits c)) (bits c) ++ bits c'
        /\ bits c' = skipn (Z.to_nat (cycle_bits c)) (bits c)
        /\ Z.of_nat (List.length (bits c'))
           = Z.of_nat (List.length (bits c)) - cycle_bits c
        /\ full c' = (2 * cycle_bits c <=? Z.of_nat (List.length (bits c)))
        /\ (Z.of_nat (List.length (bits c)) <= cycle_bits c -> full c' = false))
    /\ forall (c0 : DriftClock) (vs : list Py.value),
         c = fold_left add_bit vs c0 ->
         Z.of_nat (List.length vs) = cycle_bits c ->
         (token =? RESET_TOKEN)%string && (r <? reset_prob c)%float = false ->
         List.length (bits c') = List.length (bits c0)
         /\ (bits c0 = [] -> bits c' = [] /\ full c' = false).
Proof.
  unfold full in Hfull. apply Z.geb_le in Hfull.
  destruct (emit_returns c u r) as (d0 & token & _ & _ & He).
  { now apply is_bits_slice_to. }
  exists token, (after_emit c u r token).
  destruct (slice_pos (cycle_bits c) (bits c) ltac:(lia)) as [_ Hfrom].
  assert (Hlen : forall l : list Z,
             Z.of_nat (List.length (skipn (Z.to_nat (cycle_bits c)) l))
             = Z.max 0 (Z.of_nat (List.length l) - cycle_bits c)).
  { intros l. rewrite length_skipn. lia. }
  split; [assumption|]. split.
  - intros Hno. unfold after_emit. rewrite Hno. cbn [bits cycle_bits].
    rewrite Hfrom. repeat split.
    + symmetry. apply firstn_skipn.
    + rewrite Hlen. lia.
    + unfold full. cbn [bits cycle_bits]. rewrite Hlen.
      destruct (2 * cycle_bits c <=? Z.of_nat (List.length (bits c))) eqn:E.
      * apply Z.leb_le in E. apply Z.geb_le. lia.
      * apply Z.leb_gt in E. rewrite Z.geb_leb. apply Z.leb_gt. lia.
    + intros Hle. unfold full. cbn [bits cycle_bits]. rewrite Hlen.
      rewrite Z.geb_leb. apply Z.leb_gt. lia.
  - intros c0 vs Hc Hvs Hno.
    assert (Hfold : forall vs c0,
               cycle_bits (fold_left add_bit vs c0) = cycle_bits c0
               /\ bits (fold_left add_bit vs c0)
                  = bits c0 ++ map (fun v => if Py.truthy v then 1 else 0) vs).
    { clear. induction vs as [|v vs IH]; intros c0; simpl.
      - now rewrite app_nil_r.
      - destruct (IH (add_bit c0 v)) as [H1 H2]. rewrite H1, H2.
        split; [reflexivity|]. simpl. now rewrite <- app_assoc. }
    destruct (Hfold vs c0) as [_ Hb]. rewrite <- Hc in Hb.
    assert (Hl : Z.of_nat (List.length (bits c))
                 = Z.of_nat (List.length (bits c0)) + cycle_bits c).
    { rewrite Hb, length_app, length_map. lia. }
    unfold after_emit. rewrite Hno. cbn [bits cycle_bits].
    rewrite Hfrom. split.
    + apply Nat2Z.inj. rewrite Hlen. lia.
    + intros H0. rewrite H0 in Hl. simpl in Hl.
      assert (Hnil : skipn (Z.to_nat (cycle_bits c)) (bits c) = []).
      { apply skipn_all2. lia. }
      split; [assumption|]. unfold full. cbn [bits cycle_bits].
      rewrite Hnil. simpl. rewrite Z.geb_leb. apply Z.leb_gt. lia.
Qed.

(** *** Runs of operations *)

Lemma run_app (ops t : list Op) : forall c,
  run TOKENS c (ops ++ t) = (c1 <- run TOKENS c ops ;; run TOKENS c1 t).
Proof.
  induction ops as [|o ops IH]; intros c; simpl; [reflexivity|].
  destruct (step TOKENS c o) as [c1|e]; simpl; [apply IH | reflexivity].
Qed.

Lemma init_ok (cb : Z) (dr rp : float) :
  range_ok dr = true -> clock_ok (init cb dr rp).
Proof. intros H. repeat split; assumption. Qed.

(** One [emit] under a configured range and a draw within it: the
    drift is bounded and is not a NaN. *)
Lemma after_emit_drift (c : DriftClock) (u r : float) (token : string) :
  fnan (drift c) = false ->
  range_ok (drift_range c) = true ->
  draw_ok (drift_range c) u = true ->
  fnan (drift (after_emit c u r token)) = false
  /\ (abs (drift (after_emit c u r token))
      <=? 8 * drift_range (after_emit c u r token))%float = true.
Proof.
  intros Hd Hr Hu. unfold range_ok in Hr. unfold draw_ok in Hu.
  apply andb_prop in Hr. destruct Hr as [Hpos Hfin].
  apply andb_prop in Hu. destruct Hu as [Hlo Hhi].
  destruct (FloatFacts.bounds_spec _ Hpos) as [Hnn Hopp].
  unfold after_emit. cbn [drift drift_range].
  rewrite (FloatFacts.mul_comm 8).
  destruct ((token =? RESET_TOKEN)%string && (r <? reset_prob c)%float).
  - split; [reflexivity | now apply FloatFacts.zero_le_nonneg].
  - apply FloatFacts.clamp_spec; try assumption.
    apply FloatFacts.add_not_nan; [assumption|].
    eapply FloatFacts.draw_finite; eassumption.
Qed.

Lemma step_ok (c : DriftClock) (o : Op) (t : list Op) :
  clock_ok c -> draws_ok (drift_range c) (o :: t) = true ->
  exists c1, step TOKENS c o = Py.Ok c1
             /\ clock_ok c1 /\ draws_ok (drift_range c1) t = true.
Proof.
  intros (Hb & Hd & Hr) Hok. destruct o as [v|u r|cb dr rp]; simpl in Hok.
  - exists (add_bit c v). repeat split; try assumption.
    cbn [add_bit bits]. rewrite is_bits_app, Hb.
    destruct (Py.truthy v); reflexivity.
  - apply andb_prop in Hok. destruct Hok as [Hu Hok].
    destruct (emit_returns c u r) as (d0 & token & _ & _ & He).
    { now apply is_bits_slice_to. }
    exists (after_emit c u r token). simpl. rewrite He. simpl.
    split; [reflexivity|].
    destruct (after_emit_drift c u r token Hd Hr Hu) as [Hn _].
    repeat split; try assumption.
    unfold after_emit. cbn [bits].
    destruct (_ && _); [reflexivity | now apply is_bits_slice_from].
  - apply andb_prop in Hok. destruct Hok as [Hr' Hok].
    exists (reset_params c cb dr rp). repeat split; assumption.
Qed.

Lemma run_ok (ops t : list Op) : forall c,
  clock_ok c -> draws_ok (drift_range c) (ops ++ t) = true ->
  exists c1, run TOKENS c ops = Py.Ok c1
             /\ clock_ok c1 /\ draws_ok (drift_range c1) t = true.
Proof.
  induction ops as [|o ops IH]; intros c Hc Hok.
  - exists c. auto.
  - destruct (step_ok c o (ops ++ t) Hc Hok) as (c1 & Hs & Hc1 & Hok1).
    destruct (IH c1 Hc1 Hok1) as (c2 & Hrun & Hc2 & Hok2).
    exists c2. simpl. rewrite Hs. simpl. auto.
Qed.

(** C4: from a new clock, through any sequence of [add_bit], [emit] and
    [reset_params] calls in which every range set is positive and finite
    and every draw of [random.uniform] lies in the range in force, each
    [emit] returns and leaves [abs(drift) <= 8 * drift_range]. *)
Theorem drift_bounded_after_emit (cb : Z) (dr rp : float) (ops : list Op)
    (u r : float)
    (Hrange : range_ok dr = true)
    (Hdraws : draws_ok dr (ops ++ [OpEmit u r]) = true) :
  exists c,
    run TOKENS (init cb dr rp) (ops ++ [OpEmit u r]) = Py.Ok c
    /\ (abs (drift c) <=? 8 * drift_range c)%float = true.
Proof.
  destruct (run_ok ops [OpEmit u r] (init cb dr rp) (init_ok cb dr rp Hrange) Hdraws)
    as (c1 & Hrun & (Hb & Hd & Hr) & Hok).
  simpl in Hok. rewrite andb_true_r in Hok.
  destruct (emit_returns c1 u r) as (d0 & token & _ & _ & He).
  { now apply is_bits_slice_to. }
  exists (after_emit c1 u r token). split.
  - rewrite run_app, Hrun. simpl. rewrite He. reflexivity.
  - now apply after_emit_drift.
Qed.

(** On the built-in values, whose truth test always returns: [add_bit]
    appends 1 for a value that tests true and 0 for one that tests false,
    and after any sequence of [add_bit], [emit] and [reset_params] calls on
    a new clock the buffer holds only the integers 0 and 1. *)
Theorem add_bit_keeps_bits (cb : Z) (dr rp : float) (ops : list Op)
    (c : DriftClock)
    (Hrun : run TOKENS (init cb dr rp) ops = Py.Ok c) :
  Forall (fun b => b = 0 \/ b = 1) (bits c)
  /\ forall v : Py.value,
       bits (add_bit c v) = bits c ++ [if Py.truthy v then 1 else 0].
Proof.
  split; [|reflexivity].
  assert (Hinv : forall ops c0 c1,
             is_bits (bits c0) = true -> run TOKENS c0 ops = Py.Ok c1 ->
             is_bits (bits c1) = true).
  { clear. induction ops as [|o ops IH]; intros c0 c1 H0 Hr; simpl in Hr.
    - inversion Hr. now subst.
    - destruct (step TOKENS c0 o) as [c2|e] eqn:Hs; simpl in Hr; [|discriminate].
      apply (IH c2 c1); [|assumption].
      destruct o as [v|u r|cb dr rp]; simpl in Hs.
      + inversion Hs. cbn [add_bit bits]. rewrite is_bits_app, H0.
        destruct (Py.truthy v); reflexivity.
      + destruct (emit TOKENS c0 u r) as [[tok c3]|e] eqn:He; simpl in Hs;
          [|discriminate].
        inversion Hs. subst c3. apply emit_inv in He. subst c2.
        unfold after_emit. cbn [bits].
        destruct (_ && _); [reflexivity | now apply is_bits_slice_from].
      + inversion Hs. assumption. }
  specialize (Hinv ops (init cb dr rp) c eq_refl Hrun).
  apply Forall_forall. intros b Hb.
  unfold is_bits in Hinv. rewrite forallb_forall in Hinv.
  specialize (Hinv b Hb). unfold is_bit in Hinv.
  apply orb_prop in Hinv. destruct Hinv as [H | H]; apply Z.eqb_eq in H; auto.
Qed.

End WithTable.

(** *** The theorems at work on the unshuffled table *)

Import Scenario.

(** The scenario of the specification: window size 8, bits 1,0,1,1,0,0,1,0;
    the digest starts with 0x94, whose low six bits are 20. *)
Example emit_scenario :
  exists c',
    emit TokenTable.plain (clock_with [1; 0; 1; 1; 0; 0; 1; 0] 0.02) 0.001 0.5
    = Py.Ok ("U"%string, c')
    /\ Py.index TokenTable.plain 20 = Py.Ok "U"%string
    /\ full c' = false.
Proof. eexists. vm_compute. repeat split; reflexivity. Qed.

Lemma emit_token_of_window_witness :
  let c := clock_with [1; 0; 1; 1; 0; 0; 1; 0; 1; 1] 0.02 in
  let w := [1; 0; 1; 1; 0; 0; 1; 0] in
  List.length TokenTable.plain = 64%nat
  /\ bits c = w ++ [1; 1]
  /\ Z.of_nat (List.length w) = cycle_bits c
  /\ is_bits w = true
  /\ exists d0 token c',
       Py.bytes w = Py.Ok w
       /\ Py.index (SHA256.digest w) 0 = Py.Ok d0
       /\ Py.index TokenTable.plain (Z.land d0 63) = Py.Ok token
       /\ emit TokenTable.plain c 0.001 0.5 = Py.Ok (token, c').
Proof.
  intros c w. repeat (split; [reflexivity|]).
  apply (emit_token_of_window TokenTable.plain eq_refl c 0.001 0.5 w [1; 1]);
    reflexivity.
Defined.

Lemma emit_token_deterministic_witness :
  let c1 := clock_with [1; 0; 1; 1; 0; 0; 1; 0] 0.02 in
  let c2 := after_emit (clock_with [0; 1; 0; 0; 0; 0; 0; 1;
                                    1; 0; 1; 1; 0; 0; 1; 0; 1; 1; 1] 0.5)
                       0.002 0.9 "x" in
  List.length TokenTable.plain = 64%nat
  /\ Py.slice_to (cycle_bits c1) (bits c1) = Py.slice_to (cycle_bits c2) (bits c2)
  /\ is_bits (Py.slice_to (cycle_bits c1) (bits c1)) = true
  /\ exists token c1' c2',
       emit TokenTable.plain c1 0.001 0.5 = Py.Ok (token, c1')
       /\ emit TokenTable.plain c2 (-0.002) 0.1 = Py.Ok (token, c2').
Proof.
  intros c1 c2. repeat (split; [reflexivity|]).
  apply (emit_token_deterministic TokenTable.plain eq_refl c1 c2); reflexivity.
Defined.

(** The reset scenario: [reset_prob = 1.0], a window that hashes to the
    sentinel at index 0, and five more bits behind it. *)
Lemma emit_reset_clears_witness :
  let c := clock_with [0; 1; 0; 0; 0; 0; 0; 1; 1; 1; 0; 1; 1] 1 in
  let c' := after_emit c 0.001 0.5 RESET_TOKEN in
  emit TokenTable.plain c 0.001 0.5 = Py.Ok (RESET_TOKEN, c')
  /\ (0.5 <? reset_prob c)%float = true
  /\ bits c' = [] /\ drift c' = 0%float.
Proof.
  intros c c'.
  assert (He : emit TokenTable.plain c 0.001 0.5 = Py.Ok (RESET_TOKEN, c'))
    by (vm_compute; reflexivity).
  split; [exact He|]. split; [reflexivity|].
  apply (emit_reset_clears TokenTable.plain c 0.001 0.5 RESET_TOKEN c' He eq_refl).
  reflexivity.
Defined.

Lemma emit_consumes_window_witness :
  let c := clock_with [1; 0; 1; 1; 0; 0; 1; 0; 1; 1] 0.02 in
  List.length TokenTable.plain = 64%nat
  /\ 1 <= cycle_bits c
  /\ is_bits (bits c) = true
  /\ full c = true
  /\ exists token c', emit TokenTable.plain c 0.001 0.5 = Py.Ok (token, c').
Proof.
  intros c. split; [reflexivity|]. split; [vm_compute; discriminate|].
  split; [reflexivity|]. split; [reflexivity|].
  destruct (emit_consumes_window TokenTable.plain eq_refl c 0.001 0.5)
    as (token & c' & He & _); try reflexivity.
  - vm_compute; discriminate.
  - exists token, c'. exact He.
Defined.

Lemma drift_bounded_after_emit_witness :
  let ops := map (fun b => OpAddBit (Py.VInt b)) [1; 0; 1; 1; 0; 0; 1; 0]
             ++ [OpEmit 0.002 0.5; OpResetParams 4 0.05 1;
                 OpAddBit (Py.VBool true)] in
  List.length TokenTable.plain = 64%nat
  /\ range_ok 0.002 = true
  /\ draws_ok 0.002 (ops ++ [OpEmit (-0.05) 0.5]) = true
  /\ exists c,
       run TokenTable.plain (init 8 0.002 0.02) (ops ++ [OpEmit (-0.05) 0.5])
       = Py.Ok c
       /\ (abs (drift c) <=? 8 * drift_range c)%float = true.
Proof.
  intros ops. repeat (split; [reflexivity|]).
  apply (drift_bounded_after_emit TokenTable.plain eq_refl 8 0.002 0.02 ops);
    reflexivity.
Defined.

(** The bound needs a finite range. With [drift_range = inf], a value the
    settings dialog (0 to 0.05) cannot set, [random.uniform(-inf, inf)]
    computes [-inf + inf * r], a NaN, and the drift is a NaN after [emit]. *)
Example drift_nan_at_infinite_range :
  let c := reset_params (clock_with [1; 0; 1; 1; 0; 0; 1; 0] 0.02) 8 infinity 0.02 in
  let u := (- drift_range c + (drift_range c - - drift_range c) * 0.5)%float in
  exists token c',
    emit TokenTable.plain c u 0.5 = Py.Ok (token, c')
    /\ fnan (drift c') = true
    /\ (abs (drift c') <=? 8 * drift_range c')%float = false.
Proof. do 2 eexists. vm_compute. repeat split; reflexivity. Qed.

Lemma add_bit_keeps_bits_witness :
  let ops := [OpAddBit (Py.VStr "x"); OpAddBit Py.VNone; OpAddBit (Py.VInt 7);
              OpAddBit (Py.VFloat 0); OpAddBit (Py.VList []);
              OpAddBit (Py.VBool true); OpAddBit (Py.VInt 0);
              OpAddBit (Py.VInt (-1)); OpEmit 0.001 0.5;
              OpAddBit (Py.VInt 2)] in
  let c := mkDriftClock [1] 8 0.002 0.02 0.001 1 in
  run TokenTable.plain (init 8 0.002 0.02) ops = Py.Ok c
  /\ Forall (fun b => b = 0 \/ b = 1) (bits c)
  /\ forall v : Py.value,
       bits (add_bit c v) = bits c ++ [if Py.truthy v then 1 else 0].
Proof.
  intros ops c.
  assert (Hrun : run TokenTable.plain (init 8 0.002 0.02) ops = Py.Ok c)
    by (vm_compute; reflexivity).
  split; [exact Hrun|].
  apply (add_bit_keeps_bits TokenTable.plain 8 0.002 0.02 ops c Hrun).
Defined.

End ClockFacts.

(** ** The action tick *)

Module UIFacts.

Import UI Spec Scenario.

(** *** The history of presence bits *)

Lemma push_last_bits_lastn (bs : list Z) (b : Z) :
  push_last_bits (lastn 64 bs) b = lastn 64 (bs ++ [b]).
Proof.
  unfold push_last_bits, lastn. rewrite !length_app, length_skipn. simpl.
  destruct (Nat.le_gt_cases (List.length bs) 63) as [H | H].
  - replace (List.length bs - 64)%nat with 0%nat by lia.
    replace (List.length bs + 1 - 64)%nat with 0%nat by lia. simpl.
    destruct (Nat.ltb_spec 64 (List.length bs - 0 + 1)); [lia | reflexivity].
  - destruct (Nat.ltb_spec 64 (List.length bs - (List.length bs - 64) + 1)); [|lia].
    rewrite (skipn_app (List.length bs + 1 - 64)).
    replace (List.length bs + 1 - 64 - List.length bs)%nat with 0%nat by lia.
    replace (List.length bs + 1 - 64)%nat with (1 + (List.length bs - 64))%nat by lia.
    rewrite <- skipn_skipn. simpl skipn at 3.
    destruct (skipn (List.length bs - 64) bs) as [|x t] eqn:E.
    + apply (f_equal (@List.length Z)) in E. rewrite length_skipn in E.
      simpl in E. lia.
    + reflexivity.
Qed.

(** After the cycle tick has seen the bits [bs], [last_bits] holds the
    last 64 of them. *)
Lemma history_lastn (bs : list Z) :
  fold_left push_last_bits bs [] = lastn 64 bs.
Proof.
  induction bs as [|b bs IH] using rev_ind; [reflexivity|].
  rewrite fold_left_app. simpl. rewrite IH. apply push_last_bits_lastn.
Qed.

(** C2, as the code has it: after the cycle tick has seen the presence
    bits [bs], the action tick hashes the whole retained history (the last
    64 bits at most) when at least 8 bits were seen, and otherwise eight
    copies of the current presence bit (1 when the watcher state is an
    active one, else 0); the salt 1,0,1,0,0,1,0,1 follows in both cases. *)
Theorem action_hash_input_history (bs : list Z) (watcher_state : string) :
  action_hash_input (fold_left push_last_bits bs []) watcher_state
  = (if (List.length bs <? 8)%nat
     then repeat (presence_bit watcher_state) 8
     else lastn 64 bs) ++ [1; 0; 1; 0; 0; 1; 0; 1]
  /\ (List.length (fold_left push_last_bits bs []) <= 64)%nat.
Proof.
  rewrite history_lastn. unfold action_hash_input, seed_bits, presence_bit, lastn.
  rewrite length_skipn. split; [|lia].
  destruct (Nat.ltb_spec (List.length bs) 8) as [H | H].
  - destruct (Nat.ltb_spec (List.length bs - (List.length bs - 64)) 8); [|lia].
    destruct (str_in watcher_state ACTIVE_STATES); reflexivity.
  - destruct (Nat.ltb_spec (List.length bs - (List.length bs - 64)) 8); [lia|].
    reflexivity.
Qed.

(** C2, as the specification words it, fails: with nine bits of history
    the tick hashes all nine, not the last eight; and with no history the
    pattern hashed in their place follows the presence state, so that it
    is not a fixed one. *)
Lemma action_hash_input_not_last8 :
  let history := fold_left push_last_bits [1; 0; 0; 0; 0; 0; 0; 0; 0] [] in
  (forall default : list Z,
      action_hash_input history "online" <> spec_hash_input default history)
  /\ action_hash_input history "online" = [1; 0; 0; 0; 0; 0; 0; 0; 0] ++ SALT
  /\ (forall default : list Z,
        spec_hash_input default history = [0; 0; 0; 0; 0; 0; 0; 0] ++ SALT)
  /\ action_hash_input [] "online" <> action_hash_input [] "offline"
  /\ ~ (exists default : list Z, forall (h : list Z) (st : string),
           action_hash_input h st = spec_hash_input default h).
Proof.
  intros history.
  assert (H9 : forall default : list Z,
             action_hash_input history "online" <> spec_hash_input default history).
  { intros default. vm_compute. discriminate. }
  assert (H0 : action_hash_input [] "online" <> action_hash_input [] "offline").
  { vm_compute. discriminate. }
  split; [exact H9|]. split; [reflexivity|]. split; [reflexivity|].
  split; [exact H0|].
  intros [default H]. apply (H9 default). apply H.
Qed.

(** *** Failing dispatch *)

(** [key_press] returns a tag whatever the input layer does; a raise
    becomes a [key-skip] tag. *)
Lemma key_press_skip (io : Actuator) (key : string) (kd : float)
    (adminless : bool) (e : Py.exn) :
  key_press_body io key kd adminless = Py.Raise e ->
  key_press io key kd adminless
  = ("key-skip:" ++ key ++ ":" ++ Py.class_name e)%string.
Proof. unfold key_press. intros ->. reflexivity. Qed.

Example key_tick_skips :
  _on_action_tick keys_fail TokenTable.plain (window ModeKeyboard)
                  (mkDraws 10 0.5 0)
  = (window ModeKeyboard,
     Py.Ok [SigToken "o → w [key-skip:w:OSError]"; SigDrift 0]).
Proof. vm_compute. reflexivity. Qed.

(** C3 fails in the pointer domain: when [pyautogui.click] raises, the
    exception leaves [_perform_mouse] and the action tick; no tag is
    produced and no signal is sent. *)
Theorem mouse_tick_raises :
  _choose_mouse_action "U" click_draws = "click"%string
  /\ snd (_perform_mouse click_fails (window ModeMouse) "click")
     = Py.Raise (Py.OtherError "OSError")
  /\ snd (_on_action_tick click_fails TokenTable.plain (window ModeMouse) click_draws)
     = Py.Raise (Py.OtherError "OSError")
  /\ snd (_on_action_tick click_fails TokenTable.plain (window ModeAuto) click_draws)
     = Py.Raise (Py.OtherError "OSError").
Proof. vm_compute. repeat split; reflexivity. Qed.

(** *** Choice of domain *)

(** The choice of domain alone: in Auto mode with one weight 0 and the
    other positive, it falls on the domain of the positive weight, whatever
    [random.uniform] would draw. *)
Theorem auto_zero_weight_forces_domain (weight : positive) (draws : list float) :
  Forall (fun u => action_domain ModeAuto 0 (Z.pos weight) u = Keyboard) draws
  /\ Forall (fun u => action_domain ModeAuto (Z.pos weight) 0 u = Mouse) draws
  /\ Forall (fun u => action_domain ModeAuto 0 100 u = Keyboard
                      /\ action_domain ModeAuto 0 100 u <> Mouse) draws.
Proof.
  repeat split; apply Forall_forall; intros u _; try reflexivity.
  split; [reflexivity | discriminate].
Qed.

End UIFacts.

(** ** More on the drift clock *)

Module ClockMore.

Import Clock Session Trace.

Lemma bytes_spec (l : list Z) :
  Py.bytes l = if forallb is_byte l then Py.Ok l else Py.Raise Py.ValueError.
Proof.
  induction l as [|b t IH]; [reflexivity|].
  cbn [Py.bytes forallb]. unfold is_byte at 1.
  destruct ((0 <=? b) && (b <? 256)); cbn [andb]; [|reflexivity].
  rewrite IH. destruct (forallb is_byte t); reflexivity.
Qed.

(** [sha_index] returns an index from 0 to 63 on every list of integers
    from 0 to 255, and raises [ValueError] on every other list of
    integers. *)
Theorem sha_index_range (l : list Z) :
  (forallb is_byte l = true ->
   exists i, sha_index l = Py.Ok i /\ 0 <= i < 64)
  /\ (forallb is_byte l = false -> sha_index l = Py.Raise Py.ValueError).
Proof.
  unfold sha_index. rewrite bytes_spec. split; intros ->; [|reflexivity].
  cbn [Py.bind]. destruct (ShaFacts.digest_head l) as (d0 & rest & Hd).
  rewrite Hd. exists (Z.land d0 63). split; [reflexivity|].
  apply ShaFacts.land63_range.
Qed.

Lemma fold_add_bit (vs : list Py.value) : forall c,
  cycle_bits (fold_left add_bit vs c) = cycle_bits c
  /\ bits (fold_left add_bit vs c)
     = bits c ++ map (fun v => if Py.truthy v then 1 else 0) vs
  /\ drift (fold_left add_bit vs c) = drift c
  /\ window_counter (fold_left add_bit vs c) = window_counter c.
Proof.
  induction vs as [|v vs IH]; intros c; simpl.
  - now rewrite app_nil_r.
  - destruct (IH (add_bit c v)) as (H1 & H2 & H3 & H4).
    rewrite H1, H2, H3, H4. repeat split. simpl. now rewrite <- app_assoc.
Qed.

(** A new clock is full after [n] calls of [add_bit] exactly when [n]
    reaches [max(1, cycle_bits)], whatever the values added. *)
Theorem full_after_adds (cb : Z) (dr rp : float) (vs : list Py.value) :
  full (fold_left add_bit vs (init cb dr rp))
  = (Z.max 1 cb <=? Z.of_nat (List.length vs)).
Proof.
  destruct (fold_add_bit vs (init cb dr rp)) as (H1 & H2 & _).
  unfold full. rewrite H1, H2. cbn [init bits cycle_bits app].
  rewrite length_map. apply Z.geb_leb.
Qed.

Section WithTable.

Variable TOKENS : list string.
Hypothesis TOKENS_length : List.length TOKENS = 64%nat.

(** Called on a buffer that holds no more than one window (an empty one
    included), [emit] still returns: it hashes what the buffer holds, leaves
    the buffer empty and counts one more window. *)
Theorem emit_short_buffer (c : DriftClock) (u r : float)
    (Hbits : is_bits (bits c) = true)
    (Hshort : Z.of_nat (List.length (bits c)) <= cycle_bits c) :
  exists d0 token c',
    Py.index (SHA256.digest (bits c)) 0 = Py.Ok d0
    /\ Py.index TOKENS (Z.land d0 63) = Py.Ok token
    /\ emit TOKENS c u r = Py.Ok (token, c')
    /\ bits c' = []
    /\ window_counter c' = window_counter c + 1.
Proof.
  destruct (ClockFacts.slice_pos (cycle_bits c) (bits c) ltac:(lia)) as [Hto Hfrom].
  assert (Hall : Py.slice_to (cycle_bits c) (bits c) = bits c).
  { rewrite Hto. apply firstn_all2. lia. }
  assert (Hnone : Py.slice_from (cycle_bits c) (bits c) = []).
  { rewrite Hfrom. apply skipn_all2. lia. }
  destruct (ClockFacts.emit_returns TOKENS TOKENS_length c u r)
    as (d0 & token & Hd & Ht & He).
  { now rewrite Hall. }
  rewrite Hall in Hd.
  exists d0, token, (after_emit c u r token).
  repeat split; try assumption.
  unfold after_emit. cbn [bits]. rewrite Hnone. now destruct (_ && _).
Qed.

(** When the buffer starts with two windows [w1] and [w2] and the first
    [emit] fires no reset, the second [emit] returns the token of [w2]: bits
    left beyond a window open the next one. *)
Theorem emit_next_window (c : DriftClock) (u1 r1 u2 r2 : float)
    (w1 w2 rest : list Z)
    (Hbits : bits c = w1 ++ w2 ++ rest)
    (Hlen1 : Z.of_nat (List.length w1) = cycle_bits c)
    (Hlen2 : Z.of_nat (List.length w2) = cycle_bits c)
    (Hw1 : is_bits w1 = true)
    (Hw2 : is_bits w2 = true) :
  exists t1 c1,
    emit TOKENS c u1 r1 = Py.Ok (t1, c1)
    /\ ((t1 =? RESET_TOKEN)%string && (r1 <? reset_prob c)%float = false ->
        exists d0 t2 c2,
          bits c1 = w2 ++ rest
          /\ Py.index (SHA256.digest w2) 0 = Py.Ok d0
          /\ Py.index TOKENS (Z.land d0 63) = Py.Ok t2
          /\ emit TOKENS c1 u2 r2 = Py.Ok (t2, c2)
          /\ bits c2 = (if (t2 =? RESET_TOKEN)%string && (r2 <? reset_prob c)%float
                        then [] else rest)).
Proof.
  assert (Hout : Py.slice_to (cycle_bits c) (bits c) = w1).
  { rewrite Hbits, <- Hlen1. apply ClockFacts.slice_to_window. }
  assert (Hrest : Py.slice_from (cycle_bits c) (bits c) = w2 ++ rest).
  { rewrite Hbits, <- Hlen1. apply ClockFacts.slice_from_window. }
  destruct (ClockFacts.emit_returns TOKENS TOKENS_length c u1 r1)
    as (d1 & t1 & _ & _ & He1).
  { now rewrite Hout. }
  exists t1, (after_emit c u1 r1 t1). split; [assumption|].
  intros Hno.
  assert (Hb1 : bits (after_emit c u1 r1 t1) = w2 ++ rest).
  { unfold after_emit. rewrite Hno. cbn [bits]. exact Hrest. }
  assert (Hcb : cycle_bits (after_emit c u1 r1 t1) = cycle_bits c) by reflexivity.
  assert (Hout2 : Py.slice_to (cycle_bits (after_emit c u1 r1 t1))
                              (bits (after_emit c u1 r1 t1)) = w2).
  { rewrite Hb1, Hcb, <- Hlen2. apply ClockFacts.slice_to_window. }
  destruct (ClockFacts.emit_returns TOKENS TOKENS_length (after_emit c u1 r1 t1) u2 r2)
    as (d2 & t2 & Hd2 & Ht2 & He2).
  { now rewrite Hout2. }
  rewrite Hout2 in Hd2.
  exists d2, t2, (after_emit (after_emit c u1 r1 t1) u2 r2 t2).
  repeat split; try assumption.
  unfold after_emit at 1. cbn [bits reset_prob cycle_bits].
  change (reset_prob (after_emit c u1 r1 t1)) with (reset_prob c).
  rewrite Hb1, Hcb, <- Hlen2, ClockFacts.slice_from_window. reflexivity.
Qed.

(** Through any sequence of [add_bit], [emit] and [reset_params] calls on a
    new clock, [window_counter] is the number of [emit] calls made and
    [cycle_bits] stays at least 1. *)
Theorem run_counts_windows (cb : Z) (dr rp : float) (ops : list Op)
    (c : DriftClock)
    (Hrun : run TOKENS (init cb dr rp) ops = Py.Ok c) :
  window_counter c = count_emits ops /\ 1 <= cycle_bits c.
Proof.
  clear TOKENS_length.
  assert (Hinv : forall ops c0 c1,
             run TOKENS c0 ops = Py.Ok c1 -> 1 <= cycle_bits c0 ->
             window_counter c1 = window_counter c0 + count_emits ops
             /\ 1 <= cycle_bits c1).
  { clear. induction ops as [|o ops IH]; intros c0 c1 Hr H0; simpl in Hr.
    - inversion Hr. subst. simpl. split; [lia | assumption].
    - destruct (step TOKENS c0 o) as [c2|e] eqn:Hs; simpl in Hr; [|discriminate].
      destruct o as [v|u r|cb dr rp]; simpl in Hs.
      + inversion Hs. subst c2. destruct (IH _ _ Hr) as [H1 H2]; [exact H0|].
        split; [exact H1 | exact H2].
      + destruct (emit TOKENS c0 u r) as [[tok c3]|e] eqn:He; simpl in Hs;
          [|discriminate].
        inversion Hs. subst c3. apply ClockFacts.emit_inv in He. subst c2.
        destruct (IH _ _ Hr) as [H1 H2]; [exact H0|].
        cbn [after_emit window_counter] in H1. cbn [count_emits].
        split; [lia | exact H2].
      + inversion Hs. subst c2. destruct (IH _ _ Hr) as [H1 H2].
        { cbn [reset_params cycle_bits]. lia. }
        split; [exact H1 | exact H2]. }
  destruct (Hinv ops (init cb dr rp) c Hrun) as [H1 H2].
  { cbn [init cycle_bits]. lia. }
  split; [exact H1 | exact H2].
Qed.

End WithTable.

Import Scenario.

Lemma emit_short_buffer_witness :
  let c := init 8 0.002 0.02 in
  List.length TokenTable.plain = 64%nat
  /\ is_bits (bits c) = true
  /\ Z.of_nat (List.length (bits c)) <= cycle_bits c
  /\ exists d0 token c',
       Py.index (SHA256.digest (bits c)) 0 = Py.Ok d0
       /\ Py.index TokenTable.plain (Z.land d0 63) = Py.Ok token
       /\ emit TokenTable.plain c 0.001 0.5 = Py.Ok (token, c')
       /\ bits c' = []
       /\ window_counter c' = window_counter c + 1.
Proof.
  intros c. split; [reflexivity|]. split; [reflexivity|].
  split; [vm_compute; discriminate|].
  apply (emit_short_buffer TokenTable.plain eq_refl c 0.001 0.5);
    [reflexivity | vm_compute; discriminate].
Defined.

Lemma emit_next_window_witness :
  let c := clock_with [1; 0; 1; 1; 0; 0; 1; 0; 0; 1; 0; 0; 0; 0; 0; 1; 1; 1] 0.02 in
  let w1 := [1; 0; 1; 1; 0; 0; 1; 0] in
  let w2 := [0; 1; 0; 0; 0; 0; 0; 1] in
  List.length TokenTable.plain = 64%nat
  /\ bits c = w1 ++ w2 ++ [1; 1]
  /\ Z.of_nat (List.length w1) = cycle_bits c
  /\ Z.of_nat (List.length w2) = cycle_bits c
  /\ is_bits w1 = true /\ is_bits w2 = true
  /\ exists t1 c1, emit TokenTable.plain c 0.001 0.5 = Py.Ok (t1, c1).
Proof.
  intros c w1 w2. repeat (split; [reflexivity|]).
  destruct (emit_next_window TokenTable.plain eq_refl c 0.001 0.5 0.001 0.5
              w1 w2 [1; 1]) as (t1 & c1 & He & _); try reflexivity.
  exists t1, c1. exact He.
Defined.

Lemma run_counts_windows_witness :
  let ops := [OpAddBit (Py.VInt 1); OpEmit 0.001 0.5; OpResetParams 0 0.01 0.5;
              OpEmit 0.001 0.5; OpAddBit Py.VNone] in
  exists c,
    run TokenTable.plain (init 8 0.002 0.02) ops = Py.Ok c
    /\ window_counter c = count_emits ops /\ 1 <= cycle_bits c.
Proof.
  intros ops.
  destruct (run TokenTable.plain (init 8 0.002 0.02) ops) as [c|e] eqn:Hrun.
  - exists c. split; [reflexivity|].
    apply (run_counts_windows TokenTable.plain 8 0.002 0.02 ops c Hrun).
  - vm_compute in Hrun. discriminate.
Defined.

End ClockMore.

(** ** Pointer and key actions *)

Module ActionFacts.

Import UI Pointer.

Lemma choice_In (i : nat) (l : list string) : l <> [] -> In (choice i l) l.
Proof.
  intros Hl. unfold choice. apply nth_In. apply Nat.mod_upper_bound.
  destruct l; [congruence | discriminate].
Qed.

Lemma choose_mouse_In (token : string) (d : Draws) :
  In (_choose_mouse_action token d) mouse_tokens.
Proof.
  unfold _choose_mouse_action, mouse_tokens.
  destruct (random_r d <? 0.6)%float; [|destruct (random_r d <? 0.85)%float;
    [|destruct (random_r d <? 0.95)%float]];
    repeat (apply in_or_app; first [ left; apply choice_In; discriminate | right ]).
  apply choice_In; discriminate.
Qed.

(** A direction token makes [_perform_mouse] ramp the step and move. *)
Lemma perform_mouse_dir (io : Actuator) (w : MiniUI) (a : string) :
  str_in a (dict_keys MOUSE_DIR) = true ->
  let step := Z.min (st_mouse_max (state w))
                    (Z.max (st_mouse_step (state w))
                           (cur_step w + st_mouse_accel (state w))) in
  _perform_mouse io w a
  = (step, mouse_move io (fst (dict_get MOUSE_DIR a (0, 0)) * step)
                         (snd (dict_get MOUSE_DIR a (0, 0)) * step)).
Proof.
  intros H step. unfold _perform_mouse. rewrite H.
  destruct (dict_get MOUSE_DIR a (0, 0)) as [dx dy]. reflexivity.
Qed.

Lemma perform_mouse_other (io : Actuator) (w : MiniUI) (a : string) :
  str_in a (dict_keys MOUSE_DIR) = false ->
  fst (_perform_mouse io w a) = st_mouse_step (state w).
Proof. intros H. unfold _perform_mouse. rewrite H. reflexivity. Qed.

Lemma perform_all_cons (io : Actuator) (w : MiniUI) (a : string) (t : list string) :
  perform_all io w (a :: t)
  = perform_all io (set_cur_step w (fst (_perform_mouse io w a))) t.
Proof. reflexivity. Qed.

(** The acceleration ramp: from a step no smaller than [mouse_step], with a
    non-negative [mouse_accel], [n >= 1] directional nudges in a row leave
    [cur_step = min(mouse_max, cur_step + n * mouse_accel)], whether the
    moves succeed or raise. In particular the step never exceeds
    [mouse_max], even when [mouse_step] does. *)
Theorem nudge_ramp (io : Actuator) (w : MiniUI) (tokens : list string)
    (Hdir : forallb (fun a => str_in a (dict_keys MOUSE_DIR)) tokens = true)
    (Hsome : tokens <> [])
    (Haccel : 0 <= st_mouse_accel (state w))
    (Hstep : st_mouse_step (state w) <= cur_step w) :
  cur_step (perform_all io w tokens)
  = Z.min (st_mouse_max (state w))
          (cur_step w + Z.of_nat (List.length tokens) * st_mouse_accel (state w)).
Proof.
  assert (Hgen : forall tokens w,
             forallb (fun a => str_in a (dict_keys MOUSE_DIR)) tokens = true ->
             tokens <> [] ->
             0 <= st_mouse_accel (state w) ->
             (st_mouse_step (state w) <= cur_step w
              \/ (st_mouse_max (state w) < st_mouse_step (state w)
                  /\ st_mouse_max (state w) <= cur_step w)) ->
             cur_step (perform_all io w tokens)
             = Z.min (st_mouse_max (state w))
                     (cur_step w
                      + Z.of_nat (List.length tokens) * st_mouse_accel (state w))).
  { clear. induction tokens as [|a t IH]; intros w Hdir Hsome Ha Hs; [congruence|].
    cbn [forallb] in Hdir. apply andb_prop in Hdir. destruct Hdir as [Hd Ht].
    rewrite perform_all_cons.
    pose proof (perform_mouse_dir io w a Hd) as Hp. cbv zeta in Hp.
    rewrite Hp. cbn [fst].
    set (w1 := set_cur_step w _).
    destruct t as [|b t].
    - cbn [perform_all fold_left List.length]. subst w1. cbn [set_cur_step cur_step]. lia.
    - rewrite (IH w1); try assumption; try discriminate;
        subst w1; cbn [set_cur_step cur_step state List.length] in *; lia. }
  apply Hgen; auto.
Qed.

Lemma nudge_ramp_witness :
  let w := Scenario.window ModeMouse in
  let tokens := ["up"; "left"; "down_right"; "upward"]%string in
  forallb (fun a => str_in a (dict_keys MOUSE_DIR)) tokens = true
  /\ tokens <> []
  /\ 0 <= st_mouse_accel (state w)
  /\ st_mouse_step (state w) <= cur_step w
  /\ cur_step (perform_all Scenario.click_fails w tokens) = 40.
Proof.
  intros w tokens. split; [reflexivity|]. split; [discriminate|].
  split; [vm_compute; discriminate|]. split; [vm_compute; discriminate|].
  rewrite (nudge_ramp Scenario.click_fails w tokens);
    [reflexivity | reflexivity | discriminate
     | vm_compute; discriminate | vm_compute; discriminate].
Defined.

(** *** Tags of the pointer actions *)

Lemma mouse_move_tag (io : Actuator) (dx dy : Z) (t : string) :
  mouse_move io dx dy = Py.Ok t ->
  t = ("move(" ++ str_of_int dx ++ "," ++ str_of_int dy ++ ")")%string.
Proof.
  unfold mouse_move.
  destruct (pyautogui_position io tt) as [xy|e]; cbn [Py.bind]; [|discriminate].
  destruct (pyautogui_moveTo io _ _) as [u|e]; cbn [Py.bind]; [|discriminate].
  intros H. now inversion H.
Qed.

(** Whatever action the mouse chooser picks, [_perform_mouse] answers with
    a move tag or one of nine fixed tags when the call returns; it never
    answers ["noop"] or ["wheel:noop"]. *)
Theorem chosen_mouse_action_tag (io : Actuator) (w : MiniUI) (token : string)
    (d : Draws) (t : string)
    (Hok : snd (_perform_mouse io w (_choose_mouse_action token d)) = Py.Ok t) :
  ((exists dx dy : Z,
       t = ("move(" ++ str_of_int dx ++ "," ++ str_of_int dy ++ ")")%string)
   \/ In t fixed_tags)
  /\ t <> "noop"%string /\ t <> "wheel:noop"%string.
Proof.
  assert (Hcases : (exists dx dy : Z,
              t = ("move(" ++ str_of_int dx ++ "," ++ str_of_int dy ++ ")")%string)
           \/ In t fixed_tags).
  { pose proof (choose_mouse_In token d) as Hin.
    set (a := _choose_mouse_action token d) in *. clearbody a.
    unfold mouse_tokens in Hin. apply in_app_or in Hin. destruct Hin as [Hin | Hin].
    - left.
      assert (Hd : str_in a (dict_keys MOUSE_DIR) = true).
      { apply TokenTableFacts.str_in_In. exact Hin. }
      pose proof (perform_mouse_dir io w a Hd) as Hp. cbv zeta in Hp.
      rewrite Hp in Hok. cbn [snd] in Hok.
      apply mouse_move_tag in Hok. eauto.
    - right. destruct io as [wr pr kb pos mv clk rclk scr hscr dn up slp].
      cbn in Hin.
      repeat (destruct Hin as [Hin | Hin];
              [subst a; vm_compute in Hok;
               repeat match type of Hok with
                      | context [match ?x with _ => _ end] => destruct x
                      end;
               try discriminate; inversion Hok; vm_compute; tauto|]).
      contradiction. }
  split; [exact Hcases|].
  destruct Hcases as [(dx & dy & ->) | Hin].
  - split; discriminate.
  - split; intros ->; vm_compute in Hin; repeat destruct Hin as [Hin | Hin];
      try discriminate; contradiction.
Qed.

Lemma chosen_mouse_action_tag_witness :
  let w := Scenario.window ModeMouse in
  let d := mkDraws 10 0.9 1 in
  snd (_perform_mouse Scenario.click_fails w (_choose_mouse_action "U" d))
  = Py.Ok "scroll_v:-400"%string
  /\ (((exists dx dy : Z,
          "scroll_v:-400"%string
          = ("move(" ++ str_of_int dx ++ "," ++ str_of_int dy ++ ")")%string)
       \/ In "scroll_v:-400"%string fixed_tags)
      /\ "scroll_v:-400"%string <> "noop"%string
      /\ "scroll_v:-400"%string <> "wheel:noop"%string).
Proof.
  intros w d.
  assert (H : snd (_perform_mouse Scenario.click_fails w (_choose_mouse_action "U" d))
              = Py.Ok "scroll_v:-400"%string) by (vm_compute; reflexivity).
  split; [exact H|].
  apply (chosen_mouse_action_tag Scenario.click_fails w "U" d _ H).
Defined.

(** *** Key actions *)

Lemma name_map_id (key : string) : dict_get name_map key key = key.
Proof.
  unfold name_map. cbn [dict_get].
  repeat match goal with
         | |- context [(?k =? key)%string] =>
             destruct (String.eqb_spec k key) as [<- | _]; [reflexivity|]
         end.
  reflexivity.
Qed.

(** [_perform_key] passes on a named key or a single printable character
    as it is. *)
Lemma perform_key_passes (io : Actuator) (w : MiniUI) (a : string) :
  str_in a (dict_keys name_map)
  || ((String.length a =? 1)%nat && isprintable a) = true ->
  _perform_key io w a
  = key_press io a (st_key_delay (state w)) (st_adminless (state w)).
Proof.
  unfold _perform_key. intros H.
  destruct (str_in a (dict_keys name_map)); [now rewrite name_map_id|].
  cbn [orb] in H. now rewrite H.
Qed.

(** Whatever the key chooser picks (one of [KEY_ACTIONS], the token when it
    is one printable character, or ["space"]), [_perform_key] presses that
    very key: its fallback to ["space"] is not taken. *)
Theorem chosen_key_action_pressed (io : Actuator) (w : MiniUI) (token : string)
    (d : Draws) :
  _perform_key io w (_choose_key_action token d)
  = key_press io (_choose_key_action token d)
              (st_key_delay (state w)) (st_adminless (state w))
  /\ (In (_choose_key_action token d) KEY_ACTIONS
      \/ (_choose_key_action token d = token
          /\ String.length token = 1%nat /\ isprintable token = true)
      \/ _choose_key_action token d = "space"%string).
Proof.
  assert (Hall : forallb (fun a => str_in a (dict_keys name_map)
                            || ((String.length a =? 1)%nat && isprintable a))
                         KEY_ACTIONS = true) by reflexivity.
  rewrite forallb_forall in Hall.
  unfold _choose_key_action.
  destruct (random_r d <? 0.85)%float.
  - assert (Hin : In (choice (choice_i d) KEY_ACTIONS) KEY_ACTIONS)
      by (apply choice_In; discriminate).
    split; [apply perform_key_passes, Hall, Hin | left; exact Hin].
  - destruct ((String.length token =? 1)%nat && isprintable token) eqn:E.
    + split; [apply perform_key_passes; rewrite E; apply orb_true_r|].
      right. left. apply andb_prop in E. destruct E as [E1 E2].
      apply Nat.eqb_eq in E1. auto.
    + split; [apply perform_key_passes; reflexivity | right; right; reflexivity].
Qed.

(** *** What leaves the action tick *)

Section ActionTick.

Variable TOKENS : list string.
Hypothesis TOKENS_length : List.length TOKENS = 64%nat.

Lemma action_token_found (l : list Z) (wstate : string) :
  Session.is_bits l = true ->
  exists token,
    (idx <- Clock.sha_index (action_hash_input l wstate) ;;
     Py.index TOKENS (idx mod 64)) = Py.Ok token.
Proof.
  intros Hl.
  assert (Hb : Session.is_bits (action_hash_input l wstate) = true).
  { unfold action_hash_input, seed_bits. rewrite ClockFacts.is_bits_app.
    apply andb_true_intro. split; [|reflexivity].
    destruct (List.length l <? 8)%nat; [|assumption].
    destruct (str_in wstate ACTIVE_STATES); reflexivity. }
  destruct (ShaFacts.sha_index_bits _ Hb) as (d0 & _ & Hs). rewrite Hs.
  cbn [Py.bind]. pose proof (ShaFacts.land63_range d0) as Hr.
  rewrite Z.mod_small by lia.
  apply ShaFacts.index_in_range. rewrite TOKENS_length. lia.
Qed.

(** With a history of bits, an action tick in the key domain returns and
    leaves the window as it was, whatever the input layer does; and an
    exception that leaves an action tick is one a pointer call raised. *)
Theorem action_tick_raises_only_pointer (io : Actuator) (w : MiniUI) (d : Draws)
    (Hbits : Session.is_bits (last_bits w) = true) :
  (action_domain (mode w) (st_mouse_dom (state w)) (st_key_dom (state w))
                 (uniform_dom d) = Keyboard ->
   exists sigs, _on_action_tick io TOKENS w d = (w, Py.Ok sigs))
  /\ (forall e : Py.exn,
        snd (_on_action_tick io TOKENS w d) = Py.Raise e ->
        action_domain (mode w) (st_mouse_dom (state w)) (st_key_dom (state w))
                      (uniform_dom d) = Mouse
        /\ exists token,
             snd (_perform_mouse io w (_choose_mouse_action token d)) = Py.Raise e).
Proof.
  unfold _on_action_tick.
  destruct (run_flag w); [|split; [eauto | discriminate]].
  destruct (clock w) as [c|]; [|split; [eauto | discriminate]].
  destruct (watcher w) as [wstate|]; [|split; [eauto | discriminate]].
  destruct (paused w); [split; [eauto | discriminate]|].
  destruct (action_token_found (last_bits w) wstate Hbits) as [token Ht].
  rewrite Ht.
  destruct (action_domain _ _ _ _).
  - split; [discriminate|]. intros e He. split; [reflexivity|].
    exists token.
    destruct (_perform_mouse io w (_choose_mouse_action token d)) as [step res].
    cbn [snd] in *. destruct res as [r|e']; cbn [Py.bind] in He;
      [discriminate | now inversion He].
  - split; [eauto | discriminate].
Qed.

End ActionTick.

Lemma action_tick_raises_only_pointer_witness :
  let w := Scenario.window ModeAuto in
  List.length TokenTable.plain = 64%nat
  /\ Session.is_bits (last_bits w) = true
  /\ snd (_on_action_tick Scenario.click_fails TokenTable.plain w Scenario.click_draws)
     = Py.Raise (Py.OtherError "OSError")
  /\ action_domain (mode w) (st_mouse_dom (state w)) (st_key_dom (state w))
                   (uniform_dom Scenario.click_draws) = Mouse.
Proof.
  intros w. split; [reflexivity|]. split; [reflexivity|].
  assert (H : snd (_on_action_tick Scenario.click_fails TokenTable.plain w
                                   Scenario.click_draws)
              = Py.Raise (Py.OtherError "OSError")) by (vm_compute; reflexivity).
  split; [exact H|].
  destruct (action_tick_raises_only_pointer TokenTable.plain eq_refl
              Scenario.click_fails w Scenario.click_draws eq_refl) as [_ Hr].
  exact (proj1 (Hr _ H)).
Defined.

(** *** Dominance weights *)

(** After the slider is moved to any value, the two weights lie between 0
    and 100 and add up to 100, so that in Auto mode the mouse weight alone
    decides: 0 forces the keyboard, 100 the mouse, and anything between
    compares the draw with the mouse weight. The case of two zero weights
    cannot arise. *)
Theorem slider_keeps_dominance (s : Settings) (val : Z) (u : float) :
  let s' := _mouse_dom_changed s val in
  let m := st_mouse_dom s' in
  let k := st_key_dom s' in
  m = Z.max 0 (Z.min 100 val)
  /\ 0 <= m <= 100 /\ 0 <= k <= 100 /\ m + k = 100
  /\ action_domain ModeAuto m k u
     = (if m =? 0 then Keyboard
        else if m =? 100 then Mouse
        else if (u <? float_of_int m)%float then Mouse else Keyboard).
Proof.
  intros s' m k. subst s' m k. cbn [_mouse_dom_changed st_mouse_dom st_key_dom].
  set (m := Z.max 0 (Z.min 100 val)).
  assert (Hm : 0 <= m <= 100) by (subst m; lia).
  repeat split; try lia.
  unfold action_domain.
  destruct (Z.eqb_spec m 0) as [E0 | E0].
  - rewrite E0. reflexivity.
  - cbn [andb]. destruct (Z.eqb_spec (100 - m) 0) as [E1 | E1];
      destruct (Z.eqb_spec m 100) as [E2 | E2]; try lia; reflexivity.
Qed.

End ActionFacts.

(** ** The cycle tick *)

Module TickFacts.

Import UI Ticks Session.

Lemma presence_bit_is_bit (s : string) : is_bit (presence_bit s) = true.
Proof. unfold presence_bit. destruct (str_in s ACTIVE_STATES); reflexivity. Qed.

Lemma add_presence_bit (c : Clock.DriftClock) (s : string) :
  Clock.bits (Clock.add_bit c (Py.VInt (presence_bit s)))
  = Clock.bits c ++ [presence_bit s].
Proof.
  unfold presence_bit. destruct (str_in s ACTIVE_STATES); reflexivity.
Qed.

Lemma push_is_bits (l : list Z) (b : Z) :
  is_bits l = true -> is_bit b = true -> is_bits (push_last_bits l b) = true.
Proof.
  intros Hl Hb. unfold push_last_bits.
  assert (H : is_bits (l ++ [b]) = true).
  { rewrite ClockFacts.is_bits_app, Hl. simpl. now rewrite Hb. }
  destruct (64 <? List.length (l ++ [b]))%nat; [|assumption].
  destruct (l ++ [b]) as [|x t]; [reflexivity|].
  simpl in H. apply andb_prop in H. apply H.
Qed.

Section WithTable.

Variable TOKENS : list string.
Hypothesis TOKENS_length : List.length TOKENS = 64%nat.

Lemma keepalive_token_found (l : list Z) :
  is_bits l = true ->
  exists token,
    (idx <- Clock.sha_index (keepalive_hash_input l) ;;
     Py.index TOKENS (idx mod 64)) = Py.Ok token.
Proof.
  intros Hl.
  assert (Hb : is_bits (keepalive_hash_input l) = true).
  { unfold keepalive_hash_input. rewrite ClockFacts.is_bits_app.
    apply andb_true_intro. split; [|reflexivity].
    destruct (8 <=? List.length l)%nat; [assumption | reflexivity]. }
  destruct (ShaFacts.sha_index_bits _ Hb) as (d0 & _ & Hs). rewrite Hs.
  cbn [Py.bind]. pose proof (ShaFacts.land63_range d0) as Hr.
  rewrite Z.mod_small by lia.
  apply ShaFacts.index_in_range. rewrite TOKENS_length. lia.
Qed.

(** One tick of a running, unpaused window whose clock is not full. *)
Lemma cycle_tick_step (w : MiniUI) (ti : TickInput) (s0 : string)
    (c : Clock.DriftClock) :
  run_flag w = true -> paused w = false ->
  watcher w = Some s0 -> clock w = Some c ->
  1 <= Clock.cycle_bits c ->
  is_bits (Clock.bits c) = true ->
  Z.of_nat (List.length (Clock.bits c)) < Clock.cycle_bits c ->
  is_bits (last_bits w) = true ->
  exists w' sigs c',
    cycle_tick TOKENS w ti = (w', Py.Ok sigs)
    /\ run_flag w' = true /\ paused w' = false
    /\ watcher w' = Some (seen ti) /\ clock w' = Some c'
    /\ Clock.cycle_bits c' = Clock.cycle_bits c
    /\ is_bits (Clock.bits c') = true
    /\ last_bits w' = push_last_bits (last_bits w) (presence_bit (seen ti))
    /\ ((Z.of_nat (List.length (Clock.bits c)) + 1 < Clock.cycle_bits c
         /\ Z.of_nat (List.length (Clock.bits c'))
            = Z.of_nat (List.length (Clock.bits c)) + 1
         /\ Clock.window_counter c' = Clock.window_counter c)
        \/ (Z.of_nat (List.length (Clock.bits c)) + 1 = Clock.cycle_bits c
            /\ Clock.bits c' = []
            /\ Clock.window_counter c' = Clock.window_counter c + 1)).
Proof.
  intros Hrun Hp Hw Hc Hcb Hb Hlen Hl.
  unfold cycle_tick, set_watcher, _on_cycle_tick. rewrite Hw.
  cbn [run_flag clock watcher paused last_bits state last_emit_ts keepalive_seconds].
  rewrite Hrun, Hc, Hp. cbn [negb andb].
  set (c1 := Clock.add_bit c (Py.VInt (presence_bit (seen ti)))).
  assert (Hb1 : Clock.bits c1 = Clock.bits c ++ [presence_bit (seen ti)])
    by apply add_presence_bit.
  assert (Hbits1 : is_bits (Clock.bits c1) = true).
  { rewrite Hb1, ClockFacts.is_bits_app, Hb. simpl.
    now rewrite presence_bit_is_bit. }
  assert (Hl1 : Z.of_nat (List.length (Clock.bits c1))
                = Z.of_nat (List.length (Clock.bits c)) + 1).
  { rewrite Hb1, length_app. simpl. lia. }
  assert (Hpush : is_bits (push_last_bits (last_bits w) (presence_bit (seen ti))) = true)
    by (apply push_is_bits; [assumption | apply presence_bit_is_bit]).
  unfold Clock.full. change (Clock.cycle_bits c1) with (Clock.cycle_bits c).
  destruct (Z.of_nat (List.length (Clock.bits c1)) >=? Clock.cycle_bits c) eqn:Ef.
  - apply Z.geb_le in Ef.
    destruct (ClockFacts.emit_returns TOKENS TOKENS_length c1 (draw_u ti) (draw_r ti))
      as (d0 & token & _ & _ & He).
    { now apply ClockFacts.is_bits_slice_to. }
    rewrite He.
    assert (Hnil : Clock.bits (Clock.after_emit c1 (draw_u ti) (draw_r ti) token) = []).
    { unfold Clock.after_emit. cbn [Clock.bits].
      destruct (_ && _); [reflexivity|].
      change (Clock.cycle_bits c1) with (Clock.cycle_bits c).
      destruct (ClockFacts.slice_pos (Clock.cycle_bits c) (Clock.bits c1) ltac:(lia))
        as [_ ->].
      apply skipn_all2. lia. }
    do 3 eexists. split; [reflexivity|].
    cbn [set_last_emit_ts set_clock set_last_bits run_flag paused watcher clock last_bits].
    repeat (split; [reflexivity|]).
    split; [now rewrite Hnil|]. split; [reflexivity|].
    right. split; [lia|]. split; [exact Hnil | reflexivity].
  - rewrite Z.geb_leb in Ef. apply Z.leb_gt in Ef.
    assert (Hcase : Z.of_nat (List.length (Clock.bits c)) + 1 < Clock.cycle_bits c
                    /\ Z.of_nat (List.length (Clock.bits c1))
                       = Z.of_nat (List.length (Clock.bits c)) + 1
                    /\ Clock.window_counter c1 = Clock.window_counter c).
    { split; [lia|]. split; [exact Hl1 | reflexivity]. }
    destruct (keepalive_seconds w <=? now ti - last_emit_ts w)%float.
    + cbn [set_last_bits set_clock last_bits].
      destruct (keepalive_token_found _ Hpush) as [token Ht]. rewrite Ht.
      do 3 eexists. split; [reflexivity|].
      cbn [set_last_emit_ts set_clock set_last_bits run_flag paused watcher clock last_bits].
      repeat (split; [reflexivity|]).
      split; [exact Hbits1|]. split; [reflexivity|]. left. exact Hcase.
    + do 3 eexists. split; [reflexivity|].
      cbn [set_clock set_last_bits run_flag paused watcher clock last_bits].
      repeat (split; [reflexivity|]).
      split; [exact Hbits1|]. split; [reflexivity|]. left. exact Hcase.
Qed.

(** In a running, unpaused window whose clock holds fewer than
    [cycle_bits] bits, any number [n] of cycle ticks go through without an
    exception; the clock emits once each time its buffer reaches
    [cycle_bits], so that afterwards the buffer holds [(len + n) mod
    cycle_bits] bits and [window_counter] has grown by [(len + n) /
    cycle_bits]; the history has taken the presence bit of every tick. *)
Theorem cycle_ticks_emit_every_window (w : MiniUI) (tis : list TickInput)
    (s0 : string) (c : Clock.DriftClock)
    (Hrun : run_flag w = true) (Hpaused : paused w = false)
    (Hwatcher : watcher w = Some s0) (Hclock : clock w = Some c)
    (Hcb : 1 <= Clock.cycle_bits c)
    (Hbits : is_bits (Clock.bits c) = true)
    (Hlen : Z.of_nat (List.length (Clock.bits c)) < Clock.cycle_bits c)
    (Hhist : is_bits (last_bits w) = true) :
  exists w' c',
    cycle_ticks TOKENS w tis = (w', Py.Ok tt)
    /\ clock w' = Some c'
    /\ Clock.cycle_bits c' = Clock.cycle_bits c
    /\ Z.of_nat (List.length (Clock.bits c'))
       = (Z.of_nat (List.length (Clock.bits c)) + Z.of_nat (List.length tis))
         mod Clock.cycle_bits c
    /\ Clock.window_counter c'
       = Clock.window_counter c
         + (Z.of_nat (List.length (Clock.bits c)) + Z.of_nat (List.length tis))
           / Clock.cycle_bits c
    /\ last_bits w'
       = fold_left push_last_bits (map (fun ti => presence_bit (seen ti)) tis)
                   (last_bits w).
Proof.
  revert w s0 c Hrun Hpaused Hwatcher Hclock Hcb Hbits Hlen Hhist.
  induction tis as [|ti tis IH]; intros w s0 c Hrun Hp Hw Hc Hcb Hb Hlen Hl.
  - exists w, c. cbn [cycle_ticks List.length map fold_left].
    rewrite Z.add_0_r, Z.mod_small, Z.div_small by lia.
    repeat split; try assumption; lia.
  - destruct (cycle_tick_step w ti s0 c Hrun Hp Hw Hc Hcb Hb Hlen Hl)
      as (w1 & sigs & c1 & Ht & Hrun1 & Hp1 & Hw1 & Hc1 & Hcb1 & Hb1 & Hl1 & Hcase).
    assert (Hhist1 : is_bits (last_bits w1) = true).
    { rewrite Hl1. apply push_is_bits; [assumption | apply presence_bit_is_bit]. }
    assert (Hlen1 : Z.of_nat (List.length (Clock.bits c1)) < Clock.cycle_bits c1).
    { rewrite Hcb1. destruct Hcase as [(H1 & H2 & _) | (H1 & H2 & _)];
        [lia | rewrite H2; simpl; lia]. }
    destruct (IH w1 (seen ti) c1 Hrun1 Hp1 Hw1 Hc1 ltac:(lia) Hb1 Hlen1 Hhist1)
      as (w' & c' & Hrun' & Hc' & Hcb' & Hlen' & Hwc' & Hl').
    exists w', c'. cbn [cycle_ticks]. rewrite Ht.
    split; [exact Hrun'|]. split; [exact Hc'|]. split; [congruence|].
    cbn [map fold_left]. rewrite <- Hl1. split; [|split; [|exact Hl']].
    + rewrite Hlen', Hcb1. cbn [List.length]. rewrite Nat2Z.inj_succ.
      destruct Hcase as [(H1 & H2 & _) | (H1 & H2 & _)].
      * rewrite H2. f_equal. lia.
      * rewrite H2. cbn [List.length].
        replace (Z.of_nat (List.length (Clock.bits c)) + Z.succ (Z.of_nat (List.length tis)))
          with (Z.of_nat (List.length tis) + 1 * Clock.cycle_bits c) by lia.
        rewrite Z.mod_add by lia. reflexivity.
    + rewrite Hwc', Hcb1. cbn [List.length]. rewrite Nat2Z.inj_succ.
      destruct Hcase as [(H1 & H2 & H3) | (H1 & H2 & H3)].
      * rewrite H2, H3. do 2 f_equal. lia.
      * rewrite H2, H3. cbn [List.length].
        replace (Z.of_nat (List.length (Clock.bits c)) + Z.succ (Z.of_nat (List.length tis)))
          with (Z.of_nat (List.length tis) + 1 * Clock.cycle_bits c) by lia.
        rewrite Z.div_add by lia. simpl. lia.
Qed.

End WithTable.

Section Paused.

Variable TOKENS : list string.
Hypothesis TOKENS_length : List.length TOKENS = 64%nat.

(** While the window is paused, an action tick does nothing at all, and a
    cycle tick leaves the clock as it is; the history still takes the
    presence bit, and the only token that can be shown is a keepalive
    one. *)
Theorem paused_ticks_freeze_clock (io : Actuator) (w : MiniUI) (s : string)
    (c : Clock.DriftClock) (d : Draws) (t u r : float)
    (Hrun : run_flag w = true) (Hpaused : paused w = true)
    (Hwatcher : watcher w = Some s) (Hclock : clock w = Some c)
    (Hhist : is_bits (last_bits w) = true) :
  _on_action_tick io TOKENS w d = (w, Py.Ok [])
  /\ exists w' sigs,
       _on_cycle_tick TOKENS w t u r = (w', Py.Ok sigs)
       /\ clock w' = Some c
       /\ last_bits w' = push_last_bits (last_bits w) (presence_bit s)
       /\ (sigs = [SigPresence s]
           \/ exists token,
                sigs = [SigPresence s; SigToken ("[keepalive] " ++ token)%string]).
Proof.
  split.
  - unfold _on_action_tick. now rewrite Hrun, Hclock, Hwatcher, Hpaused.
  - unfold _on_cycle_tick. rewrite Hrun, Hclock, Hwatcher, Hpaused. cbn [negb andb].
    assert (Hpush : is_bits (push_last_bits (last_bits w) (presence_bit s)) = true)
      by (apply push_is_bits; [assumption | apply presence_bit_is_bit]).
    destruct (keepalive_seconds w <=? t - last_emit_ts w)%float.
    + cbn [set_last_bits set_clock last_bits].
      destruct (keepalive_token_found TOKENS TOKENS_length _ Hpush) as [token Ht].
      rewrite Ht. do 2 eexists. split; [reflexivity|].
      cbn [set_last_emit_ts set_clock set_last_bits clock last_bits].
      repeat (split; [reflexivity|]). right. eauto.
    + do 2 eexists. split; [reflexivity|].
      cbn [set_clock set_last_bits clock last_bits].
      repeat (split; [reflexivity|]). left. reflexivity.
Qed.

End Paused.

(** A window of window size 3, running and not paused. *)
Lemma cycle_ticks_emit_every_window_witness :
  let c := Clock.init 3 0.002 0.02 in
  let w := mkMiniUI Scenario.defaults (Some "offline"%string) (Some c)
                    true false ModeAuto [] 24 0 12 in
  let tis := map (fun s => mkTickInput s 5 0.001 0.5)
                 ["online"; "offline"; "idle"; "dnd"; "away"; "mobile"; "online"]%string in
  List.length TokenTable.plain = 64%nat
  /\ run_flag w = true /\ paused w = false
  /\ watcher w = Some "offline"%string /\ clock w = Some c
  /\ 1 <= Clock.cycle_bits c
  /\ is_bits (Clock.bits c) = true
  /\ Z.of_nat (List.length (Clock.bits c)) < Clock.cycle_bits c
  /\ is_bits (last_bits w) = true
  /\ exists w' c',
       cycle_ticks TokenTable.plain w tis = (w', Py.Ok tt)
       /\ clock w' = Some c'
       /\ Z.of_nat (List.length (Clock.bits c')) = 1
       /\ Clock.window_counter c' = 2
       /\ last_bits w' = [1; 0; 1; 1; 0; 1; 1].
Proof.
  intros c w tis.
  do 9 (split; [first [reflexivity | vm_compute; discriminate]|]).
  assert (Hcb : 1 <= Clock.cycle_bits c) by (vm_compute; discriminate).
  assert (Hlen : Z.of_nat (List.length (Clock.bits c)) < Clock.cycle_bits c)
    by (vm_compute; reflexivity).
  destruct (cycle_ticks_emit_every_window TokenTable.plain eq_refl w tis
              "offline"%string c eq_refl eq_refl eq_refl eq_refl Hcb eq_refl Hlen
              eq_refl)
    as (w' & c' & H1 & H2 & _ & H4 & H5 & H6).
  exists w', c'.
  split; [exact H1|]. split; [exact H2|]. split; [exact H4|].
  split; [exact H5 | exact H6].
Defined.

Lemma paused_ticks_freeze_clock_witness :
  let c := Clock.init 3 0.002 0.02 in
  let w := mkMiniUI Scenario.defaults (Some "online"%string) (Some c)
                    true true ModeAuto [] 24 0 12 in
  List.length TokenTable.plain = 64%nat
  /\ run_flag w = true /\ paused w = true
  /\ watcher w = Some "online"%string /\ clock w = Some c
  /\ is_bits (last_bits w) = true
  /\ _on_action_tick Scenario.click_fails TokenTable.plain w Scenario.click_draws
     = (w, Py.Ok []).
Proof.
  intros c w. do 6 (split; [reflexivity|]).
  apply (paused_ticks_freeze_clock TokenTable.plain eq_refl Scenario.click_fails w
           "online"%string c Scenario.click_draws 20 0.001 0.5);
    reflexivity.
Defined.

End TickFacts.

(** ** Normalised names *)

Module NameFacts.

Import Names.

Lemma lower_char_idem (c : ascii) : lower_char (lower_char c) = lower_char c.
Proof.
  destruct (is_upper c) eqn:E.
  - assert (Hl : lower_char c = ascii_of_nat (nat_of_ascii c + 32))
      by (unfold lower_char; now rewrite E).
    unfold is_upper in E. apply andb_prop in E. destruct E as [E1 E2].
    apply Nat.leb_le in E1, E2. rewrite Hl.
    unfold lower_char at 1. unfold is_upper.
    rewrite nat_ascii_embedding by lia.
    destruct (Nat.leb_spec (nat_of_ascii c + 32) 90); [lia|].
    now rewrite andb_false_r.
  - assert (Hl : lower_char c = c) by (unfold lower_char; now rewrite E).
    now rewrite !Hl.
Qed.

(** *** Words *)

Lemma forallb_rev {A : Type} (f : A -> bool) (l : list A) :
  forallb f (rev l) = forallb f l.
Proof.
  induction l as [|a l IH]; [reflexivity|].
  cbn [rev forallb]. rewrite forallb_app, IH. cbn [forallb].
  rewrite andb_true_r. apply andb_comm.
Qed.

Lemma split_go_words (s : list ascii) : forall cur,
  forallb (fun c => negb (is_space c)) cur = true ->
  forallb is_word (split_go cur s) = true.
Proof.
  induction s as [|c t IH]; intros cur Hcur; cbn [split_go].
  - destruct cur as [|x cur]; [reflexivity|].
    cbn [forallb]. rewrite andb_true_r. unfold is_word.
    rewrite length_rev. cbn [List.length Nat.eqb negb andb].
    rewrite forallb_rev. exact Hcur.
  - destruct (is_space c) eqn:E.
    + destruct cur as [|x cur]; [now apply IH|].
      cbn [forallb]. rewrite (IH [] eq_refl), andb_true_r. unfold is_word.
      rewrite length_rev. cbn [List.length Nat.eqb negb andb].
      rewrite forallb_rev. exact Hcur.
    + apply IH. cbn [forallb]. now rewrite E, Hcur.
Qed.

(** Reading a word [w] that is followed by a space or by nothing. *)
Lemma split_go_word (w : list ascii) : forall cur rest,
  forallb (fun c => negb (is_space c)) w = true ->
  split_go cur (w ++ rest) = split_go (rev w ++ cur) rest.
Proof.
  induction w as [|c w IH]; intros cur rest Hw; [reflexivity|].
  cbn [forallb] in Hw. apply andb_prop in Hw. destruct Hw as [Hc Hw].
  apply negb_true_iff in Hc. cbn [app split_go]. rewrite Hc.
  rewrite (IH (c :: cur) rest Hw). cbn [rev]. now rewrite <- app_assoc.
Qed.

(** [split] undoes [join] on words. *)
Lemma split_join (ws : list (list ascii)) :
  forallb is_word ws = true -> split (join ws) = ws.
Proof.
  unfold split. induction ws as [|w ws IH]; intros H; [reflexivity|].
  cbn [forallb] in H. apply andb_prop in H. destruct H as [Hw Hws].
  unfold is_word in Hw. apply andb_prop in Hw. destruct Hw as [Hne Hns].
  assert (Hrev : rev w <> []).
  { destruct w; [discriminate|]. simpl. now destruct (rev w). }
  destruct ws as [|w' ws].
  - cbn [join]. rewrite <- (app_nil_r w) at 1.
    rewrite (split_go_word w [] [] Hns), app_nil_r. cbn [split_go].
    destruct (rev w) eqn:E; [congruence|]. now rewrite <- E, rev_involutive.
  - change (join (w :: w' :: ws)) with (w ++ " "%char :: join (w' :: ws)).
    rewrite (split_go_word w [] _ Hns), app_nil_r. cbn [split_go].
    change (is_space " ") with true. cbv iota.
    destruct (rev w) eqn:E; [congruence|].
    rewrite <- E, rev_involutive. f_equal. now apply IH.
Qed.

Lemma join_head (ws : list (list ascii)) :
  forallb is_word ws = true ->
  match join ws with [] => True | c :: _ => is_space c = false end.
Proof.
  destruct ws as [|w ws]; [easy|]. cbn [forallb]. intros H.
  apply andb_prop in H. destruct H as [Hw _]. unfold is_word in Hw.
  apply andb_prop in Hw. destruct Hw as [Hne Hns].
  destruct w as [|c w]; [discriminate|].
  cbn [forallb] in Hns. apply andb_prop in Hns. destruct Hns as [Hc _].
  apply negb_true_iff in Hc. destruct ws; exact Hc.
Qed.

Lemma join_last (ws : list (list ascii)) :
  forallb is_word ws = true ->
  match rev (join ws) with [] => True | c :: _ => is_space c = false end.
Proof.
  induction ws as [|w ws IH]; [easy|]. cbn [forallb]. intros H.
  apply andb_prop in H. destruct H as [Hw Hws]. specialize (IH Hws).
  unfold is_word in Hw. apply andb_prop in Hw. destruct Hw as [Hne Hns].
  destruct ws as [|w' ws].
  - cbn [join]. rewrite <- forallb_rev in Hns.
    destruct (rev w) as [|c r]; [easy|].
    cbn [forallb] in Hns. apply andb_prop in Hns. destruct Hns as [Hc _].
    now apply negb_true_iff in Hc.
  - change (join (w :: w' :: ws)) with (w ++ " "%char :: join (w' :: ws)).
    rewrite rev_app_distr. cbn [rev]. rewrite <- app_assoc.
    destruct (rev (join (w' :: ws))) as [|c r] eqn:E; [|exact IH].
    exfalso. apply (f_equal (@List.length ascii)) in E.
    rewrite length_rev in E. destruct w' as [|x w']; [discriminate|].
    destruct ws; simpl in E; try rewrite length_app in E; simpl in E; lia.
Qed.

Lemma lstrip_head (s : list ascii) :
  match s with [] => True | c :: _ => is_space c = false end -> lstrip s = s.
Proof. destruct s as [|c t]; [reflexivity|]. cbn [lstrip]. now intros ->. Qed.

(** [strip] leaves joined words alone. *)
Lemma strip_join (ws : list (list ascii)) :
  forallb is_word ws = true -> strip (join ws) = join ws.
Proof.
  intros H. unfold strip.
  rewrite (lstrip_head (join ws) (join_head ws H)).
  rewrite (lstrip_head (rev (join ws)) (join_last ws H)).
  apply rev_involutive.
Qed.

Lemma lower_join (ws : list (list ascii)) :
  lower (join ws) = join (map lower ws).
Proof.
  induction ws as [|w ws IH]; [reflexivity|].
  destruct ws as [|w' ws]; [reflexivity|].
  change (join (w :: w' :: ws)) with (w ++ " "%char :: join (w' :: ws)).
  unfold lower in *. rewrite map_app. cbn [map]. rewrite IH. reflexivity.
Qed.

(** The characters of the words [split] returns are characters of the
    text. *)
Lemma split_go_chars (P : ascii -> Prop) (s : list ascii) : forall cur,
  Forall P cur -> Forall P s -> Forall (Forall P) (split_go cur s).
Proof.
  induction s as [|c t IH]; intros cur Hcur Hs; cbn [split_go].
  - destruct cur; [constructor|]. constructor; [|constructor].
    now apply Forall_rev.
  - inversion Hs; subst. destruct (is_space c).
    + destruct cur; [now apply IH|].
      constructor; [now apply Forall_rev | now apply IH].
    + apply IH; [constructor|]; assumption.
Qed.

Lemma lower_fixed (w : list ascii) :
  Forall (fun c => lower_char c = c) w -> lower w = w.
Proof.
  induction 1 as [|c w Hc _ IH]; [reflexivity|].
  unfold lower in *. cbn [map]. now rewrite Hc, IH.
Qed.

Lemma map_lower_fixed (ws : list (list ascii)) :
  Forall (Forall (fun c => lower_char c = c)) ws -> map lower ws = ws.
Proof.
  induction 1 as [|w ws Hw _ IH]; [reflexivity|].
  cbn [map]. now rewrite (lower_fixed w Hw), IH.
Qed.

(** On ASCII names, the result of [normalize_name] is left alone by each
    of its stages ([strip], [lower], and [split] followed by [join]), and
    so by [normalize_name] itself. *)
Theorem normalize_name_canonical (name : option string)
    (Hascii : match name with Some s => is_ascii s = true | None => True end) :
  let r := list_ascii_of_string (normalize_name name) in
  strip r = r
  /\ lower r = r
  /\ join (split r) = r
  /\ normalize_name (Some (normalize_name name)) = normalize_name name.
Proof.
  clear Hascii. unfold normalize_name.
  set (x := lower (strip (list_ascii_of_string
                            match name with Some s => s | None => EmptyString end))).
  rewrite list_ascii_of_string_of_list_ascii. cbv zeta.
  assert (Hw : forallb is_word (split x) = true)
    by (apply split_go_words; reflexivity).
  assert (Hl : Forall (Forall (fun c => lower_char c = c)) (split x)).
  { apply split_go_chars; [constructor|].
    subst x. unfold lower. apply Forall_forall. intros c Hc.
    apply in_map_iff in Hc. destruct Hc as (c0 & <- & _). apply lower_char_idem. }
  assert (H1 : strip (join (split x)) = join (split x)) by now apply strip_join.
  assert (H2 : lower (join (split x)) = join (split x))
    by (rewrite lower_join; now rewrite map_lower_fixed).
  assert (H3 : split (join (split x)) = split x) by now apply split_join.
  repeat split; try assumption.
  - now rewrite H3.
  - now rewrite H1, H2, H3.
Qed.

Lemma normalize_name_canonical_witness :
  is_ascii "  Mixed   CASE	Name " = true
  /\ normalize_name (Some "  Mixed   CASE	Name "%string) = "mixed case name"%string
  /\ normalize_name (Some (normalize_name (Some "  Mixed   CASE	Name "%string)))
     = normalize_name (Some "  Mixed   CASE	Name "%string).
Proof.
  split; [reflexivity|]. split; [reflexivity|].
  apply (normalize_name_canonical (Some "  Mixed   CASE	Name "%string) eq_refl).
Defined.

End NameFacts.

(** ** Presence labels and the watcher *)

Module PresenceFacts.

Import Presence.

Lemma label_state_active (a st : string) :
  label_state a = Some st -> In st ACTIVE_STATES.
Proof.
  unfold label_state, ACTIVE_STATES.
  destruct (contains "mobile" a); [intros H; inversion H; simpl; tauto|].
  destruct (contains "do not disturb" a || contains "dnd" a);
    [intros H; inversion H; simpl; tauto|].
  destruct (contains "idle" a); [intros H; inversion H; simpl; tauto|].
  destruct (contains "online" a); [intros H; inversion H; simpl; tauto|].
  discriminate.
Qed.

Lemma element_state (el : Element) :
  _presence_from_element el = EmptyString
  \/ In (_presence_from_element el) ACTIVE_STATES.
Proof.
  unfold _presence_from_element.
  match goal with |- context [label_state ?a] => destruct (label_state a) eqn:E end;
    [right; eapply label_state_active; eassumption | left; reflexivity].
Qed.

Lemma first_state_active (els : list Element) (st : string) :
  first_state els = Some st -> In st ACTIVE_STATES.
Proof.
  induction els as [|el t IH]; [discriminate|]. cbn [first_state].
  destruct (element_state el) as [E | E].
  - rewrite E. exact IH.
  - destruct (String.length (_presence_from_element el) =? 0)%nat; [exact IH|].
    intros H. inversion H. now subst.
Qed.

Lemma from_selectors_known (row : Row) (sels : list string) :
  In (from_selectors row sels) (ACTIVE_STATES ++ ["offline"%string]).
Proof.
  induction sels as [|sel t IH]; cbn [from_selectors].
  - apply in_or_app. right. left. reflexivity.
  - destruct (row_find_elements row sel) as [els|e]; [|exact IH].
    destruct (first_state els) as [st|] eqn:E; [|exact IH].
    apply in_or_app. left. eapply first_state_active. eassumption.
Qed.

Lemma from_attributes_known (row : Row) (attrs : list string) (rest : string) :
  In rest (ACTIVE_STATES ++ ["offline"%string]) ->
  In (from_attributes row attrs rest) (ACTIVE_STATES ++ ["offline"%string]).
Proof.
  intros Hrest. induction attrs as [|attr t IH]; cbn [from_attributes]; [exact Hrest|].
  destruct (row_attribute row attr) as [v|e]; [|exact IH].
  destruct (label_state (lower_str (or_empty v))) as [st|] eqn:E; [|exact IH].
  apply in_or_app. left. eapply label_state_active. eassumption.
Qed.

(** Whatever the page answers and whichever of its calls raise,
    [_presence_from_row] returns one of the four active states or
    ["offline"], never an empty or another label; the presence bit drawn
    from it is 0 exactly for ["offline"]. *)
Theorem presence_from_row_known (row : Row) :
  In (_presence_from_row row) ["online"; "idle"; "dnd"; "mobile"; "offline"]%string
  /\ UI.presence_bit (_presence_from_row row)
     = (if (_presence_from_row row =? "offline")%string then 0 else 1).
Proof.
  assert (H : In (_presence_from_row row) (ACTIVE_STATES ++ ["offline"%string]))
    by apply from_attributes_known, from_selectors_known.
  split; [exact H|].
  set (r := _presence_from_row row) in *. clearbody r. cbn in H.
  repeat (destruct H as [<- | H]; [reflexivity|]). contradiction.
Qed.

End PresenceFacts.

(** ** More on the token table and the key output *)

Module TableMore.

Import TokenTable.

Lemma plain_NoDup : NoDup plain.
Proof.
  apply (NoDup_count_occ' string_dec). intros x Hin.
  vm_compute in Hin.
  repeat (destruct Hin as [<- | Hin]; [vm_compute; reflexivity|]).
  contradiction.
Qed.

(** The entries of the table [make_token_table] returns are pairwise
    different, shuffled or not: no two indices give the same token. *)
Theorem make_token_table_distinct (fuel : nat) (randomize : bool)
    (shuffle : list string -> list string)
    (Hperm : forall l, Permutation l (shuffle l)) :
  exists t,
    make_token_table fuel randomize shuffle = Some (Py.Ok t)
    /\ NoDup t
    /\ forall i j a, Py.index t i = Py.Ok a -> Py.index t j = Py.Ok a ->
                     0 <= i -> 0 <= j -> i = j.
Proof.
  assert (Hidx : forall t : list string, NoDup t ->
             forall i j a, Py.index t i = Py.Ok a -> Py.index t j = Py.Ok a ->
                           0 <= i -> 0 <= j -> i = j).
  { intros t Hnd i j a Hi Hj H0i H0j. unfold Py.index in *.
    destruct (i <? 0) eqn:Ei; [apply Z.ltb_lt in Ei; lia|]. rewrite Ei in Hi.
    destruct (j <? 0) eqn:Ej; [apply Z.ltb_lt in Ej; lia|]. rewrite Ej in Hj.
    destruct (nth_error t (Z.to_nat i)) as [x|] eqn:Ni; [|discriminate].
    destruct (nth_error t (Z.to_nat j)) as [y|] eqn:Nj; [|discriminate].
    inversion Hi; inversion Hj; subst.
    assert (Hlt : (Z.to_nat i < List.length t)%nat)
      by (apply nth_error_Some; congruence).
    pose proof (proj1 (NoDup_nth_error t) Hnd (Z.to_nat i) (Z.to_nat j) Hlt) as H.
    rewrite Ni, Nj in H. specialize (H eq_refl). lia. }
  unfold make_token_table.
  rewrite TokenTableFacts.grow_base0, TokenTableFacts.plain_spec. cbn [Py.bind].
  destruct randomize.
  - assert (Hin : str_in RESET_TOKEN (shuffle plain) = true).
    { apply TokenTableFacts.str_in_In.
      apply (Permutation_in _ (Hperm plain)). left. reflexivity. }
    assert (Hnd : NoDup (shuffle plain))
      by (apply (Permutation_NoDup (Hperm plain)), plain_NoDup).
    exists (shuffle plain). unfold ensure_reset. rewrite Hin.
    split; [reflexivity|]. split; [exact Hnd | now apply Hidx].
  - exists plain. split; [reflexivity|].
    split; [apply plain_NoDup | apply Hidx, plain_NoDup].
Qed.

Lemma make_token_table_distinct_witness :
  (forall l : list string, Permutation l (rev l))
  /\ exists t,
       make_token_table 0 true (@rev string) = Some (Py.Ok t) /\ NoDup t.
Proof.
  split; [intros l; apply Permutation_rev|].
  destruct (make_token_table_distinct 0 true (@rev string))
    as (t & H1 & H2 & _); [intros l; apply Permutation_rev|].
  exists t. split; assumption.
Defined.

End TableMore.

(** ** Key output *)

Module KeyFacts.

Import UI.

Lemma key_mapping_single (key : string) :
  String.length key = 1%nat -> dict_get key_mapping key key = key.
Proof.
  intros Hlen. unfold key_mapping. cbn [dict_get].
  repeat match goal with
         | |- context [(?k =? key)%string] =>
             destruct (String.eqb_spec k key) as [E | _];
             [rewrite <- E in Hlen; discriminate|]
         end.
  reflexivity.
Qed.

(** The dispatch of [key_press] without the [keyboard] module's path. *)
Lemma key_press_body_adminless (io : Actuator) (key : string) :
  dict_get key_mapping key key = key ->
  (str_in key key_known = false ->
   (String.length key =? 1)%nat && isprintable key = true) ->
  forall kd : float,
  key_press_body io key kd true
  = (_ <- (if str_in key key_known then pyautogui_press io key
           else pyautogui_write io key) ;;
     _ <- time_sleep io (Py.max 0 kd) ;;
     Py.Ok ("key:" ++ key)%string).
Proof.
  intros Hmap Hsingle kd. unfold key_press_body. rewrite Hmap.
  destruct (str_in key key_known) eqn:E.
  - cbn [negb]. rewrite andb_false_r. reflexivity.
  - rewrite (Hsingle eq_refl). reflexivity.
Qed.

(** With adminless keys, whatever the key chooser picks is sent under its
    own name: a key [pyautogui] knows by name is pressed, and only a single
    printable character is ever typed as text; [time.sleep(max(0.0,
    key_delay))] follows. The tag names that key when both calls return,
    and is a [key-skip] tag when either raises. *)
Theorem chosen_key_dispatch (io : Actuator) (token : string) (d : Draws)
    (kd : float) :
  let a := _choose_key_action token d in
  key_press_body io a kd true
  = (_ <- (if str_in a key_known then pyautogui_press io a
           else pyautogui_write io a) ;;
     _ <- time_sleep io (Py.max 0 kd) ;;
     Py.Ok ("key:" ++ a)%string)
  /\ (str_in a key_known = false -> String.length a = 1%nat /\ isprintable a = true)
  /\ ((exists u1 u2,
         (if str_in a key_known then pyautogui_press io a
          else pyautogui_write io a) = Py.Ok u1
         /\ time_sleep io (Py.max 0 kd) = Py.Ok u2
         /\ key_press io a kd true = ("key:" ++ a)%string)
      \/ (exists e,
            ((if str_in a key_known then pyautogui_press io a
              else pyautogui_write io a) = Py.Raise e
             \/ time_sleep io (Py.max 0 kd) = Py.Raise e)
            /\ key_press io a kd true
               = ("key-skip:" ++ a ++ ":" ++ Py.class_name e)%string)).
Proof.
  intros a.
  assert (Hmap : dict_get key_mapping a a = a
                 /\ (str_in a key_known = false ->
                     (String.length a =? 1)%nat && isprintable a = true)).
  { subst a. unfold _choose_key_action.
    destruct (random_r d <? 0.85)%float.
    - pose proof (ActionFacts.choice_In (choice_i d) KEY_ACTIONS ltac:(discriminate))
        as Hin.
      set (a := choice (choice_i d) KEY_ACTIONS) in *. clearbody a.
      vm_compute in Hin.
      repeat (destruct Hin as [<- | Hin];
              [split; [reflexivity | vm_compute; congruence]|]).
      contradiction.
    - destruct ((String.length token =? 1)%nat && isprintable token) eqn:E.
      + split; [|intros _; exact E].
        apply key_mapping_single. apply andb_prop in E. destruct E as [E _].
        now apply Nat.eqb_eq in E.
      + split; [reflexivity | vm_compute; congruence]. }
  destruct Hmap as [Hmap Hsingle].
  pose proof (key_press_body_adminless io a Hmap Hsingle kd) as Hbody.
  split; [exact Hbody|]. split.
  - intros Hk. specialize (Hsingle Hk). apply andb_prop in Hsingle.
    destruct Hsingle as [H1 H2]. apply Nat.eqb_eq in H1. auto.
  - unfold key_press. rewrite Hbody.
    destruct (if str_in a key_known then pyautogui_press io a else pyautogui_write io a)
      as [u|e]; cbn [Py.bind]; [|right; eauto].
    destruct (time_sleep io (Py.max 0 kd)) as [u2|e]; cbn [Py.bind];
      [left; eauto | right; eauto].
Qed.

(** A key delay [time.sleep] cannot take turns a key that was sent into a
    [key-skip] tag. *)
Example key_delay_overflow :
  let io := mkActuator Scenario.ok_unit Scenario.ok_unit None
              (fun _ => Py.Ok (100, 100)) (fun _ _ => Py.Ok tt)
              Scenario.ok_unit Scenario.ok_unit Scenario.ok_unit Scenario.ok_unit
              Scenario.ok_unit Scenario.ok_unit
              (fun secs => if (secs <? infinity)%float then Py.Ok tt
                           else Py.Raise (Py.OtherError "OverflowError")) in
  key_press io "w" infinity true = "key-skip:w:OverflowError"%string
  /\ key_press io "w" 0.03 true = "key:w"%string.
Proof. vm_compute. split; reflexivity. Qed.

End KeyFacts.

(** ** The watcher thread *)

Module WatcherFacts.

Import Watcher.

Lemma ltb_leb (x y : float) : (x <? y)%float = true -> (x <=? y)%float = true.
Proof.
  rewrite ltb_spec, leb_spec. unfold SFltb, SFleb.
  destruct (SFcompare (Prim2SF x) (Prim2SF y)) as [[]|]; congruence.
Qed.

(** Every turn of the watcher's loop ends in a call of [time.sleep] with a
    duration of at least 0.05 seconds (never a negative one or a NaN), and
    leaves a backoff of at most one second, whatever the poll interval, the
    clock and the page; the turn raises exactly when that call does. *)
Theorem poll_sleep_bounds (time_sleep : float -> Py.result unit)
    (w : PresenceWatcher) (t0 : float)
    (members : Py.result (list (string * string))) :
  exists secs : float,
    snd (poll time_sleep w t0 members) = time_sleep secs
    /\ (0.05 <=? secs)%float = true
    /\ (backoff (fst (poll time_sleep w t0 members)) <=? 1)%float = true.
Proof.
  exists (sleep_duration (turn w t0 members)). split; [reflexivity|]. split.
  - unfold sleep_duration, Py.max.
    match goal with |- context [(0.05 <? ?y)%float] =>
      destruct (0.05 <? y)%float eqn:E; [now apply ltb_leb | reflexivity] end.
  - cbn [poll fst]. unfold turn.
    assert (Hmin : forall x : float, (Py.min 1 x <=? 1)%float = true).
    { intros x. unfold Py.min. destruct (x <? 1)%float eqn:E;
        [now apply ltb_leb | reflexivity]. }
    destruct members as [[|kv m]|e]; cbn [backoff]; try apply Hmin.
    destruct (nmap_get (kv :: m) (target_norm w)) as [st|]; [|reflexivity].
    destruct (String.length st =? 0)%nat; reflexivity.
Qed.

Lemma turn_unseen (w : PresenceWatcher) (t0 : float)
    (members : Py.result (list (string * string))) :
  visible w members = false ->
  target_norm (turn w t0 members) = target_norm w
  /\ last_seen_ts (turn w t0 members) = last_seen_ts w
  /\ state (turn w t0 members) = expire w t0.
Proof.
  unfold visible, turn.
  destruct members as [[|kv m]|e]; intros H; try (repeat split; reflexivity).
  destruct (nmap_get (kv :: m) (target_norm w)) as [st|];
    [|repeat split; reflexivity].
  apply negb_false_iff in H. rewrite H. repeat split; reflexivity.
Qed.

(** For an ASCII target and ASCII names on the page: through turns that all
    complete their sleep and in which the target is not seen (missing from
    the list, listed with an empty status, or the page failing),
    [last_seen_ts] stays and the state stays too until a turn comes at
    least [OFFLINE_GRACE_SECONDS] after [last_seen_ts]; from that turn on
    the state is ["offline"]. *)
Theorem unseen_goes_offline_after_grace (time_sleep : float -> Py.result unit)
    (target_name : string) (w : PresenceWatcher)
    (turns : list (float * Py.result (list (string * string))))
    (Htarget : target_norm w = Names.normalize_name (Some target_name))
    (Hascii : Names.is_ascii target_name = true)
    (Hnames : forallb (fun turn => ascii_names (snd turn)) turns = true)
    (Hunseen : forallb (fun turn => negb (visible w (snd turn))) turns = true)
    (Hdone : snd (polls time_sleep w turns) = Py.Ok tt) :
  last_seen_ts (fst (polls time_sleep w turns)) = last_seen_ts w
  /\ state (fst (polls time_sleep w turns))
     = (if existsb (fun turn => (OFFLINE_GRACE_SECONDS
                                 <=? fst turn - last_seen_ts w)%float) turns
        then "offline"%string else state w).
Proof.
  clear Htarget Hascii Hnames.
  assert (Hgen : forall turns w ls,
             last_seen_ts w = ls ->
             forallb (fun turn => negb (visible w (snd turn))) turns = true ->
             snd (polls time_sleep w turns) = Py.Ok tt ->
             last_seen_ts (fst (polls time_sleep w turns)) = ls
             /\ state (fst (polls time_sleep w turns))
                = (if existsb (fun turn => (OFFLINE_GRACE_SECONDS
                                            <=? fst turn - ls)%float) turns
                   then "offline"%string else state w)).
  { clear. induction turns as [|[t0 m] turns IH]; intros w ls Hls H Hd.
    - split; [exact Hls | reflexivity].
    - cbn [forallb] in H. apply andb_prop in H. destruct H as [Hv Hrest].
      apply negb_true_iff in Hv. cbn [snd] in Hv.
      destruct (turn_unseen w t0 m Hv) as (Ht & Hl & Hs).
      cbn [polls poll existsb fst snd] in *.
      set (w1 := turn w t0 m) in *.
      destruct (time_sleep (sleep_duration w1)) as [u|e]; [|discriminate Hd].
      assert (Hrest1 : forallb (fun turn => negb (visible w1 (snd turn))) turns = true).
      { clear -Hrest Ht. induction turns as [|tn turns IHt]; [reflexivity|].
        cbn [forallb] in *. apply andb_prop in Hrest. destruct Hrest as [H1 H2].
        apply andb_true_intro. split; [|now apply IHt].
        unfold visible in *. now rewrite Ht. }
      destruct (IH w1 ls ltac:(congruence) Hrest1 Hd) as [IH1 IH2].
      rewrite IH1, IH2, Hs. split; [reflexivity|]. unfold expire. rewrite Hls.
      destruct (OFFLINE_GRACE_SECONDS <=? t0 - ls)%float; cbn [orb].
      + now destruct (existsb _ turns).
      + reflexivity. }
  now apply Hgen.
Qed.

Lemma nmap_get_some (m : list (string * string)) (target v : string) :
  nmap_get m target = Some v ->
  exists k, In (k, v) m /\ Names.normalize_name (Some k) = target.
Proof.
  induction m as [|[k1 v1] m IH]; [discriminate|].
  cbn [nmap_get]. destruct (nmap_get m target) as [v2|].
  - intros H. inversion H; subst. destruct (IH eq_refl) as (k & H1 & H2).
    exists k. split; [right; exact H1 | exact H2].
  - destruct (String.eqb_spec (Names.normalize_name (Some k1)) target) as [E | E];
      [|discriminate].
    intros H. inversion H; subst. exists k1. split; [left|]; reflexivity.
Qed.

Lemma nmap_get_match (m : list (string * string)) (target k st : string) :
  In (k, st) m ->
  Names.normalize_name (Some k) = target ->
  (forall k' st', In (k', st') m ->
                  Names.normalize_name (Some k') = target -> st' = st) ->
  nmap_get m target = Some st.
Proof.
  intros Hin Hk Huniq.
  destruct (nmap_get m target) as [v|] eqn:E.
  - destruct (nmap_get_some m target v E) as (k' & H1 & H2).
    f_equal. now apply (Huniq k' v).
  - exfalso. revert E. clear Huniq.
    induction m as [|[k0 v0] m IH]; [contradiction|].
    cbn [nmap_get]. destruct (nmap_get m target) as [v|]; [discriminate|].
    destruct Hin as [Hin | Hin].
    + inversion Hin; subst. rewrite String.eqb_refl. discriminate.
    + now apply IH in Hin.
Qed.

(** For an ASCII target and ASCII names on the page: a member whose name
    has the normal form of the target, so equal to it up to case and
    spacing, and a status that is not empty, is taken at once: the state is
    its status, [last_seen_ts] is the time of the turn and the backoff is
    0, whether the sleep that follows returns or raises. Other spellings
    of the same name must agree on the status. *)
Theorem poll_takes_matching_member (time_sleep : float -> Py.result unit)
    (target_name : string) (t0 : float)
    (w : PresenceWatcher) (m : list (string * string)) (k st : string)
    (Htarget : target_norm w = Names.normalize_name (Some target_name))
    (Hascii : Names.is_ascii target_name = true)
    (Hnames : ascii_names (Py.Ok m) = true)
    (Hin : In (k, st) m)
    (Hname : Names.normalize_name (Some k) = Names.normalize_name (Some target_name))
    (Hstatus : st <> EmptyString)
    (Hagree : forall k' st', In (k', st') m ->
                Names.normalize_name (Some k')
                = Names.normalize_name (Some target_name) -> st' = st) :
  state (fst (poll time_sleep w t0 (Py.Ok m))) = st
  /\ last_seen_ts (fst (poll time_sleep w t0 (Py.Ok m))) = t0
  /\ backoff (fst (poll time_sleep w t0 (Py.Ok m))) = 0%float.
Proof.
  clear Hascii Hnames. cbn [poll fst]. unfold turn.
  destruct m as [|kv m]; [contradiction|].
  rewrite Htarget, (nmap_get_match (kv :: m) _ k st Hin Hname Hagree).
  destruct st; [congruence|]. repeat split; reflexivity.
Qed.

Lemma unseen_goes_offline_after_grace_witness :
  let w := mkPresenceWatcher "some user" "online" 100 0.25 0 in
  let turns := [ (101, Py.Ok []); (103.5, Py.Raise (Py.OtherError "TimeoutException"));
                 (104, Py.Ok [("Other"%string, "online"%string)]);
                 (105, Py.Ok [("Some User"%string, EmptyString)]) ]%float in
  target_norm w = Names.normalize_name (Some "Some  User"%string)
  /\ Names.is_ascii "Some  User" = true
  /\ forallb (fun turn => ascii_names (snd turn)) turns = true
  /\ forallb (fun turn => negb (visible w (snd turn))) turns = true
  /\ snd (polls short_sleep w turns) = Py.Ok tt
  /\ state (fst (polls short_sleep w (firstn 2 turns))) = "online"%string
  /\ last_seen_ts (fst (polls short_sleep w turns)) = 100%float
  /\ state (fst (polls short_sleep w turns)) = "offline"%string.
Proof.
  intros w turns. do 6 (split; [reflexivity|]).
  apply (unseen_goes_offline_after_grace short_sleep "Some  User" w turns);
    reflexivity.
Defined.

Lemma poll_takes_matching_member_witness :
  let w := init "Some  User" 0.25 in
  let m := [ ("other"%string, "idle"%string); ("  SOME user"%string, "dnd"%string) ] in
  target_norm w = Names.normalize_name (Some "Some  User"%string)
  /\ Names.is_ascii "Some  User" = true
  /\ ascii_names (Py.Ok m) = true
  /\ In ("  SOME user"%string, "dnd"%string) m
  /\ Names.normalize_name (Some "  SOME user"%string)
     = Names.normalize_name (Some "Some  User"%string)
  /\ state (fst (poll short_sleep w 50 (Py.Ok m))) = "dnd"%string
  /\ last_seen_ts (fst (poll short_sleep w 50 (Py.Ok m))) = 50%float
  /\ backoff (fst (poll short_sleep w 50 (Py.Ok m))) = 0%float.
Proof.
  intros w m. do 3 (split; [reflexivity|]). split; [right; left; reflexivity|].
  split; [reflexivity|].
  apply (poll_takes_matching_member short_sleep "Some  User" 50 w m "  SOME user" "dnd").
  - reflexivity.
  - reflexivity.
  - reflexivity.
  - right. left. reflexivity.
  - reflexivity.
  - discriminate.
  - intros k' st' [H | [H | []]] Hn; inversion H; subst; [discriminate Hn | reflexivity].
Defined.

(** A poll interval [time.sleep] cannot take ends the thread at the first
    turn. *)
Example poll_interval_overflow :
  snd (polls short_sleep (init "Some User" infinity)
             [ (101, Py.Ok []); (102, Py.Ok []) ]%float)
  = Py.Raise (Py.OtherError "OverflowError").
Proof. vm_compute. reflexivity. Qed.

End WatcherFacts.

(** ** Objects handed to [add_bit] *)

Module AnyValueFacts.

Import AnyValue.

(** On the built-in values the call is [Clock.add_bit]. *)
Lemma add_bit_builtin (c : Clock.DriftClock) (v : Py.value) :
  add_bit c (Builtin v) = Py.Ok (Clock.add_bit c v).
Proof. reflexivity. Qed.

Lemma after_call_bits (TOKENS : list string) (c : Clock.DriftClock) (call : Call) :
  Session.is_bits (Clock.bits c) = true ->
  Session.is_bits (Clock.bits (after_call TOKENS c call)) = true.
Proof.
  intros H. destruct call as [b|u r|cb dr rp]; cbn [after_call].
  - unfold add_bit. destruct (truth_test b) as [t|e]; cbn [Py.bind]; [|exact H].
    cbn [Clock.bits]. rewrite ClockFacts.is_bits_app, H. now destruct t.
  - destruct (Clock.emit TOKENS c u r) as [[token c']|e] eqn:He.
    + apply ClockFacts.emit_inv in He. subst c'. unfold Clock.after_emit.
      cbn [Clock.bits].
      destruct (_ && _); [reflexivity | now apply ClockFacts.is_bits_slice_from].
    + cbn [Clock.bits]. now apply ClockFacts.is_bits_slice_from.
  - exact H.
Qed.

(** C10, as the code has it: [add_bit] takes every object whose truth test
    returns and appends 1 when the test is true, 0 when it is false; when
    the truth test raises, [add_bit] raises the same exception and the
    buffer is left as it was. Through any sequence of [add_bit], [emit] and
    [reset_params] calls on a new clock, returning or raising, the buffer
    holds only the integers 0 and 1. *)
Theorem add_bit_stores_truth (TOKENS : list string) :
  (forall (c : Clock.DriftClock) (b : object) (t : bool),
      truth_test b = Py.Ok t ->
      exists c',
        add_bit c b = Py.Ok c'
        /\ after_call TOKENS c (CallAddBit b) = c'
        /\ Clock.bits c' = Clock.bits c ++ [if t then 1 else 0])
  /\ (forall (c : Clock.DriftClock) (b : object) (e : Py.exn),
        truth_test b = Py.Raise e ->
        add_bit c b = Py.Raise e /\ after_call TOKENS c (CallAddBit b) = c)
  /\ (forall (cb : Z) (dr rp : float) (calls : list Call),
        Forall (fun b => b = 0 \/ b = 1)
               (Clock.bits (after_calls TOKENS (Clock.init cb dr rp) calls))).
Proof.
  split; [|split].
  - intros c b t Ht. cbn [after_call]. unfold add_bit. rewrite Ht. cbn [Py.bind].
    eexists. repeat split.
  - intros c b e He. cbn [after_call]. unfold add_bit. rewrite He. split; reflexivity.
  - intros cb dr rp calls.
    assert (Hinv : forall calls c, Session.is_bits (Clock.bits c) = true ->
               Session.is_bits (Clock.bits (after_calls TOKENS c calls)) = true).
    { clear. induction calls as [|call calls IH]; intros c H; [exact H|].
      unfold after_calls in *. cbn [fold_left]. apply IH.
      now apply after_call_bits. }
    specialize (Hinv calls (Clock.init cb dr rp) eq_refl).
    apply Forall_forall. intros b Hb.
    unfold Session.is_bits in Hinv. rewrite forallb_forall in Hinv.
    specialize (Hinv b Hb). unfold Session.is_bit in Hinv.
    apply orb_prop in Hinv. destruct Hinv as [H | H]; apply Z.eqb_eq in H; auto.
Qed.

(** C10, as it is worded, fails: an object whose truth test raises is not
    taken; [add_bit] raises and nothing is stored. *)
Lemma add_bit_rejects_broken :
  add_bit (Clock.init 8 0.002 0.02) broken
  = Py.Raise (Py.OtherError "ZeroDivisionError")
  /\ Clock.bits (after_call TokenTable.plain (Clock.init 8 0.002 0.02)
                            (CallAddBit broken)) = []
  /\ ~ (forall (c : Clock.DriftClock) (b : object),
           exists c', add_bit c b = Py.Ok c'
                      /\ (Clock.bits c' = Clock.bits c ++ [1]
                          \/ Clock.bits c' = Clock.bits c ++ [0])).
Proof.
  split; [reflexivity|]. split; [reflexivity|].
  intros H. destruct (H (Clock.init 8 0.002 0.02) broken) as (c' & Hc & _).
  discriminate Hc.
Qed.

(** Objects of every kind in one run. *)
Example after_calls_mixed :
  Clock.bits
    (after_calls TokenTable.plain (Clock.init 8 0.002 0.02)
       [ CallAddBit (Builtin (Py.VStr "x")); CallAddBit broken;
         CallAddBit (Instance (Py.Ok false)); CallAddBit (Builtin (Py.VInt 7));
         CallAddBit (Instance (Py.Ok true)) ])
  = [1; 0; 1; 1].
Proof. reflexivity. Qed.

End AnyValueFacts.

(** ** Action ticks under a zero weight *)

Module ActionRunFacts.

Import UI ActionRun.

Section WithTable.

Variable io : Actuator.
Variable TOKENS : list string.
Hypothesis TOKENS_length : List.length TOKENS = 64%nat.

Lemma key_dominant_tick (w : MiniUI) (c : Clock.DriftClock) (s token : string)
    (d : Draws) :
  run_flag w = true -> paused w = false ->
  clock w = Some c -> watcher w = Some s -> mode w = ModeAuto ->
  tick_token TOKENS w s = Py.Ok token ->
  st_mouse_dom (state w) = 0 -> 0 < st_key_dom (state w) ->
  _on_action_tick io TOKENS w d = (w, Py.Ok (key_signals io w c token d)).
Proof.
  intros Hrun Hp Hc Hw Hmode Ht Hm Hk. unfold _on_action_tick.
  rewrite Hrun, Hc, Hw, Hp. unfold tick_token in Ht. rewrite Ht.
  rewrite Hmode, Hm. unfold action_domain.
  destruct (Z.eqb_spec (st_key_dom (state w)) 0) as [E | _]; [lia|].
  reflexivity.
Qed.

Lemma mouse_dominant_tick (w : MiniUI) (c : Clock.DriftClock) (s token : string)
    (d : Draws) :
  run_flag w = true -> paused w = false ->
  clock w = Some c -> watcher w = Some s -> mode w = ModeAuto ->
  tick_token TOKENS w s = Py.Ok token ->
  st_key_dom (state w) = 0 -> 0 < st_mouse_dom (state w) ->
  _on_action_tick io TOKENS w d = mouse_outcome io w c token d.
Proof.
  intros Hrun Hp Hc Hw Hmode Ht Hk Hm. unfold _on_action_tick, mouse_outcome.
  rewrite Hrun, Hc, Hw, Hp. unfold tick_token in Ht. rewrite Ht.
  rewrite Hmode, Hk. unfold action_domain.
  destruct (Z.eqb_spec (st_mouse_dom (state w)) 0) as [E | _]; [lia|].
  cbn [andb Z.eqb].
  destruct (_perform_mouse io w (_choose_mouse_action token d)) as [step res].
  reflexivity.
Qed.

(** C9: in a started, unpaused window in Auto mode whose mouse weight is 0
    and whose key weight is positive, every one of any number of action
    ticks in a row acts in the key domain: it leaves the window as it was
    and sends the key action chosen with the tag of [_perform_key],
    whatever [random.uniform] would draw and whatever the pointer calls
    would do. With the key weight 0 and the mouse weight positive, every
    tick acts in the pointer domain, and leaves a window of which the same
    holds. *)
Theorem auto_zero_weight_ticks (w : MiniUI) (c : Clock.DriftClock) (s : string)
    (ds : list Draws)
    (Hrun : run_flag w = true) (Hpaused : paused w = false)
    (Hclock : clock w = Some c) (Hwatcher : watcher w = Some s)
    (Hmode : mode w = ModeAuto)
    (Hhist : Session.is_bits (last_bits w) = true) :
  exists token,
    tick_token TOKENS w s = Py.Ok token
    /\ (st_mouse_dom (state w) = 0 -> 0 < st_key_dom (state w) ->
        action_ticks io TOKENS w ds
        = (w, map (fun d => Py.Ok (key_signals io w c token d)) ds))
    /\ (st_key_dom (state w) = 0 -> 0 < st_mouse_dom (state w) ->
        forall d : Draws,
          _on_action_tick io TOKENS w d = mouse_outcome io w c token d
          /\ let w' := fst (_on_action_tick io TOKENS w d) in
             run_flag w' = true /\ paused w' = false
             /\ clock w' = Some c /\ watcher w' = Some s /\ mode w' = ModeAuto
             /\ state w' = state w /\ last_bits w' = last_bits w).
Proof.
  destruct (ActionFacts.action_token_found TOKENS TOKENS_length (last_bits w) s Hhist)
    as [token Ht].
  exists token. split; [exact Ht|]. split.
  - intros Hm Hk. induction ds as [|d ds IH]; [reflexivity|].
    cbn [action_ticks map].
    rewrite (key_dominant_tick w c s token d Hrun Hpaused Hclock Hwatcher Hmode
               Ht Hm Hk).
    rewrite IH. reflexivity.
  - intros Hk Hm d.
    rewrite (mouse_dominant_tick w c s token d Hrun Hpaused Hclock Hwatcher Hmode
               Ht Hk Hm).
    split; [reflexivity|]. unfold mouse_outcome. cbn [fst set_cur_step].
    cbn [run_flag paused clock watcher mode state last_bits].
    repeat split; assumption.
Qed.

End WithTable.

(** Mouse weight 0, key weight 100, and a pointer that is out of order:
    three ticks, three key actions. *)
Lemma auto_zero_weight_ticks_witness :
  let w := auto_window 0 in
  let c := Clock.init CYCLE_BITS_DEFAULT TOKEN_DRIFT_RANGE_DEFAULT
                      RESET_PROBABILITY_DEFAULT in
  let ds := [mkDraws 0 0.5 0; mkDraws 99.9 0.5 1; mkDraws 50 0.9 2] in
  List.length TokenTable.plain = 64%nat
  /\ run_flag w = true /\ paused w = false
  /\ clock w = Some c /\ watcher w = Some "online"%string
  /\ mode w = ModeAuto
  /\ Session.is_bits (last_bits w) = true
  /\ st_mouse_dom (state w) = 0 /\ st_key_dom (state w) = 100
  /\ action_ticks pointer_fails TokenTable.plain w ds
     = (w, [ Py.Ok [SigToken "o → w [key:w]"; SigDrift 0];
             Py.Ok [SigToken "o → a [key:a]"; SigDrift 0];
             Py.Ok [SigToken "o → o [key:o]"; SigDrift 0] ]).
Proof.
  intros w c ds. do 9 (split; [reflexivity|]).
  destruct (auto_zero_weight_ticks pointer_fails TokenTable.plain eq_refl w c
              "online"%string ds eq_refl eq_refl eq_refl eq_refl eq_refl eq_refl)
    as (token & Ht & Hkey & _).
  assert (Htok : token = "o"%string).
  { vm_compute in Ht. now inversion Ht. }
  subst token. rewrite (Hkey eq_refl ltac:(vm_compute; reflexivity)).
  vm_compute. reflexivity.
Defined.

End ActionRunFacts.
